(** * LÖVE graphics: the OpenGL texture resource and the mesh vertex map

    A shallow embedding of [src/modules/graphics/opengl/Image.cpp] and of the
    vertex-map interface declared in [src/modules/graphics/Mesh.h].

    - C++ [float] is IEEE-754 binary32, taken from the Standard Library's
      executable specification [SpecFloat] at precision 24 and [emax] 128.
    - C++ [int] is a mathematical integer; the two additions of
      [getRectangleVertices] that take caller-supplied operands wrap to 32 bits.
    - A method of [Image] is a computation over the object and the process-wide
      state (static members and the OpenGL context).  An exception leaves both
      as they were at the [throw]: nothing is rolled back. *)

From Stdlib Require Import ZArith Lia List Bool String QArith.
From Stdlib Require Import Floats.SpecFloat.
Import ListNotations.
Local Open Scope Z_scope.

(* ===================================================================== *)
(** ** binary32 arithmetic *)
(* ===================================================================== *)

Module F32.

Definition prec : Z := 24.
Definition emax : Z := 128.

Definition float : Set := spec_float.

(** [(float) n] for an [int] n: round to nearest, ties to even. *)
Definition of_int (n : Z) : float := binary_normalize prec emax n 0 false.

(** [(int) x]: truncation toward zero.  The conversion of an infinity or a NaN
    is undefined in C++; the embedding returns 0 there. *)
Definition to_int (x : float) : Z :=
  match x with
  | S754_finite s m e => cond_Zopp s (Z.shiftl (Zpos m) e)
  | _ => 0
  end.

Definition zero : float := S754_zero false.
Definition one : float := S754_finite false 8388608 (-23).
(** The literal [0.01f]. *)
Definition hundredth : float := S754_finite false 10737418 (-30).
Definition nan : float := S754_nan.

Definition add : float -> float -> float := SFadd prec emax.
Definition sub : float -> float -> float := SFsub prec emax.
Definition div : float -> float -> float := SFdiv prec emax.
Definition opp : float -> float := SFopp.
Definition ltb : float -> float -> bool := SFltb.
Definition leb : float -> float -> bool := SFleb.
Definition eqb : float -> float -> bool := SFeqb.

Definition is_nan (x : float) : bool :=
  match x with S754_nan => true | _ => false end.

(** [std::max(a, b)] is [(a < b) ? b : a]; [std::min(a, b)] is [(b < a) ? b : a]. *)
Definition max (a b : float) : float := if ltb a b then b else a.
Definition min (a b : float) : float := if ltb b a then b else a.

(** The rational a float denotes ([None] for infinities and NaN). *)
Definition to_Q (x : float) : option Q :=
  match x with
  | S754_zero _ => Some (0 # 1)
  | S754_finite s m e =>
      Some (match e with
            | Zneg k => Qmake (cond_Zopp s (Zpos m)) (2 ^ k)%positive
            | _ => Qmake (cond_Zopp s (Zpos m * 2 ^ e)) 1
            end)
  | _ => None
  end.

End F32.

(* ===================================================================== *)
(** ** C++ [int] *)
(* ===================================================================== *)

Module Int.

Definition min_int : Z := - 2 ^ 31.
Definition max_int : Z := 2 ^ 31 - 1.

Definition in_range (z : Z) : Prop := min_int <= z <= max_int.

(** Two's complement reduction to 32 bits. *)
Definition wrap (z : Z) : Z := (z + 2 ^ 31) mod 2 ^ 32 - 2 ^ 31.

Definition add (a b : Z) : Z := wrap (a + b).
Definition sub (a b : Z) : Z := wrap (a - b).

End Int.

(** Modelled from the spec: [next_p2] is defined in [common/math.h], which is
    not among the sources.  The spec calls its result "the next power of two
    ≥" the argument; [2 ^ Z.log2_up n] is the least such power (1 when
    [n <= 1]). *)
Definition next_p2 (n : Z) : Z := 2 ^ Z.log2_up n.

(** [next_p2] at a [float] argument, as in [float p2width = next_p2(width)]:
    the argument goes through [int] and the result comes back as a [float]. *)
Definition next_p2f (x : F32.float) : F32.float := F32.of_int (next_p2 (F32.to_int x)).

(* ===================================================================== *)
(** ** Collaborators of the texture resource *)
(* ===================================================================== *)

(** The enumerations and small structs come from headers that are not among
    the sources; they are declared with the members [Image.cpp] names. *)

Inductive FilterMode : Set := FILTER_NONE | FILTER_LINEAR | FILTER_NEAREST.

Definition FilterMode_eqb (a b : FilterMode) : bool :=
  match a, b with
  | FILTER_NONE, FILTER_NONE | FILTER_LINEAR, FILTER_LINEAR
  | FILTER_NEAREST, FILTER_NEAREST => true
  | _, _ => false
  end.

Inductive WrapMode : Set := WRAP_CLAMP | WRAP_REPEAT.

(** [Image::Filter]. *)
Module Filter.

Record t : Set := mk
  { min : FilterMode; mag : FilterMode; mipmap : FilterMode; anisotropy : F32.float }.

Definition with_mipmap (m : FilterMode) (f : t) : t :=
  mk (min f) (mag f) m (anisotropy f).

Definition with_anisotropy (a : F32.float) (f : t) : t :=
  mk (min f) (mag f) (mipmap f) a.

End Filter.

(** [Image::Wrap]; the member [t] is written [t_]. *)
Module Wrap.

Record t : Set := mk { s : WrapMode; t_ : WrapMode }.

End Wrap.

(** One corner of the quad: position [(x, y)] and texture coordinate [(s, t)];
    the member [t] is written [t_]. *)
Module vertex.

Record t : Set := mk { x : F32.float; y : F32.float; s : F32.float; t_ : F32.float }.

Definition with_x (v : F32.float) (p : t) : t := mk v (y p) (s p) (t_ p).
Definition with_y (v : F32.float) (p : t) : t := mk (x p) v (s p) (t_ p).
Definition with_s (v : F32.float) (p : t) : t := mk (x p) (y p) v (t_ p).
Definition with_t (v : F32.float) (p : t) : t := mk (x p) (y p) (s p) v.

End vertex.

(** [vertex vertices[4]]. *)
Record Quad : Set := mkQuad
  { v0 : vertex.t; v1 : vertex.t; v2 : vertex.t; v3 : vertex.t }.

Definition quad_upd (i : nat) (f : vertex.t -> vertex.t) (q : Quad) : Quad :=
  match i with
  | 0%nat => mkQuad (f (v0 q)) (v1 q) (v2 q) (v3 q)
  | 1%nat => mkQuad (v0 q) (f (v1 q)) (v2 q) (v3 q)
  | 2%nat => mkQuad (v0 q) (v1 q) (f (v2 q)) (v3 q)
  | 3%nat => mkQuad (v0 q) (v1 q) (v2 q) (f (v3 q))
  | _ => q
  end.

(** The texture coordinates of the four corners, in order. *)
Definition texcoords (q : Quad) : list (F32.float * F32.float) :=
  map (fun v => (vertex.s v, vertex.t_ v)) [v0 q; v1 q; v2 q; v3 q].

(** The positions of the four corners, in order. *)
Definition positions (q : Quad) : list (F32.float * F32.float) :=
  map (fun v => (vertex.x v, vertex.y v)) [v0 q; v1 q; v2 q; v3 q].

(** [love::image::ImageData]: decoded RGBA pixels. *)
Record ImageData : Set := mkImageData
  { id_width : Z; id_height : Z; id_data : list Z }.

Inductive TextureType : Set :=
  | TYPE_UNKNOWN
  | TYPE_DXT1 | TYPE_DXT3 | TYPE_DXT5
  | TYPE_BC5s | TYPE_BC5u
  | TYPE_BC7 | TYPE_BC7srgb.

(** One mipmap level of a compressed image. *)
Record SubImage : Set := mkSubImage
  { sub_width : Z; sub_height : Z; sub_data : list Z }.

(** [love::image::CompressedData]: a format tag and one or more levels. *)
Record CompressedData : Set := mkCompressedData
  { cd_type : TextureType; cd_base : SubImage; cd_more : list SubImage }.

Definition getNumMipmaps (c : CompressedData) : Z :=
  1 + Z.of_nat (List.length (cd_more c)).

Definition getLevel (c : CompressedData) (i : Z) : SubImage :=
  nth (Z.to_nat i) (cd_base c :: cd_more c) (cd_base c).

Definition cd_getWidth (c : CompressedData) (i : Z) : Z := sub_width (getLevel c i).
Definition cd_getHeight (c : CompressedData) (i : Z) : Z := sub_height (getLevel c i).
Definition cd_getSize (c : CompressedData) (i : Z) : Z :=
  Z.of_nat (List.length (sub_data (getLevel c i))).
Definition cd_getData (c : CompressedData) (i : Z) : list Z := sub_data (getLevel c i).

Inductive GLformat : Set :=
  | GL_COMPRESSED_RGB_S3TC_DXT1_EXT
  | GL_COMPRESSED_RGBA_S3TC_DXT3_EXT
  | GL_COMPRESSED_RGBA_S3TC_DXT5_EXT
  | GL_COMPRESSED_SIGNED_RG_RGTC2
  | GL_COMPRESSED_RG_RGTC2
  | GL_COMPRESSED_RGBA_BPTC_UNORM_ARB
  | GL_COMPRESSED_SRGB_ALPHA_BPTC_UNORM_ARB
  | GL_RGBA8.

(** The commands the texture resource sends to the OpenGL context, with the
    arguments that vary.  [SetTextureFilter], [SetTextureWrap], [BindTexture]
    and [DeleteTexture] stand for the helpers of the same names in
    [OpenGL.cpp]. *)
Inductive GLCall : Set :=
  | GenTextures (name : Z)
  | BindTexture (name : Z)
  | DeleteTexture (name : Z)
  | SetTextureFilter (f : Filter.t)
  | SetTextureWrap (w : Wrap.t)
  | GetFloatv_MAX_TEXTURE_LOD_BIAS
  | TexParameteri_MAX_LEVEL (level : Z)
  | TexParameteri_GENERATE_MIPMAP
  | TexParameterf_LOD_BIAS (bias : F32.float)
  | CompressedTexImage2D (level : Z) (format : GLformat) (w h size : Z) (data : list Z)
  | TexImage2D (w h : Z) (data : option (list Z))
  | TexSubImage2D (w h : Z) (data : list Z)
  | Enable_TEXTURE_2D
  | GenerateMipmap.

(** The GLee feature flags read by the capability predicates. *)
Record Caps : Set := mkCaps
  { GLEE_VERSION_1_2 : bool;
    GLEE_VERSION_1_3 : bool;
    GLEE_VERSION_1_4 : bool;
    GLEE_VERSION_2_0 : bool;
    GLEE_VERSION_3_0 : bool;
    GLEE_VERSION_4_2 : bool;
    GLEE_SGIS_texture_lod : bool;
    GLEE_SGIS_generate_mipmap : bool;
    GLEE_EXT_texture_lod_bias : bool;
    GLEE_EXT_texture_filter_anisotropic : bool;
    GLEE_EXT_texture_compression_s3tc : bool;
    GLEE_ARB_texture_non_power_of_two : bool;
    GLEE_ARB_texture_compression : bool;
    GLEE_ARB_texture_compression_rgtc : bool;
    GLEE_ARB_texture_compression_bptc : bool;
    GLEE_ARB_framebuffer_object : bool }.

(** What does not change while the program runs: the capabilities, the
    answers of the driver, and the name table of [CompressedData]. *)
Record Env : Type := mkEnv
  { caps : Caps;
    (** the value [glGetFloatv(GL_MAX_TEXTURE_LOD_BIAS, _)] stores *)
    GL_MAX_TEXTURE_LOD_BIAS : F32.float;
    (** the anisotropy [setTextureFilter] returns for a filter *)
    grantedAnisotropy : Filter.t -> F32.float;
    (** the commands that leave an error for [glGetError] *)
    rejects : GLCall -> bool;
    (** [CompressedData::getConstant(type, str)] *)
    getConstant : TextureType -> option string;
    (** a default-constructed [Image::Wrap] *)
    defaultWrap : Wrap.t }.

(** The process-wide mutable state: the static members of [Image], the default
    filter served by [getDefaultFilter()], and the OpenGL context. *)
Record World : Type := mkWorld
  { maxMipmapSharpness : F32.float;
    defaultMipmapFilter : FilterMode;
    defaultMipmapSharpness : F32.float;
    defaultFilter : Filter.t;
    nextTexture : positive;
    glError : bool;
    glCalls : list GLCall }.

(** The messages of [love::Exception] thrown by [Image.cpp]. *)
Inductive Exception : Set :=
  (** "Cannot create image: %s compressed images are not supported on this system." *)
  | CompressedFormatNotSupported (name : string)
  (** "cannot create image: format is not supported on this system." *)
  | FormatNotSupported
  (** "Cannot create image: NPOT compressed images are not supported on this system." *)
  | NPOTCompressedNotSupported
  (** "Cannot create image: size may be too large for this system." *)
  | SizeMayBeTooLarge
  (** "Mipmap filtering is not supported on this system." *)
  | MipmapFilteringNotSupported
  (** "Cannot create mipmaps: image does not have power of two dimensions." *)
  | MipmapsNeedPowerOfTwo
  (** "Cannot load mipmaps: compressed image does not have all required levels." *)
  | CompressedLevelsMissing.

(* ===================================================================== *)
(** ** The texture resource: [love::graphics::opengl::Image] *)
(* ===================================================================== *)

Module Image.

Record Image : Type := mkImage
  { data : option ImageData;
    cdata : option CompressedData;
    width : F32.float;
    height : F32.float;
    texture : Z;
    mipmapSharpness : F32.float;
    mipmapsCreated : bool;
    isCompressed : bool;
    filter : Filter.t;
    wrap : Wrap.t;
    vertices : Quad }.

Definition set_texture (v : Z) (i : Image) : Image :=
  mkImage (data i) (cdata i) (width i) (height i) v (mipmapSharpness i)
          (mipmapsCreated i) (isCompressed i) (filter i) (wrap i) (vertices i).
Definition set_mipmapSharpness (v : F32.float) (i : Image) : Image :=
  mkImage (data i) (cdata i) (width i) (height i) (texture i) v
          (mipmapsCreated i) (isCompressed i) (filter i) (wrap i) (vertices i).
Definition set_mipmapsCreated (v : bool) (i : Image) : Image :=
  mkImage (data i) (cdata i) (width i) (height i) (texture i) (mipmapSharpness i)
          v (isCompressed i) (filter i) (wrap i) (vertices i).
Definition set_filter (v : Filter.t) (i : Image) : Image :=
  mkImage (data i) (cdata i) (width i) (height i) (texture i) (mipmapSharpness i)
          (mipmapsCreated i) (isCompressed i) v (wrap i) (vertices i).
Definition set_wrap (v : Wrap.t) (i : Image) : Image :=
  mkImage (data i) (cdata i) (width i) (height i) (texture i) (mipmapSharpness i)
          (mipmapsCreated i) (isCompressed i) (filter i) v (vertices i).
Definition set_vertices (v : Quad) (i : Image) : Image :=
  mkImage (data i) (cdata i) (width i) (height i) (texture i) (mipmapSharpness i)
          (mipmapsCreated i) (isCompressed i) (filter i) (wrap i) v.

Definition set_maxMipmapSharpness (v : F32.float) (w : World) : World :=
  mkWorld v (defaultMipmapFilter w) (defaultMipmapSharpness w) (defaultFilter w)
          (nextTexture w) (glError w) (glCalls w).
Definition set_defaultMipmapFilter (v : FilterMode) (w : World) : World :=
  mkWorld (maxMipmapSharpness w) v (defaultMipmapSharpness w) (defaultFilter w)
          (nextTexture w) (glError w) (glCalls w).
Definition set_defaultMipmapSharpness (v : F32.float) (w : World) : World :=
  mkWorld (maxMipmapSharpness w) (defaultMipmapFilter w) v (defaultFilter w)
          (nextTexture w) (glError w) (glCalls w).
Definition set_nextTexture (v : positive) (w : World) : World :=
  mkWorld (maxMipmapSharpness w) (defaultMipmapFilter w) (defaultMipmapSharpness w)
          (defaultFilter w) v (glError w) (glCalls w).
Definition set_glError (v : bool) (w : World) : World :=
  mkWorld (maxMipmapSharpness w) (defaultMipmapFilter w) (defaultMipmapSharpness w)
          (defaultFilter w) (nextTexture w) v (glCalls w).
Definition set_glCalls (v : list GLCall) (w : World) : World :=
  mkWorld (maxMipmapSharpness w) (defaultMipmapFilter w) (defaultMipmapSharpness w)
          (defaultFilter w) (nextTexture w) (glError w) v.

(** *** Methods as computations *)

Inductive outcome (A : Type) : Type :=
  | Returned (a : A)
  | Thrown (e : Exception).
Arguments Returned {A} a.
Arguments Thrown {A} e.

(** The result of a call: how it ended, and the object and the process-wide
    state it left behind. *)
Record result (A : Type) : Type := mkResult
  { how : outcome A; self : Image; world : World }.
Arguments mkResult {A} how self world.
Arguments how {A} r.
Arguments self {A} r.
Arguments world {A} r.

Definition M (A : Type) : Type := Image -> World -> result A.

Definition ret {A} (a : A) : M A := fun i w => mkResult (Returned a) i w.

Definition throw {A} (e : Exception) : M A := fun i w => mkResult (Thrown e) i w.

Definition bind {A B} (m : M A) (k : A -> M B) : M B :=
  fun i w =>
    let r := m i w in
    match how r with
    | Returned a => k a (self r) (world r)
    | Thrown e => mkResult (Thrown e) (self r) (world r)
    end.

Notation "x <- m ;; k" := (bind m (fun x => k))
  (at level 61, m at next level, right associativity).
Notation "m ;; k" := (bind m (fun _ => k))
  (at level 61, right associativity).

Definition this : M Image := fun i w => mkResult (Returned i) i w.
Definition statics : M World := fun i w => mkResult (Returned w) i w.
Definition modify (f : Image -> Image) : M unit := fun i w => mkResult (Returned tt) (f i) w.
Definition modify_world (f : World -> World) : M unit :=
  fun i w => mkResult (Returned tt) i (f w).

Definition when (b : bool) (m : M unit) : M unit := if b then m else ret tt.

Fixpoint for_each {A} (l : list A) (body : A -> M unit) : M unit :=
  match l with
  | [] => ret tt
  | a :: l' => body a ;; for_each l' body
  end.

(** The levels [1 .. n-1] visited by [for (int i = 1; i < n; i++)]. *)
Definition levels_from_1 (n : Z) : list Z :=
  map Z.of_nat (seq 1 (Z.to_nat (n - 1))).

Section Methods.

Variable env : Env.

(** *** The OpenGL context *)

(** A command is recorded; a command the driver rejects leaves an error. *)
Definition gl (c : GLCall) : M unit :=
  modify_world (fun w =>
    set_glError (glError w || rejects env c) (set_glCalls (glCalls w ++ [c]) w)).

(** [glGetError() != GL_NO_ERROR]; reading the error clears it. *)
Definition glGetError_ne_NO_ERROR : M bool :=
  w <- statics ;;
  modify_world (set_glError false) ;;
  ret (glError w).

(** [while (glGetError() != GL_NO_ERROR);] *)
Definition clear_errors : M unit := modify_world (set_glError false).

(** [glGenTextures(1, (GLuint * ) &texture)]: a fresh non-zero name. *)
Definition glGenTextures_texture : M unit :=
  w <- statics ;;
  modify_world (set_nextTexture (Pos.succ (nextTexture w))) ;;
  modify (set_texture (Zpos (nextTexture w))) ;;
  gl (GenTextures (Zpos (nextTexture w))).

Definition bindTexture (name : Z) : M unit := gl (BindTexture name).
Definition deleteTexture (name : Z) : M unit := gl (DeleteTexture name).

Definition setTextureFilter (f : Filter.t) : M F32.float :=
  gl (SetTextureFilter f) ;; ret (grantedAnisotropy env f).

Definition setTextureWrap (w : Wrap.t) : M unit := gl (SetTextureWrap w).

(** *** Capability predicates *)

Definition hasNpot : bool :=
  GLEE_VERSION_2_0 (caps env) || GLEE_ARB_texture_non_power_of_two (caps env).

Definition hasAnisotropicFilteringSupport : bool :=
  GLEE_EXT_texture_filter_anisotropic (caps env).

Definition hasMipmapSupport : bool :=
  GLEE_VERSION_1_4 (caps env) || GLEE_SGIS_generate_mipmap (caps env).

Definition hasMipmapSharpnessSupport : bool :=
  GLEE_VERSION_1_4 (caps env) || GLEE_EXT_texture_lod_bias (caps env).

Definition hasCompressedTextureSupport_any : bool :=
  GLEE_VERSION_1_3 (caps env) || GLEE_ARB_texture_compression (caps env).

Definition hasCompressedTextureSupport (type : TextureType) : bool :=
  if negb hasCompressedTextureSupport_any then false
  else
    match type with
    | TYPE_DXT1 | TYPE_DXT3 | TYPE_DXT5 =>
        GLEE_EXT_texture_compression_s3tc (caps env)
    | TYPE_BC5s | TYPE_BC5u =>
        GLEE_VERSION_3_0 (caps env) || GLEE_ARB_texture_compression_rgtc (caps env)
    | TYPE_BC7 | TYPE_BC7srgb =>
        GLEE_VERSION_4_2 (caps env) || GLEE_ARB_texture_compression_bptc (caps env)
    | _ => false
    end.

Definition getCompressedFormat (type : TextureType) : GLformat :=
  match type with
  | TYPE_DXT1 => GL_COMPRESSED_RGB_S3TC_DXT1_EXT
  | TYPE_DXT3 => GL_COMPRESSED_RGBA_S3TC_DXT3_EXT
  | TYPE_DXT5 => GL_COMPRESSED_RGBA_S3TC_DXT5_EXT
  | TYPE_BC5s => GL_COMPRESSED_SIGNED_RG_RGTC2
  | TYPE_BC5u => GL_COMPRESSED_RG_RGTC2
  | TYPE_BC7 => GL_COMPRESSED_RGBA_BPTC_UNORM_ARB
  | TYPE_BC7srgb => GL_COMPRESSED_SRGB_ALPHA_BPTC_UNORM_ARB
  | _ => GL_RGBA8
  end.

(** *** Construction *)

Definition preload : M unit :=
  i <- this ;;
  modify (set_vertices
    (mkQuad (vertex.mk F32.zero F32.zero F32.zero F32.zero)
            (vertex.mk F32.zero (height i) F32.zero F32.one)
            (vertex.mk (width i) (height i) F32.one F32.one)
            (vertex.mk (width i) F32.zero F32.one F32.zero))) ;;
  w <- statics ;;
  modify (set_filter (defaultFilter w)) ;;
  modify (fun i => set_filter (Filter.with_mipmap (defaultMipmapFilter w) (filter i)) i).

(** The array [vertices] before [preload] has written it. *)
Definition blank_quad : Quad :=
  let v := vertex.mk F32.nan F32.nan F32.nan F32.nan in mkQuad v v v v.

(** [Image::Image(love::image::ImageData * data)] *)
Definition new_from_ImageData (d : ImageData) (w : World) : Image :=
  self (preload
    (mkImage (Some d) None
             (F32.of_int (id_width d)) (F32.of_int (id_height d))
             0 (defaultMipmapSharpness w) false false
             (defaultFilter w) (defaultWrap env) blank_quad) w).

(** [Image::Image(love::image::CompressedData * cdata)] *)
Definition new_from_CompressedData (c : CompressedData) (w : World) : Image :=
  self (preload
    (mkImage None (Some c)
             (F32.of_int (cd_getWidth c 0)) (F32.of_int (cd_getHeight c 0))
             0 (defaultMipmapSharpness w) false true
             (defaultFilter w) (defaultWrap env) blank_quad) w).

(** *** Queries *)

Definition getWidth (i : Image) : F32.float := width i.
Definition getHeight (i : Image) : F32.float := height i.
Definition getVertices (i : Image) : Quad := vertices i.
Definition getData (i : Image) : option ImageData := data i.
Definition getFilter (i : Image) : Filter.t := filter i.
Definition getWrap (i : Image) : Wrap.t := wrap i.
Definition getMipmapSharpness (i : Image) : F32.float := mipmapSharpness i.

Definition getRectangleVertices (i : Image) (x y w h : Z) : Quad :=
  (* Check upper. *)
  let x := if Int.add x w >? F32.to_int (width i)
           then Int.sub (F32.to_int (width i)) w else x in
  let y := if Int.add y h >? F32.to_int (height i)
           then Int.sub (F32.to_int (height i)) h else y in
  (* Check lower. *)
  let x := if x <? 0 then 0 else x in
  let y := if y <? 0 then 0 else y in
  let tx := F32.div (F32.of_int x) (width i) in
  let ty := F32.div (F32.of_int y) (height i) in
  let tw := F32.div (F32.of_int w) (width i) in
  let th := F32.div (F32.of_int h) (height i) in
  mkQuad (vertex.mk F32.zero F32.zero tx ty)
         (vertex.mk F32.zero (F32.of_int h) tx (F32.add ty th))
         (vertex.mk (F32.of_int w) (F32.of_int h) (F32.add tx tw) (F32.add ty th))
         (vertex.mk (F32.of_int w) F32.zero (F32.add tx tw) ty).

(** *** Sampler state and mipmaps *)

Definition bind_ : M unit :=
  i <- this ;;
  if texture i =? 0 then ret tt else bindTexture (texture i).

(** [isCompressed && cdata]: the compressed source, when the image has one. *)
Definition compressed_source (i : Image) : option CompressedData :=
  if isCompressed i then cdata i else None.

Definition has_compressed_source (i : Image) : bool :=
  match compressed_source i with Some _ => true | None => false end.

(** [isCompressed && cdata && hasCompressedTextureSupport(cdata->getType())] *)
Definition supported_compressed_source (i : Image) : option CompressedData :=
  match compressed_source i with
  | Some c => if hasCompressedTextureSupport (cd_type c) then Some c else None
  | None => None
  end.

(** [filter.mipmap] is [FILTER_NEAREST] or [FILTER_LINEAR]. *)
Definition wants_mipmaps (f : Filter.t) : bool :=
  FilterMode_eqb (Filter.mipmap f) FILTER_NEAREST
  || FilterMode_eqb (Filter.mipmap f) FILTER_LINEAR.

Definition not_power_of_two (n : Z) : bool := negb (n =? next_p2 n).

Definition upload_compressed_level (c : CompressedData) (level : Z) : M unit :=
  gl (CompressedTexImage2D level (getCompressedFormat (cd_type c))
        (cd_getWidth c level) (cd_getHeight c level)
        (cd_getSize c level) (cd_getData c level)).

Definition checkMipmapsCreated : M unit :=
  i <- this ;;
  if mipmapsCreated i || negb (wants_mipmaps (filter i)) then ret tt
  else if negb (has_compressed_source i) && negb hasMipmapSupport
  then throw MipmapFilteringNotSupported
  else
    let w := F32.to_int (width i) in
    let h := F32.to_int (height i) in
    if negb (isCompressed i) && (not_power_of_two w || not_power_of_two h)
    then throw MipmapsNeedPowerOfTwo
    else
      bind_ ;;
      match supported_compressed_source i with
      | Some c =>
          let numMipmaps := getNumMipmaps c in
          (* We have to inform OpenGL if the image doesn't have all mipmap levels. *)
          (if GLEE_VERSION_1_2 (caps env) || GLEE_SGIS_texture_lod (caps env)
           then gl (TexParameteri_MAX_LEVEL (numMipmaps - 1))
           else if (cd_getWidth c (numMipmaps - 1) >? 1)
                   || (cd_getHeight c (numMipmaps - 1) >? 1)
           then
             (* Telling OpenGL to ignore certain levels isn't always supported. *)
             throw CompressedLevelsMissing
           else ret tt) ;;
          for_each (levels_from_1 numMipmaps) (upload_compressed_level c) ;;
          modify (set_mipmapsCreated true)
      | None =>
          match data i with
          | Some d =>
              if hasNpot && (GLEE_VERSION_3_0 (caps env)
                             || GLEE_ARB_framebuffer_object (caps env))
              then
                (* re-uploading the entire base image seems to be required. *)
                gl (TexImage2D w h (Some (id_data d))) ;;
                gl Enable_TEXTURE_2D ;;
                gl GenerateMipmap ;;
                modify (set_mipmapsCreated true)
              else
                gl TexParameteri_GENERATE_MIPMAP ;;
                gl (TexSubImage2D w h (id_data d)) ;;
                modify (set_mipmapsCreated true)
          | None => ret tt
          end
      end.

Definition setFilter (f : Filter.t) : M unit :=
  modify (set_filter f) ;;
  bind_ ;;
  a <- setTextureFilter f ;;
  modify (fun i => set_filter (Filter.with_anisotropy a (filter i)) i) ;;
  checkMipmapsCreated.

Definition setWrap (w : Wrap.t) : M unit :=
  modify (set_wrap w) ;;
  bind_ ;;
  setTextureWrap w.

Definition setMipmapSharpness (sharpness : F32.float) : M unit :=
  if hasMipmapSharpnessSupport then
    w <- statics ;;
    (* LOD bias has the range (-maxbias, maxbias) *)
    modify (set_mipmapSharpness
      (F32.min (F32.max sharpness
                  (F32.add (F32.opp (maxMipmapSharpness w)) F32.hundredth))
               (F32.sub (maxMipmapSharpness w) F32.hundredth))) ;;
    bind_ ;;
    i <- this ;;
    gl (TexParameterf_LOD_BIAS (F32.opp (mipmapSharpness i)))
  else
    modify (set_mipmapSharpness F32.zero).

(** *** Loading and unloading *)

Definition loadVolatilePOT : M bool :=
  glGenTextures_texture ;;
  i <- this ;;
  bindTexture (texture i) ;;
  a <- setTextureFilter (filter i) ;;
  modify (fun i => set_filter (Filter.with_anisotropy a (filter i)) i) ;;
  setTextureWrap (wrap i) ;;
  let p2width := next_p2f (width i) in
  let p2height := next_p2f (height i) in
  let s := F32.div (width i) p2width in
  let t := F32.div (height i) p2height in
  modify (fun i => set_vertices (quad_upd 1 (vertex.with_t t) (vertices i)) i) ;;
  modify (fun i => set_vertices (quad_upd 2 (vertex.with_t t) (vertices i)) i) ;;
  modify (fun i => set_vertices (quad_upd 2 (vertex.with_s s) (vertices i)) i) ;;
  modify (fun i => set_vertices (quad_upd 3 (vertex.with_s s) (vertices i)) i) ;;
  clear_errors ;;
  match compressed_source i with
  | Some c =>
      if negb (F32.eqb s F32.one) || negb (F32.eqb t F32.one)
      then throw NPOTCompressedNotSupported
      else upload_compressed_level c 0
  | None =>
      match data i with
      | Some d =>
          gl (TexImage2D (F32.to_int p2width) (F32.to_int p2height) None) ;;
          gl (TexSubImage2D (F32.to_int (width i)) (F32.to_int (height i)) (id_data d))
      | None => ret tt
      end
  end ;;
  failed <- glGetError_ne_NO_ERROR ;;
  if failed then throw SizeMayBeTooLarge
  else
    modify (set_mipmapsCreated false) ;;
    checkMipmapsCreated ;;
    i <- this ;;
    setMipmapSharpness (mipmapSharpness i) ;;
    ret true.

Definition loadVolatileNPOT : M bool :=
  glGenTextures_texture ;;
  i <- this ;;
  bindTexture (texture i) ;;
  a <- setTextureFilter (filter i) ;;
  modify (fun i => set_filter (Filter.with_anisotropy a (filter i)) i) ;;
  setTextureWrap (wrap i) ;;
  clear_errors ;;
  match compressed_source i with
  | Some c => upload_compressed_level c 0
  | None =>
      match data i with
      | Some d =>
          gl (TexImage2D (F32.to_int (width i)) (F32.to_int (height i))
                (Some (id_data d)))
      | None => ret tt
      end
  end ;;
  failed <- glGetError_ne_NO_ERROR ;;
  if failed then throw SizeMayBeTooLarge
  else
    modify (set_mipmapsCreated false) ;;
    checkMipmapsCreated ;;
    i <- this ;;
    setMipmapSharpness (mipmapSharpness i) ;;
    ret true.

Definition loadVolatile : M bool :=
  i <- this ;;
  match compressed_source i with
  | Some c =>
      if negb (hasCompressedTextureSupport (cd_type c)) then
        match getConstant env (cd_type c) with
        | Some str => throw (CompressedFormatNotSupported str)
        | None => throw FormatNotSupported
        end
      else ret tt
  | None => ret tt
  end ;;
  w <- statics ;;
  when (hasMipmapSharpnessSupport && F32.eqb (maxMipmapSharpness w) F32.zero)
       (gl GetFloatv_MAX_TEXTURE_LOD_BIAS ;;
        modify_world (set_maxMipmapSharpness (GL_MAX_TEXTURE_LOD_BIAS env))) ;;
  if hasNpot then loadVolatileNPOT else loadVolatilePOT.

Definition unloadVolatile : M unit :=
  i <- this ;;
  (* Delete the hardware texture. *)
  if negb (texture i =? 0) then
    deleteTexture (texture i) ;;
    modify (set_texture 0)
  else ret tt.

Definition load : M bool := loadVolatile.
Definition unload : M unit := unloadVolatile.

(** *** Process-wide defaults *)

Definition setDefaultMipmapSharpness (sharpness : F32.float) : M unit :=
  modify_world (set_defaultMipmapSharpness sharpness).

Definition setDefaultMipmapFilter (f : FilterMode) : M unit :=
  modify_world (set_defaultMipmapFilter f).

End Methods.

End Image.

(* ===================================================================== *)
(** ** The mesh vertex map: [love::graphics::Mesh] *)
(* ===================================================================== *)

Module Mesh.

Inductive IndexDataType : Set := INDEX_UINT16 | INDEX_UINT32.

(** The members of [Mesh] that the vertex map involves; the index buffer is
    held as its bytes. *)
Record Mesh : Set := mkMesh
  { vertexCount : nat;
    indexBuffer : list Z;
    useIndexBuffer : bool;
    indexCount : nat;
    indexDataType : IndexDataType }.

Definition getIndexDataSize (t : IndexDataType) : nat :=
  match t with INDEX_UINT16 => 2 | INDEX_UINT32 => 4 end.

(** Little-endian unsigned integers. *)
Definition encode_uint32 (v : Z) : list Z :=
  [v mod 256; (v / 256) mod 256; (v / 65536) mod 256; (v / 16777216) mod 256].

Fixpoint decode_uint16 (n : nat) (bytes : list Z) : list Z :=
  match n, bytes with
  | S n', b0 :: b1 :: rest => (b0 + 256 * b1) :: decode_uint16 n' rest
  | _, _ => []
  end.

Fixpoint decode_uint32 (n : nat) (bytes : list Z) : list Z :=
  match n, bytes with
  | S n', b0 :: b1 :: b2 :: b3 :: rest =>
      (b0 + 256 * b1 + 65536 * b2 + 16777216 * b3) :: decode_uint32 n' rest
  | _, _ => []
  end.

(** Modelled from the spec: [Mesh.cpp] is not among the sources, only the
    declaration [void setVertexMap(const std::vector<uint32> &map)].  Overload
    (a) takes an explicit index sequence; by the header's comment a 0-element
    vector is equivalent to the default vertex map. *)
Definition setVertexMap_indices (map : list Z) (m : Mesh) : Mesh :=
  mkMesh (vertexCount m) (flat_map encode_uint32 map)
         (negb (Nat.eqb (List.length map) 0)) (List.length map) INDEX_UINT32.

(** Modelled from the spec: overload (b) of [setVertexMap], declared as
    [void setVertexMap(IndexDataType datatype, const void *data, size_t datasize)],
    takes raw bytes and an explicit index datatype. *)
Definition setVertexMap_raw (datatype : IndexDataType) (bytes : list Z) (m : Mesh) : Mesh :=
  mkMesh (vertexCount m) bytes true
         (Nat.div (List.length bytes) (getIndexDataSize datatype)) datatype.

(** Modelled from the spec: overload (c) of [setVertexMap], declared as
    [void setVertexMap()], "reverts to identity mapping, disabling the index
    buffer". *)
Definition setVertexMap_none (m : Mesh) : Mesh :=
  mkMesh (vertexCount m) (indexBuffer m) false (indexCount m) (indexDataType m).

(** Modelled from the spec: [getVertexMap], declared as
    [bool getVertexMap(std::vector<uint32> &map) const], fills [map] with the
    vertex map "expanding to a uniform 32-bit sequence"; without an index
    buffer "drawing uses identity order 0..vertexCount-1", which is what it
    reports after a "none" call.  The result is the content of [map]. *)
Definition getVertexMap (m : Mesh) : list Z :=
  if useIndexBuffer m then
    match indexDataType m with
    | INDEX_UINT16 => decode_uint16 (indexCount m) (indexBuffer m)
    | INDEX_UINT32 => decode_uint32 (indexCount m) (indexBuffer m)
    end
  else map Z.of_nat (seq 0 (vertexCount m)).

End Mesh.

(* ===================================================================== *)
(** ** Sample systems and sources *)
(* ===================================================================== *)

Module Samples.

(** OpenGL 1.4 with S3TC: mipmaps, LOD bias and compressed textures, but
    power-of-two textures only. *)
Definition caps_pot : Caps :=
  mkCaps true true true false false false
         false false false false true false false false false false.

(** OpenGL 3.0 with S3TC: non-power-of-two textures as well. *)
Definition caps_npot : Caps :=
  mkCaps true true true true true false
         false false false false true false false false false false.

(** OpenGL 1.1: none of the optional features. *)
Definition caps_bare : Caps :=
  mkCaps false false false false false false
         false false false false false false false false false false.

Definition type_name (t : TextureType) : option string :=
  match t with
  | TYPE_UNKNOWN => None
  | TYPE_DXT1 => Some "dxt1"%string
  | TYPE_DXT3 => Some "dxt3"%string
  | TYPE_DXT5 => Some "dxt5"%string
  | TYPE_BC5s => Some "bc5s"%string
  | TYPE_BC5u => Some "bc5"%string
  | TYPE_BC7 => Some "bc7"%string
  | TYPE_BC7srgb => Some "bc7srgb"%string
  end.

(** A driver that accepts every command, reports a bias limit of 16 and keeps
    the anisotropy of the filter it is given. *)
Definition env_of (c : Caps) : Env :=
  mkEnv c (F32.of_int 16) Filter.anisotropy (fun _ => false) type_name
        (Wrap.mk WRAP_CLAMP WRAP_CLAMP).

Definition env_pot : Env := env_of caps_pot.
Definition env_npot : Env := env_of caps_npot.
Definition env_bare : Env := env_of caps_bare.

(** The process-wide state as the static initialisers of [Image.cpp] leave it. *)
Definition world0 : World :=
  mkWorld F32.zero FILTER_NONE F32.zero
          (Filter.mk FILTER_LINEAR FILTER_LINEAR FILTER_NONE F32.one)
          1%positive false [].

Definition raw_100x50 : ImageData := mkImageData 100 50 [].

Definition dxt1_100x50 : CompressedData :=
  mkCompressedData TYPE_DXT1 (mkSubImage 100 50 []) [].

(** A 64×64 DXT1 image whose chain stops at 16×16. *)
Definition dxt1_64x64_short : CompressedData :=
  mkCompressedData TYPE_DXT1 (mkSubImage 64 64 [])
    [mkSubImage 32 32 []; mkSubImage 16 16 []].

End Samples.

(* ===================================================================== *)
(** ** Vocabulary of the specification *)
(* ===================================================================== *)

(** A power of two: 1, 2, 4, ... *)
Definition is_pow2 (n : Z) : Prop := exists k, 0 <= k /\ n = 2 ^ k.

(** [p] is the next power of two ≥ [n]. *)
Definition next_pow2_of (n p : Z) : Prop :=
  is_pow2 p /\ n <= p /\ forall p', is_pow2 p' -> n <= p' -> p <= p'.

(** The taxonomy of errors: an unsupported capability, as opposed to an error
    reported by the driver after an upload. *)
Definition unsupported_capability (e : Exception) : bool :=
  match e with
  | SizeMayBeTooLarge => false
  | _ => true
  end.

(** The context after a list of commands has been sent to it. *)
Definition issue (env : Env) (cs : list GLCall) (w : World) : World :=
  fold_left
    (fun w c =>
       Image.set_glError (glError w || rejects env c)
         (Image.set_glCalls (glCalls w ++ [c]) w))
    cs w.

(** The command that uploads level [l] of a compressed source. *)
Definition compressed_upload (c : CompressedData) (l : Z) : GLCall :=
  CompressedTexImage2D l (Image.getCompressedFormat (cd_type c))
    (cd_getWidth c l) (cd_getHeight c l) (cd_getSize c l) (cd_getData c l).

(** The commands [bind()] sends for an image. *)
Definition bind_calls (i : Image.Image) : list GLCall :=
  if Image.texture i =? 0 then [] else [BindTexture (Image.texture i)].

(** The [float] quotient of two integers, [(float) a / (float) b]. *)
Definition fraction (a b : Z) : F32.float := F32.div (F32.of_int a) (F32.of_int b).

(** Every texture coordinate of a quad lies in [0, 1]. *)
Definition within_image (q : Quad) : bool :=
  forallb (fun st => F32.leb F32.zero (fst st) && F32.leb (fst st) F32.one
                     && F32.leb F32.zero (snd st) && F32.leb (snd st) F32.one)
          (texcoords q).

(** *** What a call of [checkMipmapsCreated] does, as functions of the object *)

(** The call returns at once. *)
Definition mipmap_skip (i : Image.Image) : bool :=
  Image.mipmapsCreated i || negb (Image.wants_mipmaps (Image.filter i)).

(** [GL_TEXTURE_MAX_LEVEL] is not available and the last level is larger than 1×1. *)
Definition chain_too_short (env : Env) (c : CompressedData) : bool :=
  negb (GLEE_VERSION_1_2 (caps env) || GLEE_SGIS_texture_lod (caps env))
  && ((cd_getWidth c (getNumMipmaps c - 1) >? 1)
      || (cd_getHeight c (getNumMipmaps c - 1) >? 1)).

(** The exception it throws when it does not return at once; this depends on
    the source, the size and the system only. *)
Definition creation_error (env : Env) (i : Image.Image) : option Exception :=
  if negb (Image.has_compressed_source i) && negb (Image.hasMipmapSupport env)
  then Some MipmapFilteringNotSupported
  else if negb (Image.isCompressed i)
          && (Image.not_power_of_two (F32.to_int (Image.width i))
              || Image.not_power_of_two (F32.to_int (Image.height i)))
  then Some MipmapsNeedPowerOfTwo
  else
    match Image.supported_compressed_source env i with
    | Some c => if chain_too_short env c then Some CompressedLevelsMissing else None
    | None => None
    end.

(** The exception it throws, if any. *)
Definition mipmap_error (env : Env) (i : Image.Image) : option Exception :=
  if mipmap_skip i then None else creation_error env i.

(** The commands it sends when it gets past its checks. *)
Definition mipmap_uploads (env : Env) (i : Image.Image) : list GLCall :=
  match Image.supported_compressed_source env i with
  | Some c =>
      if chain_too_short env c then []
      else
        (if GLEE_VERSION_1_2 (caps env) || GLEE_SGIS_texture_lod (caps env)
         then [TexParameteri_MAX_LEVEL (getNumMipmaps c - 1)] else [])
        ++ map (fun k => compressed_upload c (Z.of_nat k))
               (seq 1 (List.length (cd_more c)))
  | None =>
      match Image.data i with
      | Some d =>
          if Image.hasNpot env
             && (GLEE_VERSION_3_0 (caps env) || GLEE_ARB_framebuffer_object (caps env))
          then [TexImage2D (F32.to_int (Image.width i)) (F32.to_int (Image.height i))
                  (Some (id_data d));
                Enable_TEXTURE_2D; GenerateMipmap]
          else [TexParameteri_GENERATE_MIPMAP;
                TexSubImage2D (F32.to_int (Image.width i)) (F32.to_int (Image.height i))
                  (id_data d)]
      | None => []
      end
  end.

(** The commands it sends. *)
Definition mipmap_calls (env : Env) (i : Image.Image) : list GLCall :=
  if mipmap_skip i then []
  else if negb (Image.has_compressed_source i) && negb (Image.hasMipmapSupport env)
  then []
  else if negb (Image.isCompressed i)
          && (Image.not_power_of_two (F32.to_int (Image.width i))
              || Image.not_power_of_two (F32.to_int (Image.height i)))
  then []
  else bind_calls i ++ mipmap_uploads env i.

(** It ends by setting [mipmapsCreated]. *)
Definition mipmap_creates (env : Env) (i : Image.Image) : bool :=
  match mipmap_error env i with
  | Some _ => false
  | None =>
      negb (mipmap_skip i)
      && match Image.supported_compressed_source env i, Image.data i with
         | None, None => false
         | _, _ => true
         end
  end.

(** *** What a call of [setMipmapSharpness] stores and sends *)

Definition sharpness_low (w : World) : F32.float :=
  F32.add (F32.opp (maxMipmapSharpness w)) F32.hundredth.
Definition sharpness_high (w : World) : F32.float :=
  F32.sub (maxMipmapSharpness w) F32.hundredth.

Definition stored_sharpness (env : Env) (w : World) (s : F32.float) : F32.float :=
  if Image.hasMipmapSharpnessSupport env
  then F32.min (F32.max s (sharpness_low w)) (sharpness_high w)
  else F32.zero.

Definition sharpness_calls (env : Env) (w : World) (s : F32.float) (i : Image.Image)
  : list GLCall :=
  if Image.hasMipmapSharpnessSupport env
  then bind_calls i ++ [TexParameterf_LOD_BIAS (F32.opp (stored_sharpness env w s))]
  else [].

(** *** What a call of [loadVolatile] does *)

(** The exception of the format check at the head of [loadVolatile]. *)
Definition format_error (env : Env) (i : Image.Image) : option Exception :=
  match Image.compressed_source i with
  | Some c =>
      if Image.hasCompressedTextureSupport env (cd_type c) then None
      else Some match getConstant env (cd_type c) with
                | Some str => CompressedFormatNotSupported str
                | None => FormatNotSupported
                end
  | None => None
  end.

(** The process-wide state once the bias limit has been asked for. *)
Definition query_bias (env : Env) (w : World) : World :=
  if Image.hasMipmapSharpnessSupport env && F32.eqb (maxMipmapSharpness w) F32.zero
  then Image.set_maxMipmapSharpness (GL_MAX_TEXTURE_LOD_BIAS env)
         (issue env [GetFloatv_MAX_TEXTURE_LOD_BIAS] w)
  else w.

(** The object once a texture has been generated and the sampler state sent. *)
Definition prepared (env : Env) (i : Image.Image) (w : World) : Image.Image :=
  Image.set_filter
    (Filter.with_anisotropy (grantedAnisotropy env (Image.filter i)) (Image.filter i))
    (Image.set_texture (Zpos (nextTexture w)) i).

Definition prepared_world (env : Env) (i : Image.Image) (w : World) : World :=
  Image.set_glError false
    (issue env [GenTextures (Zpos (nextTexture w)); BindTexture (Zpos (nextTexture w));
                SetTextureFilter (Image.filter i); SetTextureWrap (Image.wrap i)]
       (Image.set_nextTexture (Pos.succ (nextTexture w)) w)).

(** The scale of the image within its padded texture. *)
Definition pot_s (i : Image.Image) : F32.float :=
  F32.div (Image.width i) (next_p2f (Image.width i)).
Definition pot_t (i : Image.Image) : F32.float :=
  F32.div (Image.height i) (next_p2f (Image.height i)).

(** The corner vertices as [loadVolatilePOT] rewrites them. *)
Definition pot_scaled (i : Image.Image) : Quad :=
  quad_upd 3 (vertex.with_s (pot_s i))
    (quad_upd 2 (vertex.with_s (pot_s i))
       (quad_upd 2 (vertex.with_t (pot_t i))
          (quad_upd 1 (vertex.with_t (pot_t i)) (Image.vertices i)))).

(** The source is compressed and the scale is not 1 on both axes. *)
Definition npot_compressed (i : Image.Image) : bool :=
  Image.has_compressed_source i
  && (negb (F32.eqb (pot_s i) F32.one) || negb (F32.eqb (pot_t i) F32.one)).

(** The commands that upload the base image. *)
Definition base_uploads (pot : bool) (i : Image.Image) : list GLCall :=
  match Image.compressed_source i with
  | Some c => [compressed_upload c 0]
  | None =>
      match Image.data i with
      | Some d =>
          if pot then
            [TexImage2D (F32.to_int (next_p2f (Image.width i)))
               (F32.to_int (next_p2f (Image.height i))) None;
             TexSubImage2D (F32.to_int (Image.width i)) (F32.to_int (Image.height i))
               (id_data d)]
          else
            [TexImage2D (F32.to_int (Image.width i)) (F32.to_int (Image.height i))
               (Some (id_data d))]
      | None => []
      end
  end.

(** The end shared by [loadVolatilePOT] and [loadVolatileNPOT], from
    [mipmapsCreated = false] on. *)
Definition load_tail (env : Env) (i : Image.Image) (w : World) : Image.result bool :=
  let i1 := Image.set_mipmapsCreated false i in
  let w1 := issue env (mipmap_calls env i1) w in
  match mipmap_error env i1 with
  | Some e => Image.mkResult (Image.Thrown e) i1 w1
  | None =>
      let i2 := if mipmap_creates env i1 then Image.set_mipmapsCreated true i1 else i1 in
      Image.mkResult (Image.Returned true)
        (Image.set_mipmapSharpness
           (stored_sharpness env w1 (Image.mipmapSharpness i)) i2)
        (issue env (sharpness_calls env w1 (Image.mipmapSharpness i) i2) w1)
  end.

(** Upload, error check and tail, from a prepared object [i1]. *)
Definition load_upload (env : Env) (pot : bool) (i1 : Image.Image) (w1 : World)
  : Image.result bool :=
  let w2 := issue env (base_uploads pot i1) w1 in
  if glError w2 then Image.mkResult (Image.Thrown SizeMayBeTooLarge) i1
                       (Image.set_glError false w2)
  else load_tail env i1 (Image.set_glError false w2).

(** Two states of an image that differ at most in [mipmapsCreated] and
    [mipmapSharpness]. *)
Definition kept (i j : Image.Image) : Prop :=
  Image.data j = Image.data i /\ Image.cdata j = Image.cdata i /\
  Image.width j = Image.width i /\ Image.height j = Image.height i /\
  Image.texture j = Image.texture i /\ Image.isCompressed j = Image.isCompressed i /\
  Image.filter j = Image.filter i /\ Image.wrap j = Image.wrap i /\
  Image.vertices j = Image.vertices i.

(** *** Histories of calls *)

(** The calls a client can make on an image. *)
Inductive Call : Type :=
  | Load
  | Unload
  | SetFilter (f : Filter.t)
  | SetWrap (w : Wrap.t)
  | SetMipmapSharpness (s : F32.float)
  | SetDefaultMipmapFilter (f : FilterMode)
  | SetDefaultMipmapSharpness (s : F32.float).

Definition perform (env : Env) (c : Call) : Image.M unit :=
  match c with
  | Load => Image.bind (Image.load env) (fun _ => Image.ret tt)
  | Unload => Image.unload env
  | SetFilter f => Image.setFilter env f
  | SetWrap w => Image.setWrap env w
  | SetMipmapSharpness s => Image.setMipmapSharpness env s
  | SetDefaultMipmapFilter f => Image.setDefaultMipmapFilter f
  | SetDefaultMipmapSharpness s => Image.setDefaultMipmapSharpness s
  end.

(** The image is fresh from one of its two constructors. *)
Definition constructed (env : Env) (i0 : Image.Image) (w0 : World) : Prop :=
  (exists d, i0 = Image.new_from_ImageData env d w0)
  \/ (exists c, i0 = Image.new_from_CompressedData env c w0).

(** The states an image goes through from [(i0, w0)] under any calls, whether
    they return or throw. *)
Inductive Reached (env : Env) (i0 : Image.Image) (w0 : World)
  : Image.Image -> World -> Prop :=
  | Reached_start : Reached env i0 w0 i0 w0
  | Reached_call c i w :
      Reached env i0 w0 i w ->
      Reached env i0 w0 (Image.self (perform env c i w))
                        (Image.world (perform env c i w)).

(** The states it goes through under calls that all return. *)
Inductive ReachedCleanly (env : Env) (i0 : Image.Image) (w0 : World)
  : Image.Image -> World -> Prop :=
  | Cleanly_start : ReachedCleanly env i0 w0 i0 w0
  | Cleanly_call c i w :
      ReachedCleanly env i0 w0 i w ->
      Image.how (perform env c i w) = Image.Returned tt ->
      ReachedCleanly env i0 w0 (Image.self (perform env c i w))
                               (Image.world (perform env c i w)).

(** What no call changes. *)
Definition immutable (i j : Image.Image) : Prop :=
  Image.data j = Image.data i /\ Image.cdata j = Image.cdata i /\
  Image.width j = Image.width i /\ Image.height j = Image.height i /\
  Image.isCompressed j = Image.isCompressed i.

(** The corner texture coordinates start at (0,0), and span to (1,1) where
    textures are not padded. *)
Definition corners_ok (env : Env) (q : Quad) : Prop :=
  vertex.s (v0 q) = F32.zero /\ vertex.t_ (v0 q) = F32.zero /\
  vertex.s (v1 q) = F32.zero /\ vertex.t_ (v3 q) = F32.zero /\
  (Image.hasNpot env = true ->
   vertex.t_ (v1 q) = F32.one /\ vertex.s (v2 q) = F32.one /\
   vertex.t_ (v2 q) = F32.one /\ vertex.s (v3 q) = F32.one).

(** The driver grants again the anisotropy it has granted. *)
Definition anisotropy_settles (env : Env) : Prop :=
  forall f,
    grantedAnisotropy env (Filter.with_anisotropy (grantedAnisotropy env f) f)
    = grantedAnisotropy env f.

(** What holds of an image after calls that all returned: mipmaps exist only
    where they can be created; and while a texture is held, the source could
    be uploaded, the mipmaps the filter asks for can be created, and the
    anisotropy and the sharpness are the values the system settles on. *)
Definition settled (env : Env) (i : Image.Image) (w : World) : Prop :=
  (Image.mipmapsCreated i = true -> creation_error env i = None) /\
  (Image.texture i <> 0 ->
   format_error env i = None /\
   (Image.hasNpot env = false -> npot_compressed i = false) /\
   existsb (rejects env) (base_uploads (negb (Image.hasNpot env)) i) = false /\
   (Image.wants_mipmaps (Image.filter i) = true -> creation_error env i = None) /\
   grantedAnisotropy env (Image.filter i) = Filter.anisotropy (Image.filter i) /\
   stored_sharpness env w (Image.mipmapSharpness i) = Image.mipmapSharpness i /\
   maxMipmapSharpness (query_bias env w) = maxMipmapSharpness w).

(** *** The commands of a load *)

(** The commands sent from [mipmapsCreated = false] to the end of a load. *)
Definition tail_calls (env : Env) (i : Image.Image) (w : World) : list GLCall :=
  let i1 := Image.set_mipmapsCreated false i in
  mipmap_calls env i1
  ++ match mipmap_error env i1 with
     | Some _ => []
     | None =>
         sharpness_calls env (issue env (mipmap_calls env i1) w)
           (Image.mipmapSharpness i)
           (if mipmap_creates env i1 then Image.set_mipmapsCreated true i1 else i1)
     end.

(** The commands sent from the upload of the base image on. *)
Definition upload_calls (env : Env) (pot : bool) (i1 : Image.Image) (w1 : World)
  : list GLCall :=
  base_uploads pot i1
  ++ (if glError (issue env (base_uploads pot i1) w1) then []
      else tail_calls env i1
             (Image.set_glError false (issue env (base_uploads pot i1) w1))).

(** The commands that generate the texture and send the sampler state. *)
Definition prepare_calls (i : Image.Image) (w : World) : list GLCall :=
  [GenTextures (Zpos (nextTexture w)); BindTexture (Zpos (nextTexture w));
   SetTextureFilter (Image.filter i); SetTextureWrap (Image.wrap i)].

(** All the commands of a call of [loadVolatile]. *)
Definition load_calls (env : Env) (i : Image.Image) (w : World) : list GLCall :=
  match format_error env i with
  | Some _ => []
  | None =>
      (if Image.hasMipmapSharpnessSupport env
          && F32.eqb (maxMipmapSharpness w) F32.zero
       then [GetFloatv_MAX_TEXTURE_LOD_BIAS] else [])
      ++ prepare_calls i w
      ++ (if Image.hasNpot env then
            upload_calls env false (prepared env i w)
              (prepared_world env i (query_bias env w))
          else if npot_compressed i then []
          else upload_calls env true
                 (Image.set_vertices (pot_scaled i) (prepared env i w))
                 (prepared_world env i (query_bias env w)))
  end.

Definition is_DeleteTexture (c : GLCall) : bool :=
  match c with DeleteTexture _ => true | _ => false end.

Definition is_GenTextures (c : GLCall) : bool :=
  match c with GenTextures _ => true | _ => false end.

(* ===================================================================== *)
(** * Facts about binary32 *)
(* ===================================================================== *)

Section Float_facts.

Import F32.

Lemma digits2_pos_bounds p :
  2 ^ (Zpos (digits2_pos p) - 1) <= Zpos p < 2 ^ Zpos (digits2_pos p).
Proof.
  induction p as [p IH | p IH |]; cbn [digits2_pos].
  - rewrite Pos2Z.inj_succ.
    replace (Z.succ (Zpos (digits2_pos p)) - 1)
      with (Z.succ (Zpos (digits2_pos p) - 1)) by lia.
    rewrite !Z.pow_succ_r by lia. lia.
  - rewrite Pos2Z.inj_succ.
    replace (Z.succ (Zpos (digits2_pos p)) - 1)
      with (Z.succ (Zpos (digits2_pos p) - 1)) by lia.
    rewrite !Z.pow_succ_r by lia. lia.
  - cbn. lia.
Qed.

Lemma digits2_pos_unique p d :
  2 ^ (d - 1) <= Zpos p < 2 ^ d -> Zpos (digits2_pos p) = d.
Proof.
  intros [Hlo Hhi]. pose proof (digits2_pos_bounds p) as [Hl Hh].
  assert (0 < d).
  { destruct (Z_lt_le_dec 0 d) as [|Hd]; [assumption|].
    assert (2 ^ d <= 2 ^ 0)
      by (destruct (Z.eq_dec d 0) as [->|];
          [lia | rewrite Z.pow_neg_r by lia; cbn; lia]).
    cbn in *. lia. }
  destruct (Z.lt_trichotomy (Zpos (digits2_pos p)) d) as [Hc | [Hc | Hc]];
    [exfalso | assumption | exfalso].
  - assert (2 ^ Zpos (digits2_pos p) <= 2 ^ (d - 1))
      by (apply Z.pow_le_mono_r; lia). lia.
  - assert (2 ^ d <= 2 ^ (Zpos (digits2_pos p) - 1))
      by (apply Z.pow_le_mono_r; lia). lia.
Qed.

Lemma digits2_pos_le_24 p : Zpos p < 2 ^ 24 -> Zpos (digits2_pos p) <= 24.
Proof.
  intros Hp. pose proof (digits2_pos_bounds p) as [Hl Hh].
  destruct (Z_le_gt_dec (Zpos (digits2_pos p)) 24) as [|Hgt]; [assumption|].
  assert (2 ^ 24 <= 2 ^ (Zpos (digits2_pos p) - 1))
    by (apply Z.pow_le_mono_r; lia). lia.
Qed.

Lemma iter_xO_pow2 m k : Zpos (Pos.iter xO m k) = Zpos m * 2 ^ Zpos k.
Proof.
  induction k as [|k IHk] using Pos.peano_ind.
  - cbn [Pos.iter]. change (2 ^ 1) with 2. lia.
  - rewrite Pos.iter_succ, Pos2Z.inj_xO, IHk, Pos2Z.inj_succ, Z.pow_succ_r by lia.
    lia.
Qed.

(** A mantissa of full width with an exponent in range is left as it is. *)
Lemma binary_round_aux_canonical s m e :
  Zpos (digits2_pos m) = 24 -> -149 <= e <= 104 ->
  binary_round_aux prec emax s (Zpos m) e loc_Exact = S754_finite s m e.
Proof.
  intros Hm He. unfold binary_round_aux, shr_fexp.
  cbn [Zdigits2 shr_record_of_loc]. rewrite Hm.
  replace (fexp prec emax (24 + e) - e) with 0
    by (unfold fexp, emin, prec, emax; lia).
  cbn [shr shr_m loc_of_shr_record round_nearest_even Zdigits2 shr_record_of_loc].
  rewrite Hm.
  replace (fexp prec emax (24 + e) - e) with 0
    by (unfold fexp, emin, prec, emax; lia).
  cbn [shr shr_m].
  replace (e <=? emax - prec) with true; [reflexivity|].
  symmetry. apply Z.leb_le. unfold emax, prec. lia.
Qed.

(** An integer below 2^24 converts exactly: the mantissa is the integer
    shifted to full width. *)
Lemma of_int_small p :
  Zpos p < 2 ^ 24 ->
  exists m, of_int (Zpos p) = S754_finite false m (Zpos (digits2_pos p) - 24) /\
            Zpos (digits2_pos m) = 24 /\
            Zpos m = Zpos p * 2 ^ (24 - Zpos (digits2_pos p)).
Proof.
  intros Hp. pose proof (digits2_pos_bounds p) as [Hl Hh].
  pose proof (digits2_pos_le_24 p Hp) as Hd.
  unfold of_int, binary_normalize, binary_round, shl_align.
  replace (fexp prec emax (Zpos (digits2_pos p) + 0) - 0)
    with (Zpos (digits2_pos p) - 24)
    by (unfold fexp, emin, prec, emax; lia).
  replace (fexp prec emax (Zpos (digits2_pos p) + 0))
    with (Zpos (digits2_pos p) - 24)
    by (unfold fexp, emin, prec, emax; lia).
  destruct (Zpos (digits2_pos p) - 24) as [|k|k] eqn:Hk; [| lia |].
  - exists p. rewrite binary_round_aux_canonical by lia.
    replace (24 - Zpos (digits2_pos p)) with 0 by lia.
    repeat split; lia.
  - assert (Hm : Zpos (Pos.iter xO p k)
                 = Zpos p * 2 ^ (24 - Zpos (digits2_pos p))).
    { rewrite iter_xO_pow2. f_equal. f_equal. lia. }
    assert (Hdm : Zpos (digits2_pos (Pos.iter xO p k)) = 24).
    { apply digits2_pos_unique. rewrite Hm. split.
      - replace (24 - 1)
          with ((Zpos (digits2_pos p) - 1) + (24 - Zpos (digits2_pos p))) by lia.
        rewrite Z.pow_add_r by lia.
        apply Z.mul_le_mono_nonneg_r; [apply Z.pow_nonneg|]; lia.
      - replace 24
          with (Zpos (digits2_pos p) + (24 - Zpos (digits2_pos p))) at 2 by lia.
        rewrite Z.pow_add_r by lia.
        apply Z.mul_lt_mono_pos_r; [apply Z.pow_pos_nonneg|]; lia. }
    exists (Pos.iter xO p k). rewrite binary_round_aux_canonical by lia.
    repeat split; assumption.
Qed.

(** The shape of [(float) n] for [0 < n <= 2^24]. *)
Lemma of_int_shape n :
  0 < n <= 2 ^ 24 ->
  exists m e, of_int n = S754_finite false m e /\
              Zpos (digits2_pos m) = 24 /\ -23 <= e <= 1 /\
              Zpos m * 2 ^ (e + 23) = n * 2 ^ 23.
Proof.
  intros Hn. destruct (Z.eq_dec n (2 ^ 24)) as [-> | Hne].
  - exists 8388608%positive, 1. repeat split; try reflexivity; lia.
  - destruct n as [|p|p]; try lia.
    destruct (of_int_small p) as (m & Hof & Hdm & Hm); [lia|].
    pose proof (digits2_pos_le_24 p ltac:(lia)) as Hd.
    exists m, (Zpos (digits2_pos p) - 24). repeat split; try assumption; try lia.
    rewrite Hm, <- Z.mul_assoc, <- Z.pow_add_r by lia.
    f_equal. f_equal. lia.
Qed.

Lemma to_int_of_int n : 0 <= n <= 2 ^ 24 -> to_int (of_int n) = n.
Proof.
  intros Hn. destruct (Z.eq_dec n 0) as [-> | Hz]; [reflexivity|].
  destruct (of_int_shape n) as (m & e & -> & Hdm & He & Hm); [lia|].
  cbn [to_int cond_Zopp].
  destruct (Z.eq_dec e 1) as [-> | He1].
  - change (2 ^ (1 + 23)) with (2 * 2 ^ 23) in Hm.
    rewrite Z.shiftl_mul_pow2 by lia. change (2 ^ 1) with 2. lia.
  - replace e with (- (- e)) by lia.
    rewrite Z.shiftl_opp_r, Z.shiftr_div_pow2 by lia.
    symmetry. apply Z.div_unique_exact; [apply Z.pow_nonzero; lia|].
    apply Z.mul_cancel_r with (p := 2 ^ (e + 23)); [apply Z.pow_nonzero; lia|].
    rewrite Hm, (Z.mul_comm (2 ^ (- e)) n), <- Z.mul_assoc, <- Z.pow_add_r by lia.
    f_equal. f_equal. lia.
Qed.

Lemma of_int_pow2 k : 0 <= k <= 24 -> of_int (2 ^ k) = S754_finite false 8388608 (k - 23).
Proof.
  intros Hk.
  assert (Hk24 : 2 ^ k <= 2 ^ 24) by (apply Z.pow_le_mono_r; lia).
  assert (Hpos : 0 < 2 ^ k) by (apply Z.pow_pos_nonneg; lia).
  destruct (of_int_shape (2 ^ k)) as (m & e & -> & Hdm & He & Hm); [lia|].
  pose proof (digits2_pos_bounds m) as Hb. rewrite Hdm in Hb.
  change (2 ^ (24 - 1)) with (2 ^ 23) in Hb.
  rewrite <- Z.pow_add_r in Hm by lia.
  assert (He' : e = k - 23).
  { destruct (Z.lt_trichotomy e (k - 23)) as [Hc | [Hc | Hc]]; [exfalso | assumption | exfalso].
    - assert (2 ^ (24 + (e + 23)) <= 2 ^ (k + 23)) by (apply Z.pow_le_mono_r; lia).
      rewrite Z.pow_add_r in H by lia.
      assert (Zpos m * 2 ^ (e + 23) < 2 ^ 24 * 2 ^ (e + 23))
        by (apply Z.mul_lt_mono_pos_r; [apply Z.pow_pos_nonneg|]; lia).
      lia.
    - assert (2 ^ (k + 23 + 1) <= 2 ^ (23 + (e + 23))) by (apply Z.pow_le_mono_r; lia).
      rewrite (Z.pow_add_r 2 23) in H by lia.
      rewrite Z.pow_add_r in H by lia. change (2 ^ 1) with 2 in H.
      assert (2 ^ 23 * 2 ^ (e + 23) <= Zpos m * 2 ^ (e + 23))
        by (apply Z.mul_le_mono_nonneg_r; [apply Z.pow_nonneg|]; lia).
      assert (0 < 2 ^ (k + 23)) by (apply Z.pow_pos_nonneg; lia).
      lia. }
  subst e. replace (k - 23 + 23) with k in Hm by lia.
  rewrite Z.pow_add_r in Hm by lia.
  assert (Zpos m = 2 ^ 23) by nia.
  f_equal. change (2 ^ 23) with 8388608 in H. congruence.
Qed.

Lemma div_eucl_exact a b : 0 < b -> Z.div_eucl (a * b) b = (a, 0).
Proof.
  intros Hb. pose proof (Z.div_mul a b ltac:(lia)) as Hq.
  pose proof (Z.mod_mul a b ltac:(lia)) as Hr.
  unfold Z.div, Z.modulo in *. destruct (Z.div_eucl (a * b) b).
  cbn in *. congruence.
Qed.

(** Dividing a full-width mantissa by a power of two only moves the exponent. *)
Lemma div_pow2 s mx ex ey :
  Zpos (digits2_pos mx) = 24 -> -125 <= ex - ey <= 127 ->
  div (S754_finite s mx ex) (S754_finite false 8388608 ey)
  = S754_finite s mx (ex - ey - 23).
Proof.
  intros Hm He. unfold div, SFdiv, SFdiv_core_binary. cbn [Zdigits2].
  rewrite Hm. change (Zpos (digits2_pos 8388608)) with 24.
  replace (Z.min (fexp prec emax (24 + ex - (24 + ey))) (ex - ey))
    with (ex - ey - 24)
    by (unfold fexp, emin, prec, emax; lia).
  replace (ex - ey - (ex - ey - 24)) with 24 by lia.
  rewrite Z.shiftl_mul_pow2 by lia.
  replace (Zpos mx * 2 ^ 24) with (Zpos (xO mx) * 8388608)
    by (change (2 ^ 24) with 16777216; lia).
  rewrite div_eucl_exact by lia.
  change (new_location 8388608 0) with loc_Exact.
  rewrite xorb_false_r.
  unfold binary_round_aux, shr_fexp.
  cbn [Zdigits2 digits2_pos shr_record_of_loc].
  rewrite Pos2Z.inj_succ, Hm.
  replace (fexp prec emax (Z.succ 24 + (ex - ey - 24)) - (ex - ey - 24)) with 1
    by (unfold fexp, emin, prec, emax; lia).
  cbn [shr iter_pos shr_1 orb shr_m loc_of_shr_record round_nearest_even
       Zdigits2 shr_record_of_loc].
  rewrite Hm.
  replace (fexp prec emax (24 + (ex - ey - 24 + 1)) - (ex - ey - 24 + 1)) with 0
    by (unfold fexp, emin, prec, emax; lia).
  cbn [shr shr_m].
  replace (ex - ey - 24 + 1 <=? emax - prec) with true
    by (symmetry; apply Z.leb_le; unfold emax, prec; lia).
  f_equal. lia.
Qed.

(** A [float] with a full-width mantissa divided by itself is exactly 1.0f. *)
Lemma div_self m e :
  Zpos (digits2_pos m) = 24 ->
  F32.div (S754_finite false m e) (S754_finite false m e) = F32.one.
Proof.
  intros Hm. unfold F32.div, SFdiv, SFdiv_core_binary. cbn [Zdigits2].
  rewrite Hm.
  replace (Z.min (fexp F32.prec F32.emax (24 + e - (24 + e))) (e - e))
    with (-24)
    by (unfold fexp, emin, F32.prec, F32.emax; lia).
  replace (e - e - -24) with 24 by lia.
  rewrite Z.shiftl_mul_pow2 by lia.
  rewrite (Z.mul_comm (Zpos m)).
  rewrite div_eucl_exact by lia.
  replace (new_location (Zpos m) 0) with loc_Exact
    by (unfold new_location, new_location_even, new_location_odd;
        destruct (Z.even (Zpos m)); reflexivity).
  reflexivity.
Qed.

Lemma fraction_whole n : 0 < n <= 2 ^ 24 -> fraction n n = F32.one.
Proof.
  intros Hn. unfold fraction.
  destruct (of_int_shape n Hn) as (m & e & -> & Hm & _).
  now apply div_self.
Qed.

Lemma fraction_none n : 0 < n <= 2 ^ 24 -> fraction 0 n = F32.zero.
Proof.
  intros Hn. unfold fraction.
  destruct (of_int_shape n Hn) as (m & e & -> & _). reflexivity.
Qed.

End Float_facts.

(* ===================================================================== *)
(** * Facts about [next_p2] and the padding scale *)
(* ===================================================================== *)

Section Padding_facts.

Import F32.

Lemma next_p2_is_pow2 n : is_pow2 (next_p2 n).
Proof. exists (Z.log2_up n). split; [apply Z.log2_up_nonneg | reflexivity]. Qed.

Lemma next_p2_ge n : n <= next_p2 n.
Proof.
  unfold next_p2. destruct (Z_lt_le_dec 1 n) as [H | H].
  - apply (Z.log2_up_spec n H).
  - rewrite Z.log2_up_eqn0 by lia. cbn. lia.
Qed.

Lemma next_p2_least n p : is_pow2 p -> n <= p -> next_p2 n <= p.
Proof.
  intros (k & Hk & ->) Hn. unfold next_p2.
  destruct (Z_lt_le_dec 1 n) as [H | H].
  - destruct (Z.log2_up_spec n H) as [Hlo _].
    apply Z.pow_le_mono_r; [lia|].
    destruct (Z_lt_le_dec k (Z.log2_up n)) as [Hlt | ]; [exfalso | assumption].
    assert (2 ^ k <= 2 ^ Z.pred (Z.log2_up n)) by (apply Z.pow_le_mono_r; lia).
    lia.
  - rewrite Z.log2_up_eqn0 by lia. cbn.
    assert (0 < 2 ^ k) by (apply Z.pow_pos_nonneg; lia). lia.
Qed.

Lemma next_p2_spec n : next_pow2_of n (next_p2 n).
Proof.
  repeat split; [apply next_p2_is_pow2 | apply next_p2_ge |].
  intros p' Hp' Hn. now apply next_p2_least.
Qed.

Lemma next_p2_fixpoint n : n = next_p2 n <-> is_pow2 n.
Proof.
  split.
  - intros ->. apply next_p2_is_pow2.
  - intros Hp. pose proof (next_p2_ge n). pose proof (next_p2_least n n Hp). lia.
Qed.

Lemma not_power_of_two_spec n : Image.not_power_of_two n = true <-> ~ is_pow2 n.
Proof.
  unfold Image.not_power_of_two. rewrite negb_true_iff, Z.eqb_neq.
  now rewrite next_p2_fixpoint.
Qed.

Lemma next_p2_upto_24 n :
  n <= 2 ^ 24 -> exists k, 0 <= k <= 24 /\ next_p2 n = 2 ^ k.
Proof.
  intros Hn. exists (Z.log2_up n). split; [|reflexivity].
  split; [apply Z.log2_up_nonneg|].
  assert (H : next_p2 n <= 2 ^ 24)
    by (apply next_p2_least; [exists 24; split; [lia | reflexivity] | assumption]).
  unfold next_p2 in H. apply Z.pow_le_mono_r_iff in H; lia.
Qed.

Lemma next_p2_pos n : 0 < next_p2 n.
Proof. apply Z.pow_pos_nonneg; [lia | apply Z.log2_up_nonneg]. Qed.

(** The scale [width / next_p2(width)] computed by [loadVolatilePOT] for a
    width [W] that a [float] holds exactly: the quotient is exact, and it is
    1.0f only if [W] is its own next power of two. *)
Lemma pot_scale W :
  0 <= W <= 2 ^ 24 ->
  let s := div (of_int W) (next_p2f (of_int W)) in
  (exists q, to_Q s = Some q /\ Qeq q (W # Z.to_pos (next_p2 W))) /\
  (eqb s one = true -> W = next_p2 W).
Proof.
  intros HW s. subst s. unfold next_p2f. rewrite to_int_of_int by assumption.
  destruct (next_p2_upto_24 W) as (k & Hk & HP); [lia|].
  rewrite HP, of_int_pow2 by assumption.
  assert (H2k : 0 < 2 ^ k) by (apply Z.pow_pos_nonneg; lia).
  destruct (Z.eq_dec W 0) as [-> | Hz].
  - cbn. split; [|discriminate].
    exists (0 # 1). split; [reflexivity|]. unfold Qeq. cbn. lia.
  - destruct (of_int_shape W) as (m & e & -> & Hdm & He & Hm); [lia|].
    rewrite div_pow2 by (assumption || lia).
    replace (e - (k - 23) - 23) with (e - k) by lia.
    split.
    + cbn [to_Q cond_Zopp].
      destruct (e - k) as [|j|j] eqn:Hj.
      * eexists; split; [reflexivity|]. unfold Qeq. cbn [Qnum Qden].
        rewrite Z2Pos.id by assumption.
        assert (e = k) by lia. subst e. rewrite Z.pow_add_r in Hm by lia.
        change (2 ^ 0) with 1. nia.
      * eexists; split; [reflexivity|]. unfold Qeq. cbn [Qnum Qden].
        rewrite Z2Pos.id by assumption.
        assert (e = k + Zpos j) by lia. subst e.
        replace (k + Zpos j + 23) with (Zpos j + k + 23) in Hm by lia.
        rewrite !Z.pow_add_r in Hm by lia. nia.
      * eexists; split; [reflexivity|]. unfold Qeq. cbn [Qnum Qden].
        rewrite Z2Pos.id by assumption. rewrite Pos2Z.inj_pow.
        assert (k = e + Zpos j) by lia. subst k.
        apply Z.mul_cancel_r with (p := 2 ^ 23); [lia|].
        rewrite <- !Z.mul_assoc, <- !Z.pow_add_r by lia.
        replace (e + Zpos j + 23) with ((e + 23) + Zpos j) by lia.
        rewrite !Z.pow_add_r, Z.mul_assoc, Hm by lia. rewrite (Z.pow_add_r 2 (Zpos j) 23) by lia. ring.
    + unfold eqb, SFeqb, SFcompare, one.
      destruct (Z.compare_spec (e - k) (-23)) as [Hek | |]; try discriminate.
      change (Pos.compare_cont Eq m 8388608) with (Pos.compare m 8388608).
      destruct (Pos.compare_spec m 8388608) as [-> | |]; try discriminate.
      intros _. assert (e = k - 23) by lia. subst e.
      replace (k - 23 + 23) with k in Hm by lia.
      change (Zpos 8388608) with (2 ^ 23) in Hm. lia.
Qed.

End Padding_facts.

(* ===================================================================== *)
(** * Facts about rounding: quotients and sums within [0, 1] *)
(* ===================================================================== *)

Section Rounding_facts.

Import F32.









End Rounding_facts.

Section Quotient_facts.

Import F32.






End Quotient_facts.

Section Quotient_bound.

Import F32.



End Quotient_bound.

Section Sum_facts.

Import F32.



End Sum_facts.

Section Within_facts.

Import F32.


End Within_facts.

(* ===================================================================== *)
(** * The texture resource: mipmaps *)
(* ===================================================================== *)

Section Mipmap_facts.

Import Image.
Variable env : Env.

Lemma issue_app cs1 cs2 w : issue env (cs1 ++ cs2) w = issue env cs2 (issue env cs1 w).
Proof. unfold issue. apply fold_left_app. Qed.

Lemma glCalls_issue cs w : glCalls (issue env cs w) = glCalls w ++ cs.
Proof.
  revert w. induction cs as [|c cs IH]; intros w; cbn.
  - now rewrite app_nil_r.
  - change (glCalls (issue env cs
              (set_glError (glError w || rejects env c)
                 (set_glCalls (glCalls w ++ [c]) w))) = glCalls w ++ c :: cs).
    rewrite IH. cbn. now rewrite <- app_assoc.
Qed.

Lemma gl_issue c i w : gl env c i w = mkResult (Returned tt) i (issue env [c] w).
Proof. reflexivity. Qed.

Lemma for_each_gl {A} (f : A -> GLCall) l i w :
  for_each l (fun a => gl env (f a)) i w
  = mkResult (Returned tt) i (issue env (map f l) w).
Proof.
  revert w. induction l as [|a l IH]; intros w; [reflexivity|].
  cbn [for_each map]. unfold bind at 1. rewrite gl_issue. cbn [how self world].
  rewrite IH. reflexivity.
Qed.

Lemma bind__issue i w : bind_ env i w = mkResult (Returned tt) i (issue env (bind_calls i) w).
Proof.
  unfold bind_, bind_calls, bind, this. cbn [how self world].
  destruct (texture i =? 0); reflexivity.
Qed.

Lemma levels_from_1_chain c :
  levels_from_1 (getNumMipmaps c) = map Z.of_nat (seq 1 (List.length (cd_more c))).
Proof.
  unfold levels_from_1, getNumMipmaps. do 2 f_equal. lia.
Qed.

End Mipmap_facts.

Section Call_facts.

Import Image.
Variable env : Env.

Lemma statics_issue cs w :
  maxMipmapSharpness (issue env cs w) = maxMipmapSharpness w /\
  defaultMipmapFilter (issue env cs w) = defaultMipmapFilter w /\
  defaultMipmapSharpness (issue env cs w) = defaultMipmapSharpness w /\
  defaultFilter (issue env cs w) = defaultFilter w /\
  nextTexture (issue env cs w) = nextTexture w.
Proof.
  revert w. induction cs as [|c cs IH]; intros w; [now cbn|].
  change (issue env (c :: cs) w)
    with (issue env cs (set_glError (glError w || rejects env c)
                          (set_glCalls (glCalls w ++ [c]) w))).
  destruct (IH (set_glError (glError w || rejects env c)
                  (set_glCalls (glCalls w ++ [c]) w))) as (-> & -> & -> & -> & ->).
  now cbn.
Qed.

Lemma glError_issue cs w :
  glError (issue env cs w) = glError w || existsb (rejects env) cs.
Proof.
  revert w. induction cs as [|c cs IH]; intros w; cbn [existsb].
  - now rewrite orb_false_r.
  - change (issue env (c :: cs) w)
      with (issue env cs (set_glError (glError w || rejects env c)
                            (set_glCalls (glCalls w ++ [c]) w))).
    rewrite IH. cbn. now rewrite orb_assoc.
Qed.

(** [checkMipmapsCreated], call by call. *)
Lemma checkMipmapsCreated_eq i w :
  checkMipmapsCreated env i w
  = mkResult (match mipmap_error env i with
              | Some e => Thrown e
              | None => Returned tt
              end)
             (if mipmap_creates env i then set_mipmapsCreated true i else i)
             (issue env (mipmap_calls env i) w).
Proof.
  unfold checkMipmapsCreated, mipmap_creates, mipmap_error, creation_error,
    mipmap_calls, mipmap_uploads, mipmap_skip, chain_too_short.
  unfold bind at 1, this. cbn [how self world].
  destruct (mipmapsCreated i || negb (wants_mipmaps (filter i))); [reflexivity|].
  destruct (negb (has_compressed_source i) && negb (hasMipmapSupport env));
    [reflexivity|].
  destruct (negb (isCompressed i)
            && (not_power_of_two (F32.to_int (width i))
                || not_power_of_two (F32.to_int (height i)))); [reflexivity|].
  unfold bind at 1. rewrite bind__issue. cbn [how self world negb andb].
  rewrite issue_app.
  destruct (supported_compressed_source env i) as [c|].
  - cbv zeta. unfold upload_compressed_level.
    change (fun level : Z => gl env (CompressedTexImage2D level
              (getCompressedFormat (cd_type c)) (cd_getWidth c level)
              (cd_getHeight c level) (cd_getSize c level) (cd_getData c level)))
      with (fun level : Z => gl env (compressed_upload c level)).
    rewrite levels_from_1_chain.
    destruct (GLEE_VERSION_1_2 (caps env) || GLEE_SGIS_texture_lod (caps env)).
    + cbn [negb andb]. unfold bind. rewrite gl_issue. cbn [how self world].
      rewrite for_each_gl. cbn [how self world modify]. rewrite map_map.
      rewrite issue_app. reflexivity.
    + cbn [negb andb].
      destruct ((cd_getWidth c (getNumMipmaps c - 1) >? 1)
                || (cd_getHeight c (getNumMipmaps c - 1) >? 1)); [reflexivity|].
      unfold bind, ret. cbn [how self world].
      rewrite for_each_gl. cbn [how self world modify]. rewrite map_map.
      reflexivity.
  - destruct (data i) as [d|]; [|reflexivity].
    destruct (hasNpot env
              && (GLEE_VERSION_3_0 (caps env) || GLEE_ARB_framebuffer_object (caps env)));
      reflexivity.
Qed.

(** [setMipmapSharpness], call by call. *)
Lemma setMipmapSharpness_eq s i w :
  setMipmapSharpness env s i w
  = mkResult (Returned tt)
             (set_mipmapSharpness (stored_sharpness env w s) i)
             (issue env (sharpness_calls env w s i) w).
Proof.
  unfold setMipmapSharpness, sharpness_calls, stored_sharpness.
  destruct (hasMipmapSharpnessSupport env) eqn:E; [|reflexivity].
  unfold bind, statics, modify, this. cbn [how self world].
  rewrite bind__issue. cbn [how self world]. rewrite gl_issue.
  cbn [how self world]. rewrite issue_app. reflexivity.
Qed.

End Call_facts.

(** C5.  With a mipmap filter mode ([FILTER_NEAREST] or [FILTER_LINEAR]) on a
    source that is not compressed and whose width or height is not a power of
    two, [checkMipmapsCreated] throws an unsupported-capability error, the
    object and the context stay as they were and [mipmapsCreated] is still
    false.  When the filter asks for no mipmaps, or mipmaps were created
    already, it returns and changes nothing. *)
Theorem checkMipmapsCreated_npot_raw_throws_else_noop env i w :
  (Image.mipmapsCreated i = false ->
   Image.wants_mipmaps (Image.filter i) = true ->
   Image.isCompressed i = false ->
   ~ is_pow2 (F32.to_int (Image.width i)) \/ ~ is_pow2 (F32.to_int (Image.height i)) ->
   exists e,
     Image.checkMipmapsCreated env i w = Image.mkResult (Image.Thrown e) i w /\
     unsupported_capability e = true /\
     e = (if Image.hasMipmapSupport env then MipmapsNeedPowerOfTwo
          else MipmapFilteringNotSupported) /\
     Image.mipmapsCreated
       (Image.self (Image.checkMipmapsCreated env i w)) = false)
  /\
  (Image.wants_mipmaps (Image.filter i) = false \/ Image.mipmapsCreated i = true ->
   Image.checkMipmapsCreated env i w = Image.mkResult (Image.Returned tt) i w).
Proof.
  split.
  - intros Hc Hw Hraw Hnp.
    assert (Hn : Image.not_power_of_two (F32.to_int (Image.width i))
                 || Image.not_power_of_two (F32.to_int (Image.height i)) = true).
    { apply orb_true_iff. rewrite !not_power_of_two_spec. exact Hnp. }
    unfold Image.checkMipmapsCreated, Image.bind, Image.this,
      Image.has_compressed_source, Image.compressed_source.
    cbn [Image.how Image.self Image.world].
    rewrite Hc, Hw, Hraw, Hn. cbn.
    destruct (Image.hasMipmapSupport env); cbn; eexists; repeat split; eauto.
  - intros H.
    unfold Image.checkMipmapsCreated, Image.bind, Image.this.
    cbn [Image.how Image.self Image.world].
    destruct H as [-> | ->]; [rewrite orb_true_r | ]; reflexivity.
Qed.

Lemma checkMipmapsCreated_npot_raw_throws_else_noop_witness :
  let i := Image.new_from_ImageData Samples.env_npot Samples.raw_100x50 Samples.world0 in
  let j := Image.set_filter
             (Filter.with_mipmap FILTER_LINEAR (Image.filter i)) i in
  Image.checkMipmapsCreated Samples.env_npot j Samples.world0
    = Image.mkResult (Image.Thrown MipmapsNeedPowerOfTwo) j Samples.world0
  /\ Image.checkMipmapsCreated Samples.env_npot i Samples.world0
    = Image.mkResult (Image.Returned tt) i Samples.world0.
Proof.
  intros i j. split.
  - assert (Hnp : ~ is_pow2 (F32.to_int (Image.width j))
                  \/ ~ is_pow2 (F32.to_int (Image.height j)))
      by (left; rewrite <- not_power_of_two_spec; reflexivity).
    destruct (proj1 (checkMipmapsCreated_npot_raw_throws_else_noop
                       Samples.env_npot j Samples.world0)
                eq_refl eq_refl eq_refl Hnp)
      as (e & He & _ & -> & _).
    exact He.
  - apply (proj2 (checkMipmapsCreated_npot_raw_throws_else_noop
                    Samples.env_npot i Samples.world0)).
    left. reflexivity.
Defined.

(** [checkMipmapsCreated] on a compressed source of a supported format, when
    mipmaps are wanted and not there yet. *)
Lemma checkMipmapsCreated_compressed env i w c :
  Image.compressed_source i = Some c ->
  Image.hasCompressedTextureSupport env (cd_type c) = true ->
  Image.mipmapsCreated i = false ->
  Image.wants_mipmaps (Image.filter i) = true ->
  let n := getNumMipmaps c in
  let uploads :=
    map (fun k => compressed_upload c (Z.of_nat k)) (seq 1 (List.length (cd_more c))) in
  let w1 := issue env (bind_calls i) w in
  Image.checkMipmapsCreated env i w =
    if GLEE_VERSION_1_2 (caps env) || GLEE_SGIS_texture_lod (caps env) then
      Image.mkResult (Image.Returned tt) (Image.set_mipmapsCreated true i)
        (issue env uploads (issue env [TexParameteri_MAX_LEVEL (n - 1)] w1))
    else if (cd_getWidth c (n - 1) >? 1) || (cd_getHeight c (n - 1) >? 1) then
      Image.mkResult (Image.Thrown CompressedLevelsMissing) i w1
    else
      Image.mkResult (Image.Returned tt) (Image.set_mipmapsCreated true i)
        (issue env uploads w1).
Proof.
  intros Hsrc Hsup Hc Hw n uploads w1. subst n uploads w1.
  assert (His : Image.isCompressed i = true).
  { unfold Image.compressed_source in Hsrc.
    destruct (Image.isCompressed i); [reflexivity | discriminate]. }
  unfold Image.checkMipmapsCreated, Image.bind at 1, Image.this.
  cbn [Image.how Image.self Image.world].
  unfold Image.has_compressed_source, Image.supported_compressed_source.
  rewrite Hc, Hw, Hsrc, Hsup, His. cbn [orb negb andb].
  unfold Image.bind at 1. rewrite bind__issue. cbn [Image.how Image.self Image.world].
  cbv zeta. unfold Image.upload_compressed_level.
  change (fun level : Z => Image.gl env (CompressedTexImage2D level
            (Image.getCompressedFormat (cd_type c)) (cd_getWidth c level)
            (cd_getHeight c level) (cd_getSize c level) (cd_getData c level)))
    with (fun level : Z => Image.gl env (compressed_upload c level)).
  rewrite levels_from_1_chain.
  destruct (GLEE_VERSION_1_2 (caps env) || GLEE_SGIS_texture_lod (caps env)).
  - unfold Image.bind. rewrite gl_issue. cbn [Image.how Image.self Image.world].
    rewrite for_each_gl. cbn [Image.how Image.self Image.world Image.modify].
    now rewrite map_map.
  - destruct ((cd_getWidth c (getNumMipmaps c - 1) >? 1)
              || (cd_getHeight c (getNumMipmaps c - 1) >? 1)).
    + reflexivity.
    + unfold Image.bind, Image.ret. cbn [Image.how Image.self Image.world].
      rewrite for_each_gl. cbn [Image.how Image.self Image.world Image.modify].
      now rewrite map_map.
Qed.

(** C7.  Creating mipmaps for a compressed source of a supported format that
    carries [n] levels: after [bind()], when the driver knows
    [GL_TEXTURE_MAX_LEVEL] (OpenGL 1.2 or SGIS_texture_lod) the context is
    told the last valid level [n - 1], and then every level [1 .. n-1] is
    uploaded by a command of its own, in order; without that capability, a
    last level larger than 1×1 makes the call throw the missing-levels error,
    nothing is uploaded and [mipmapsCreated] stays false; and with a chain
    that goes down to 1×1 the levels are uploaded as before. *)
Theorem checkMipmapsCreated_compressed_chain env i w c :
  Image.compressed_source i = Some c ->
  Image.hasCompressedTextureSupport env (cd_type c) = true ->
  Image.mipmapsCreated i = false ->
  Image.wants_mipmaps (Image.filter i) = true ->
  let n := getNumMipmaps c in
  let uploads :=
    map (fun k => compressed_upload c (Z.of_nat k)) (seq 1 (List.length (cd_more c))) in
  let r := Image.checkMipmapsCreated env i w in
  if GLEE_VERSION_1_2 (caps env) || GLEE_SGIS_texture_lod (caps env) then
    Image.how r = Image.Returned tt /\
    Image.mipmapsCreated (Image.self r) = true /\
    glCalls (Image.world r)
      = glCalls w ++ bind_calls i ++ TexParameteri_MAX_LEVEL (n - 1) :: uploads
  else if (cd_getWidth c (n - 1) >? 1) || (cd_getHeight c (n - 1) >? 1) then
    Image.how r = Image.Thrown CompressedLevelsMissing /\
    Image.mipmapsCreated (Image.self r) = false /\
    glCalls (Image.world r) = glCalls w ++ bind_calls i
  else
    Image.how r = Image.Returned tt /\
    Image.mipmapsCreated (Image.self r) = true /\
    glCalls (Image.world r) = glCalls w ++ bind_calls i ++ uploads.
Proof.
  intros Hsrc Hsup Hc Hw n uploads r. subst r.
  rewrite (checkMipmapsCreated_compressed env i w c Hsrc Hsup Hc Hw).
  fold n. fold uploads.
  destruct (GLEE_VERSION_1_2 (caps env) || GLEE_SGIS_texture_lod (caps env)).
  - cbn [Image.how Image.self Image.world]. repeat split.
    rewrite !glCalls_issue, <- !app_assoc. reflexivity.
  - destruct ((cd_getWidth c (n - 1) >? 1) || (cd_getHeight c (n - 1) >? 1));
      cbn [Image.how Image.self Image.world]; repeat split;
      try assumption; rewrite !glCalls_issue, <- ?app_assoc; reflexivity.
Qed.

Lemma checkMipmapsCreated_compressed_chain_witness :
  let i0 := Image.new_from_CompressedData Samples.env_npot
              Samples.dxt1_64x64_short Samples.world0 in
  let i := Image.set_filter (Filter.with_mipmap FILTER_LINEAR (Image.filter i0)) i0 in
  let r := Image.checkMipmapsCreated Samples.env_npot i Samples.world0 in
  Image.how r = Image.Returned tt /\
  Image.mipmapsCreated (Image.self r) = true /\
  glCalls (Image.world r)
    = [TexParameteri_MAX_LEVEL 2;
       CompressedTexImage2D 1 GL_COMPRESSED_RGB_S3TC_DXT1_EXT 32 32 0 [];
       CompressedTexImage2D 2 GL_COMPRESSED_RGB_S3TC_DXT1_EXT 16 16 0 []].
Proof.
  intros i0 i.
  exact (checkMipmapsCreated_compressed_chain Samples.env_npot i Samples.world0
           Samples.dxt1_64x64_short eq_refl eq_refl eq_refl eq_refl).
Defined.

(* ===================================================================== *)
(** * The texture resource: sub-rectangles *)
(* ===================================================================== *)

Lemma wrap_in_range z : Int.in_range z -> Int.wrap z = z.
Proof.
  unfold Int.in_range, Int.min_int, Int.max_int, Int.wrap. intros H.
  rewrite Z.mod_small; lia.
Qed.

(** C2.  A 100×50 raw image loads on a system without non-power-of-two
    textures into a texture of 128×64, and the corner coordinates are scaled to
    100/128 and 50/64.  [getRectangleVertices(10, 10, 50, 30, _)] on that image
    nevertheless divides by the logical size: it yields 10/100, 10/50,
    10/100 + 50/100 and 10/50 + 30/50, which are not the fractions of the
    padded texture. *)
Theorem getRectangleVertices_100x50_on_padded_texture :
  let i0 := Image.new_from_ImageData Samples.env_pot Samples.raw_100x50 Samples.world0 in
  let r := Image.load Samples.env_pot i0 Samples.world0 in
  let q := Image.getRectangleVertices (Image.self r) 10 10 50 30 in
  Image.how r = Image.Returned true /\
  In (TexImage2D 128 64 None) (glCalls (Image.world r)) /\
  texcoords (Image.vertices (Image.self r))
    = [(F32.zero, F32.zero); (F32.zero, fraction 50 64);
       (fraction 100 128, fraction 50 64); (fraction 100 128, F32.zero)] /\
  texcoords q
    = [(fraction 10 100, fraction 10 50);
       (fraction 10 100, F32.add (fraction 10 50) (fraction 30 50));
       (F32.add (fraction 10 100) (fraction 50 100),
        F32.add (fraction 10 50) (fraction 30 50));
       (F32.add (fraction 10 100) (fraction 50 100), fraction 10 50)] /\
  texcoords q
    <> [(fraction 10 128, fraction 10 64);
        (fraction 10 128, F32.add (fraction 10 64) (fraction 30 64));
        (F32.add (fraction 10 128) (fraction 50 128),
         F32.add (fraction 10 64) (fraction 30 64));
        (F32.add (fraction 10 128) (fraction 50 128), fraction 10 64)].
Proof.
  vm_compute. repeat split; try discriminate.
  right. right. right. right. right. left. reflexivity.
Qed.

(** [getRectangleVertices] reads the logical size only: neither the texture
    handle nor the corner vertices written by a load influence it. *)
Lemma getRectangleVertices_reads_size_only i j x y w h :
  Image.width i = Image.width j -> Image.height i = Image.height j ->
  Image.getRectangleVertices i x y w h = Image.getRectangleVertices j x y w h.
Proof. unfold Image.getRectangleVertices. now intros -> ->. Qed.


(** On an image without pixels every quotient is 0/0: with [w = h = 0] on a
    0×0 image all four texture coordinates are NaN, and lie nowhere. *)
Lemma getRectangleVertices_empty_image_nan :
  let i := Image.new_from_ImageData Samples.env_npot (mkImageData 0 0 []) Samples.world0 in
  texcoords (Image.getRectangleVertices i 0 0 0 0)
    = [(F32.nan, F32.nan); (F32.nan, F32.nan); (F32.nan, F32.nan); (F32.nan, F32.nan)] /\
  within_image (Image.getRectangleVertices i 0 0 0 0) = false.
Proof. vm_compute. split; reflexivity. Qed.



(* ===================================================================== *)
(** * The texture resource: mipmap sharpness *)
(* ===================================================================== *)

Section Order_facts.

Import F32.

Lemma SFcompare_antisym a b : SFcompare b a = option_map CompOpp (SFcompare a b).
Proof.
  destruct a as [sa | sa | | sa ma ea], b as [sb | sb | | sb mb eb];
    try destruct sa; try destruct sb; try reflexivity; cbn.
  - rewrite (Z.compare_antisym ea eb). destruct (ea ?= eb); cbn; try reflexivity.
    rewrite (Pos.compare_cont_antisym ma mb Eq). reflexivity.
  - rewrite (Z.compare_antisym ea eb). destruct (ea ?= eb); cbn; try reflexivity.
    rewrite (Pos.compare_cont_antisym ma mb Eq). reflexivity.
Qed.

Lemma SFcompare_refl a : is_nan a = false -> SFcompare a a = Some Eq.
Proof.
  destruct a as [sa | sa | | sa ma ea]; try destruct sa; try reflexivity;
    try discriminate; intros _; cbn; rewrite Z.compare_refl;
    change (Pos.compare_cont Eq ma ma) with (Pos.compare ma ma);
    now rewrite Pos.compare_refl.
Qed.

Lemma SFcompare_total a b :
  is_nan a = false -> is_nan b = false -> exists c, SFcompare a b = Some c.
Proof.
  destruct a as [sa | sa | | sa ma ea], b as [sb | sb | | sb mb eb];
    try discriminate; intros _ _; cbn; eauto.
Qed.

Lemma leb_not_nan a b : leb a b = true -> is_nan a = false /\ is_nan b = false.
Proof. destruct a, b; cbn; try discriminate; auto. Qed.

Lemma leb_refl a : is_nan a = false -> leb a a = true.
Proof. intros H. unfold leb, SFleb. now rewrite SFcompare_refl. Qed.

Lemma leb_not_ltb a b : leb a b = true -> ltb b a = false.
Proof.
  unfold leb, ltb, SFleb, SFltb. rewrite (SFcompare_antisym a b).
  destruct (SFcompare a b) as [[]|]; cbn; congruence.
Qed.

Lemma not_ltb_leb a b :
  is_nan a = false -> is_nan b = false -> ltb a b = false -> leb b a = true.
Proof.
  intros Ha Hb. destruct (SFcompare_total a b Ha Hb) as (c & Hc).
  unfold leb, ltb, SFleb, SFltb. rewrite (SFcompare_antisym a b), Hc.
  destruct c; cbn; congruence.
Qed.

End Order_facts.

(** C4, as stated, fails for a NaN: on a system with LOD bias support whose
    limit is 16, after a load, [setMipmapSharpness(NaN)] returns and stores the
    NaN, which is not within [-16 + 0.01, 16 - 0.01]. *)
Lemma setMipmapSharpness_stores_nan :
  let i0 := Image.new_from_ImageData Samples.env_npot Samples.raw_100x50 Samples.world0 in
  let r0 := Image.load Samples.env_npot i0 Samples.world0 in
  let r := Image.setMipmapSharpness Samples.env_npot F32.nan
             (Image.self r0) (Image.world r0) in
  let stored := Image.getMipmapSharpness (Image.self r) in
  Image.hasMipmapSharpnessSupport Samples.env_npot = true /\
  Image.how r0 = Image.Returned true /\
  F32.leb (sharpness_low (Image.world r0)) (sharpness_high (Image.world r0)) = true /\
  Image.how r = Image.Returned tt /\
  stored = F32.nan /\
  F32.leb (sharpness_low (Image.world r0)) stored = false /\
  F32.leb stored (sharpness_high (Image.world r0)) = false.
Proof. vm_compute. repeat split. Qed.

(** Before the first load the cached limit is still 0, the bounds are
    [0.01] and [-0.01], and whatever is asked for, [-0.01] is stored. *)
Example setMipmapSharpness_before_first_load :
  let i0 := Image.new_from_ImageData Samples.env_npot Samples.raw_100x50 Samples.world0 in
  let r := Image.setMipmapSharpness Samples.env_npot F32.zero i0 Samples.world0 in
  sharpness_low Samples.world0 = F32.hundredth /\
  sharpness_high Samples.world0 = F32.opp F32.hundredth /\
  Image.getMipmapSharpness (Image.self r) = F32.opp F32.hundredth.
Proof. vm_compute. repeat split. Qed.

(** C4, amended.  [setMipmapSharpness(s)] never throws.  Without LOD bias
    support the stored sharpness is exactly zero.  With it, for [s] other than
    NaN and bounds [lo = -maxMipmapSharpness + 0.01f],
    [hi = maxMipmapSharpness - 0.01f] with [lo <= hi], the stored sharpness is
    [s] clamped into [lo, hi]: it lies between the bounds, it is [lo] when
    [s < lo], else [hi] when [hi < s], else [s] itself. *)
Theorem setMipmapSharpness_clamps env i w s :
  let r := Image.setMipmapSharpness env s i w in
  let stored := Image.getMipmapSharpness (Image.self r) in
  let lo := sharpness_low w in
  let hi := sharpness_high w in
  Image.how r = Image.Returned tt /\
  (Image.hasMipmapSharpnessSupport env = false -> stored = F32.zero) /\
  (Image.hasMipmapSharpnessSupport env = true ->
   F32.is_nan s = false -> F32.leb lo hi = true ->
   F32.leb lo stored = true /\ F32.leb stored hi = true /\
   (F32.ltb s lo = true -> stored = lo) /\
   (F32.ltb s lo = false -> F32.ltb hi s = true -> stored = hi) /\
   (F32.ltb s lo = false -> F32.ltb hi s = false -> stored = s)).
Proof.
  intros r stored lo hi. subst r stored.
  rewrite setMipmapSharpness_eq. cbn [Image.how Image.self].
  unfold Image.getMipmapSharpness. cbn [Image.mipmapSharpness Image.set_mipmapSharpness].
  unfold stored_sharpness. fold lo. fold hi.
  split; [reflexivity|]. split; [now intros ->|].
  intros -> Hs Hlh.
  destruct (leb_not_nan _ _ Hlh) as [Hlo Hhi].
  pose proof (leb_not_ltb _ _ Hlh) as Hnlt.
  unfold F32.min, F32.max.
  destruct (F32.ltb s lo) eqn:Hslo.
  - rewrite Hnlt. repeat split; try assumption; try discriminate.
    now apply leb_refl.
  - destruct (F32.ltb hi s) eqn:Hhis.
    + repeat split; try assumption; try discriminate. now apply leb_refl.
    + repeat split; try discriminate; now apply not_ltb_leb.
Qed.

Lemma setMipmapSharpness_clamps_witness :
  let i0 := Image.new_from_ImageData Samples.env_npot Samples.raw_100x50 Samples.world0 in
  let r0 := Image.load Samples.env_npot i0 Samples.world0 in
  let r := Image.setMipmapSharpness Samples.env_npot (F32.of_int 100)
             (Image.self r0) (Image.world r0) in
  Image.getMipmapSharpness (Image.self r) = F32.sub (F32.of_int 16) F32.hundredth.
Proof.
  intros i0 r0 r.
  exact (proj1 (proj2 (proj2 (proj2
    (proj2 (proj2 (setMipmapSharpness_clamps Samples.env_npot (Image.self r0)
                     (Image.world r0) (F32.of_int 100)))
       eq_refl eq_refl eq_refl)))) eq_refl eq_refl).
Defined.

(* ===================================================================== *)
(** * The texture resource: loading *)
(* ===================================================================== *)

Section Load_facts.

Import Image.
Variable env : Env.

(** The plumbing of a method body, one step at a time. *)

Lemma bind_assoc {A B C} (m : M A) (f : A -> M B) (g : B -> M C) i w :
  bind (bind m f) g i w = bind m (fun a => bind (f a) g) i w.
Proof. unfold bind. destruct (m i w) as [[a | e] i' w']; reflexivity. Qed.

Lemma bind_ret {A B} (a : A) (k : A -> M B) i w : bind (ret a) k i w = k a i w.
Proof. reflexivity. Qed.

Lemma bind_throw {A B} e (k : A -> M B) i w :
  bind (throw e) k i w = mkResult (Thrown e) i w.
Proof. reflexivity. Qed.

Lemma bind_this {B} (k : Image -> M B) i w : bind this k i w = k i i w.
Proof. reflexivity. Qed.

Lemma bind_statics {B} (k : World -> M B) i w : bind statics k i w = k w i w.
Proof. reflexivity. Qed.

Lemma bind_modify {B} f (k : unit -> M B) i w : bind (modify f) k i w = k tt (f i) w.
Proof. reflexivity. Qed.

Lemma bind_modify_world {B} f (k : unit -> M B) i w :
  bind (modify_world f) k i w = k tt i (f w).
Proof. reflexivity. Qed.

Lemma bind_gl {B} c (k : unit -> M B) i w :
  bind (gl env c) k i w = k tt i (issue env [c] w).
Proof. reflexivity. Qed.

Lemma bind_checkMipmapsCreated {B} (k : unit -> M B) i w :
  bind (checkMipmapsCreated env) k i w
  = let i' := if mipmap_creates env i then set_mipmapsCreated true i else i in
    let w' := issue env (mipmap_calls env i) w in
    match mipmap_error env i with
    | Some e => mkResult (Thrown e) i' w'
    | None => k tt i' w'
    end.
Proof.
  unfold bind. rewrite checkMipmapsCreated_eq. cbn [how self world].
  destruct (mipmap_error env i); reflexivity.
Qed.

Lemma bind_setMipmapSharpness {B} s (k : unit -> M B) i w :
  bind (setMipmapSharpness env s) k i w
  = k tt (set_mipmapSharpness (stored_sharpness env w s) i)
      (issue env (sharpness_calls env w s i) w).
Proof. unfold bind. rewrite setMipmapSharpness_eq. reflexivity. Qed.

Ltac step :=
  first
    [ rewrite bind_assoc
    | rewrite bind_ret
    | rewrite bind_throw
    | rewrite bind_this
    | rewrite bind_statics
    | rewrite bind_modify
    | rewrite bind_modify_world
    | rewrite bind_gl
    | rewrite bind_checkMipmapsCreated
    | rewrite bind_setMipmapSharpness ];
  cbv beta.

Ltac plumbing :=
  unfold glGetError_ne_NO_ERROR, clear_errors, glGenTextures_texture, bindTexture,
    deleteTexture, setTextureFilter, setTextureWrap, upload_compressed_level, when.

Ltac fields :=
  cbn [data cdata width height texture mipmapSharpness mipmapsCreated isCompressed
       filter wrap vertices set_texture set_filter set_vertices set_mipmapsCreated
       set_mipmapSharpness compressed_source has_compressed_source
       maxMipmapSharpness defaultMipmapFilter defaultMipmapSharpness defaultFilter
       nextTexture glError glCalls set_maxMipmapSharpness set_nextTexture
       set_glError set_glCalls how self world].

(** The end of both load paths. *)
Lemma load_tail_eq i w :
  (modify (set_mipmapsCreated false) ;;
   checkMipmapsCreated env ;;
   i <- this ;;
   setMipmapSharpness env (mipmapSharpness i) ;;
   ret true) i w
  = load_tail env i w.
Proof.
  unfold load_tail. step. step. cbv zeta.
  unfold mipmap_creates.
  destruct (mipmap_error env (set_mipmapsCreated false i)); [reflexivity|].
  step. step. unfold ret.
  destruct (negb (mipmap_skip (set_mipmapsCreated false i)) && _); reflexivity.
Qed.

Ltac same_source i :=
  change (compressed_source (set_texture _ i)) with (compressed_source i);
  change (compressed_source (set_vertices _ _)) with (compressed_source i);
  change (compressed_source (prepared env i _)) with (compressed_source i);
  change (data (set_texture _ i)) with (data i);
  change (width (set_texture _ i)) with (width i);
  change (height (set_texture _ i)) with (height i);
  change (data (set_vertices _ _)) with (data i);
  change (data (prepared env i _)) with (data i);
  change (width (set_vertices _ _)) with (width i);
  change (width (prepared env i _)) with (width i);
  change (height (set_vertices _ _)) with (height i);
  change (height (prepared env i _)) with (height i).

Ltac upload_then_tail :=
  unfold compressed_upload; repeat step;
  repeat match goal with
         | |- context [issue env [?c2] (issue env [?c1] ?w)] =>
             change (issue env [c2] (issue env [c1] w)) with (issue env [c1; c2] w)
         | |- context [issue env [] ?w] => change (issue env [] w) with w
         end;
  match goal with
  | |- context [glError (issue env ?cs ?w)] => destruct (glError (issue env cs w))
  | |- context [glError ?w] => destruct (glError w)
  end;
  [reflexivity | apply load_tail_eq].

Lemma loadVolatilePOT_eq i w :
  loadVolatilePOT env i w
  = let i1 := set_vertices (pot_scaled i) (prepared env i w) in
    let w1 := prepared_world env i w in
    if npot_compressed i then mkResult (Thrown NPOTCompressedNotSupported) i1 w1
    else load_upload env true i1 w1.
Proof.
  unfold loadVolatilePOT. plumbing. repeat step.
  match goal with
  | |- _ ?I ?W = _ =>
      replace I with (set_vertices (pot_scaled i) (prepared env i w))
        by (destruct i; reflexivity);
      replace W with (prepared_world env i w) by reflexivity
  end.
  cbv zeta. generalize (prepared_world env i w) as w1. intros w1.
  unfold npot_compressed, load_upload, base_uploads, has_compressed_source.
  same_source i. fold (pot_s i). fold (pot_t i).
  destruct (compressed_source i) as [c|].
  - destruct (negb (F32.eqb (pot_s i) F32.one) || negb (F32.eqb (pot_t i) F32.one));
      cbn [andb].
    + step. reflexivity.
    + upload_then_tail.
  - cbn [andb]. destruct (data i) as [d|]; upload_then_tail.
Qed.

Lemma loadVolatileNPOT_eq i w :
  loadVolatileNPOT env i w
  = load_upload env false (prepared env i w) (prepared_world env i w).
Proof.
  unfold loadVolatileNPOT. plumbing. repeat step.
  match goal with
  | |- _ ?I ?W = _ =>
      replace I with (prepared env i w) by (destruct i; reflexivity);
      replace W with (prepared_world env i w) by reflexivity
  end.
  generalize (prepared_world env i w) as w1. intros w1.
  unfold load_upload, base_uploads.
  same_source i.
  destruct (compressed_source i) as [c|]; [|destruct (data i) as [d|]];
    upload_then_tail.
Qed.

Lemma loadVolatile_eq i w :
  loadVolatile env i w
  = match format_error env i with
    | Some e => mkResult (Thrown e) i w
    | None =>
        if hasNpot env then loadVolatileNPOT env i (query_bias env w)
        else loadVolatilePOT env i (query_bias env w)
    end.
Proof.
  unfold loadVolatile, format_error, query_bias. plumbing. step.
  destruct (compressed_source i) as [c|].
  - destruct (hasCompressedTextureSupport env (cd_type c)); cbn [negb].
    + repeat step.
      destruct (hasMipmapSharpnessSupport env
                && F32.eqb (maxMipmapSharpness w) F32.zero);
        repeat step; destruct (hasNpot env); reflexivity.
    + destruct (getConstant env (cd_type c)); reflexivity.
  - repeat step.
    destruct (hasMipmapSharpnessSupport env
              && F32.eqb (maxMipmapSharpness w) F32.zero);
      repeat step; destruct (hasNpot env); reflexivity.
Qed.


Lemma creation_error_kind i e :
  creation_error env i = Some e ->
  e = MipmapFilteringNotSupported \/ e = MipmapsNeedPowerOfTwo
  \/ e = CompressedLevelsMissing.
Proof.
  unfold creation_error.
  destruct (negb (has_compressed_source i) && negb (hasMipmapSupport env));
    [intros [= <-]; auto|].
  destruct (negb (isCompressed i) && _); [intros [= <-]; auto|].
  destruct (supported_compressed_source env i) as [c|]; [|discriminate].
  destruct (chain_too_short env c); [intros [= <-]; auto | discriminate].
Qed.

Lemma mipmap_error_kind i e :
  mipmap_error env i = Some e ->
  e = MipmapFilteringNotSupported \/ e = MipmapsNeedPowerOfTwo
  \/ e = CompressedLevelsMissing.
Proof.
  unfold mipmap_error. destruct (mipmap_skip i); [discriminate|].
  apply creation_error_kind.
Qed.

Lemma load_tail_how i w :
  how (load_tail env i w)
  = match mipmap_error env (set_mipmapsCreated false i) with
    | Some e => Thrown e
    | None => Returned true
    end.
Proof.
  unfold load_tail.
  destruct (mipmap_error env (set_mipmapsCreated false i)); reflexivity.
Qed.

Lemma load_tail_kept i w : kept i (self (load_tail env i w)).
Proof.
  unfold load_tail.
  destruct (mipmap_error env (set_mipmapsCreated false i));
    [|destruct (mipmap_creates env (set_mipmapsCreated false i))];
    repeat split.
Qed.

Lemma load_tail_world i w :
  (exists cs, glCalls (world (load_tail env i w)) = glCalls w ++ cs) /\
  maxMipmapSharpness (world (load_tail env i w)) = maxMipmapSharpness w /\
  nextTexture (world (load_tail env i w)) = nextTexture w.
Proof.
  unfold load_tail.
  destruct (mipmap_error env (set_mipmapsCreated false i)); cbn [world].
  - rewrite glCalls_issue.
    destruct (statics_issue env (mipmap_calls env (set_mipmapsCreated false i)) w)
      as (-> & _ & _ & _ & ->).
    eauto.
  - rewrite !glCalls_issue, <- app_assoc.
    match goal with
    | |- context [issue env ?cs2 (issue env ?cs1 w)] =>
        destruct (statics_issue env cs2 (issue env cs1 w)) as (-> & _ & _ & _ & ->);
        destruct (statics_issue env cs1 w) as (-> & _ & _ & _ & ->)
    end.
    eauto.
Qed.

Lemma load_upload_how pot i w :
  how (load_upload env pot i w)
  = if glError (issue env (base_uploads pot i) w) then Thrown SizeMayBeTooLarge
    else match mipmap_error env (set_mipmapsCreated false i) with
         | Some e => Thrown e
         | None => Returned true
         end.
Proof.
  unfold load_upload. cbv zeta.
  destruct (glError (issue env (base_uploads pot i) w)); [reflexivity|].
  apply load_tail_how.
Qed.

Lemma load_upload_kept pot i w : kept i (self (load_upload env pot i w)).
Proof.
  unfold load_upload. cbv zeta.
  destruct (glError (issue env (base_uploads pot i) w));
    [repeat split | apply load_tail_kept].
Qed.

Lemma load_upload_world pot i w :
  (exists cs, glCalls (world (load_upload env pot i w))
              = glCalls w ++ base_uploads pot i ++ cs) /\
  maxMipmapSharpness (world (load_upload env pot i w)) = maxMipmapSharpness w /\
  nextTexture (world (load_upload env pot i w)) = nextTexture w.
Proof.
  unfold load_upload. cbv zeta.
  destruct (statics_issue env (base_uploads pot i) w) as (Hm & _ & _ & _ & Hn).
  destruct (glError (issue env (base_uploads pot i) w)).
  - cbn [world]. change (glCalls (set_glError false ?x)) with (glCalls x).
    rewrite glCalls_issue. repeat split; [exists []; now rewrite app_nil_r | | ];
      assumption.
  - destruct (load_tail_world i (set_glError false (issue env (base_uploads pot i) w)))
      as ((cs & ->) & -> & ->).
    change (glCalls (set_glError false ?x)) with (glCalls x).
    rewrite glCalls_issue, <- app_assoc. repeat split; eauto.
Qed.

Lemma nextTexture_query_bias w : nextTexture (query_bias env w) = nextTexture w.
Proof.
  unfold query_bias.
  destruct (hasMipmapSharpnessSupport env && F32.eqb (maxMipmapSharpness w) F32.zero);
    reflexivity.
Qed.

(** The other calls, call by call. *)

Lemma unloadVolatile_eq i w :
  unloadVolatile env i w
  = if texture i =? 0 then mkResult (Returned tt) i w
    else mkResult (Returned tt) (set_texture 0 i)
           (issue env [DeleteTexture (texture i)] w).
Proof.
  unfold unloadVolatile. plumbing. step.
  destruct (texture i =? 0); cbn [negb]; [reflexivity|]. repeat step. reflexivity.
Qed.

Lemma setWrap_eq x i w :
  setWrap env x i w
  = mkResult (Returned tt) (set_wrap x i)
      (issue env (bind_calls i ++ [SetTextureWrap x]) w).
Proof.
  unfold setWrap. plumbing. step. unfold bind. rewrite bind__issue.
  cbn [how self world]. rewrite gl_issue, issue_app. reflexivity.
Qed.

Lemma setFilter_eq f i w :
  setFilter env f i w
  = let i1 := set_filter (Filter.with_anisotropy (grantedAnisotropy env f) f) i in
    mkResult (match mipmap_error env i1 with
              | Some e => Thrown e
              | None => Returned tt
              end)
             (if mipmap_creates env i1 then set_mipmapsCreated true i1 else i1)
             (issue env (bind_calls i ++ SetTextureFilter f :: mipmap_calls env i1) w).
Proof.
  unfold setFilter. plumbing. step. unfold bind at 1. rewrite bind__issue.
  cbn [how self world]. repeat step. rewrite checkMipmapsCreated_eq.
  change (set_filter
            (Filter.with_anisotropy (grantedAnisotropy env f)
               (filter (set_filter f i))) (set_filter f i))
    with (set_filter (Filter.with_anisotropy (grantedAnisotropy env f) f) i).
  cbv zeta. f_equal.
  rewrite issue_app.
  change (SetTextureFilter f :: ?l) with ([SetTextureFilter f] ++ l).
  rewrite issue_app. reflexivity.
Qed.

End Load_facts.

(** C1, as stated, fails for the NPOT-plus-compression error: loading a 100×50
    DXT1 image on a system that has S3TC but no non-power-of-two textures
    throws that error with a texture handle generated and still held, and with
    the corner texture coordinates rewritten from 1 to 100/128 and 50/64. *)
Lemma load_npot_compressed_leaves_handle :
  let i := Image.new_from_CompressedData Samples.env_pot
             Samples.dxt1_100x50 Samples.world0 in
  let r := Image.load Samples.env_pot i Samples.world0 in
  Image.how r = Image.Thrown NPOTCompressedNotSupported /\
  Image.texture i = 0 /\
  Image.texture (Image.self r) = 1 /\
  texcoords (Image.vertices i)
    = [(F32.zero, F32.zero); (F32.zero, F32.one);
       (F32.one, F32.one); (F32.one, F32.zero)] /\
  texcoords (Image.vertices (Image.self r))
    = [(F32.zero, F32.zero); (F32.zero, fraction 50 64);
       (fraction 100 128, fraction 50 64); (fraction 100 128, F32.zero)] /\
  texcoords (Image.vertices (Image.self r)) <> texcoords (Image.vertices i).
Proof. vm_compute. repeat split. discriminate. Qed.

Lemma format_error_kind env i e :
  format_error env i = Some e ->
  e = FormatNotSupported \/ exists name, e = CompressedFormatNotSupported name.
Proof.
  unfold format_error. destruct (Image.compressed_source i) as [c|]; [|discriminate].
  destruct (Image.hasCompressedTextureSupport env (cd_type c)); [discriminate|].
  destruct (getConstant env (cd_type c)); intros [= <-]; eauto.
Qed.

(** C1, amended.  When the source is compressed in a format the system does
    not support, [load] throws the unsupported-format error and nothing at all
    has changed: the object and the process-wide state are as before.  When
    [load] throws the NPOT-plus-compression error, the system has no
    non-power-of-two textures and the object is the one [loadVolatilePOT] had
    prepared: the generated texture handle is held (it is not zero), the
    filter's anisotropy is the granted one, and the corner texture coordinates
    are rescaled by width / next_p2(width) and height / next_p2(height);
    width, height, wrap, mipmap sharpness and [mipmapsCreated] are as
    before. *)
Theorem load_unsupported_capability_state env i w :
  let r := Image.load env i w in
  (forall c,
     Image.compressed_source i = Some c ->
     Image.hasCompressedTextureSupport env (cd_type c) = false ->
     exists e,
       r = Image.mkResult (Image.Thrown e) i w /\
       (e = FormatNotSupported \/ exists name, e = CompressedFormatNotSupported name))
  /\
  (Image.how r = Image.Thrown NPOTCompressedNotSupported ->
   Image.hasNpot env = false /\
   Image.self r = Image.set_vertices (pot_scaled i) (prepared env i w) /\
   Image.texture (Image.self r) = Zpos (nextTexture w) /\
   Image.texture (Image.self r) <> 0 /\
   Image.vertices (Image.self r) = pot_scaled i /\
   Image.getWidth (Image.self r) = Image.getWidth i /\
   Image.getHeight (Image.self r) = Image.getHeight i /\
   Image.getWrap (Image.self r) = Image.getWrap i /\
   Image.getMipmapSharpness (Image.self r) = Image.getMipmapSharpness i /\
   Image.mipmapsCreated (Image.self r) = Image.mipmapsCreated i).
Proof.
  intros r. subst r. unfold Image.load. rewrite loadVolatile_eq. split.
  - intros c Hsrc Hsup. unfold format_error. rewrite Hsrc, Hsup.
    destruct (getConstant env (cd_type c)); eexists; split; eauto.
  - destruct (format_error env i) as [e|] eqn:Hfe.
    { cbn [Image.how]. intros [= ->]. apply format_error_kind in Hfe.
      destruct Hfe as [|[? ?]]; discriminate. }
    destruct (Image.hasNpot env).
    + rewrite loadVolatileNPOT_eq, load_upload_how.
      destruct (glError _); [discriminate|].
      destruct (mipmap_error env _) as [e|] eqn:He; [|discriminate].
      intros [= ->]. apply mipmap_error_kind in He.
      destruct He as [|[|]]; discriminate.
    + rewrite loadVolatilePOT_eq. cbv zeta.
      destruct (npot_compressed i).
      * intros _. cbn [Image.self]. unfold prepared.
        rewrite nextTexture_query_bias. repeat split. discriminate.
      * rewrite load_upload_how.
        destruct (glError _); [discriminate|].
        destruct (mipmap_error env _) as [e|] eqn:He; [|discriminate].
        intros [= ->]. apply mipmap_error_kind in He.
        destruct He as [|[|]]; discriminate.
Qed.

Lemma load_unsupported_capability_state_witness :
  let i := Image.new_from_CompressedData Samples.env_pot
             Samples.dxt1_100x50 Samples.world0 in
  let r := Image.load Samples.env_pot i Samples.world0 in
  Image.texture (Image.self r) <> 0 /\
  Image.getWidth (Image.self r) = Image.getWidth i /\
  (exists e,
     Image.load Samples.env_bare i Samples.world0
       = Image.mkResult (Image.Thrown e) i Samples.world0 /\
     (e = FormatNotSupported \/ exists name, e = CompressedFormatNotSupported name)).
Proof.
  intros i r.
  pose proof (proj2 (load_unsupported_capability_state Samples.env_pot i Samples.world0)
                eq_refl) as (_ & _ & _ & Ht & _ & Hw & _).
  pose proof (proj1 (load_unsupported_capability_state Samples.env_bare i Samples.world0)
                Samples.dxt1_100x50 eq_refl eq_refl) as He.
  exact (conj Ht (conj Hw He)).
Defined.

(** C6, as stated, fails when the format itself is unsupported: on a system
    with neither non-power-of-two textures nor texture compression, loading a
    100×50 DXT1 image fails at the format check, with the unsupported-format
    error and not with the NPOT-plus-compression one. *)
Lemma load_npot_compressed_unsupported_format :
  let i := Image.new_from_CompressedData Samples.env_bare
             Samples.dxt1_100x50 Samples.world0 in
  Image.hasNpot Samples.env_bare = false /\
  ~ is_pow2 (cd_getWidth Samples.dxt1_100x50 0) /\
  Image.how (Image.load Samples.env_bare i Samples.world0)
    = Image.Thrown (CompressedFormatNotSupported "dxt1") /\
  Image.how (Image.load Samples.env_bare i Samples.world0)
    <> Image.Thrown NPOTCompressedNotSupported.
Proof.
  cbv zeta. repeat split; try discriminate.
  rewrite <- not_power_of_two_spec. reflexivity.
Qed.

(** C6, amended.  Take a compressed source of a format the system supports,
    with level-0 dimensions W×H between 0 and 2^24.  On a system without
    non-power-of-two textures, if W or H is not a power of two, [load] throws
    the NPOT-plus-compression error.  On a system with them [load] never
    throws that error, the base level is uploaded at exactly W×H, and the load
    returns true when the driver accepts that upload and the filter asks for no
    mipmaps. *)
Theorem load_compressed_npot_combination env i w c :
  Image.compressed_source i = Some c ->
  Image.width i = F32.of_int (cd_getWidth c 0) ->
  Image.height i = F32.of_int (cd_getHeight c 0) ->
  0 <= cd_getWidth c 0 <= 2 ^ 24 ->
  0 <= cd_getHeight c 0 <= 2 ^ 24 ->
  Image.hasCompressedTextureSupport env (cd_type c) = true ->
  let r := Image.load env i w in
  let upload :=
    CompressedTexImage2D 0 (Image.getCompressedFormat (cd_type c))
      (cd_getWidth c 0) (cd_getHeight c 0) (cd_getSize c 0) (cd_getData c 0) in
  (Image.hasNpot env = false ->
   ~ is_pow2 (cd_getWidth c 0) \/ ~ is_pow2 (cd_getHeight c 0) ->
   Image.how r = Image.Thrown NPOTCompressedNotSupported)
  /\
  (Image.hasNpot env = true ->
   Image.how r <> Image.Thrown NPOTCompressedNotSupported /\
   In upload (glCalls (Image.world r)) /\
   (rejects env upload = false ->
    Image.wants_mipmaps (Image.filter i) = false ->
    Image.how r = Image.Returned true)).
Proof.
  intros Hsrc Hw Hh HW HH Hsup r upload. subst r.
  unfold Image.load. rewrite loadVolatile_eq.
  unfold format_error. rewrite Hsrc, Hsup. split.
  - intros -> Hnp. rewrite loadVolatilePOT_eq. cbv zeta.
    assert (Hc : npot_compressed i = true).
    { unfold npot_compressed, Image.has_compressed_source. rewrite Hsrc.
      cbn [andb]. apply orb_true_iff. unfold pot_s, pot_t. rewrite Hw, Hh.
      destruct Hnp as [Hnp | Hnp]; [left | right]; apply negb_true_iff;
        apply not_true_is_false; intros Heq; apply Hnp.
      - rewrite (proj2 (pot_scale _ HW) Heq). apply next_p2_is_pow2.
      - rewrite (proj2 (pot_scale _ HH) Heq). apply next_p2_is_pow2. }
    now rewrite Hc.
  - intros ->. rewrite loadVolatileNPOT_eq.
    assert (Hup : base_uploads false (prepared env i (query_bias env w)) = [upload]).
    { unfold base_uploads.
      change (Image.compressed_source (prepared env i (query_bias env w)))
        with (Image.compressed_source i).
      now rewrite Hsrc. }
    split; [|split].
    + rewrite load_upload_how. destruct (glError _); [discriminate|].
      destruct (mipmap_error env _) as [e|] eqn:He; [|discriminate].
      intros [= ->]. apply mipmap_error_kind in He.
      destruct He as [|[|]]; discriminate.
    + destruct (load_upload_world env false (prepared env i (query_bias env w))
                  (prepared_world env i (query_bias env w))) as ((cs & ->) & _).
      rewrite Hup. apply in_or_app. right. now left.
    + intros Hrej Hwant. rewrite load_upload_how, Hup, glError_issue.
      cbn [existsb]. rewrite Hrej.
      change (glError (prepared_world env i (query_bias env w))) with false.
      cbn [orb].
      unfold mipmap_error, mipmap_skip.
      change (Image.wants_mipmaps
                (Image.filter (Image.set_mipmapsCreated false
                                 (prepared env i (query_bias env w)))))
        with (Image.wants_mipmaps (Image.filter i)).
      rewrite Hwant. now rewrite orb_true_r.
Qed.

Lemma load_compressed_npot_combination_witness :
  let i := Image.new_from_CompressedData Samples.env_pot
             Samples.dxt1_100x50 Samples.world0 in
  let j := Image.new_from_CompressedData Samples.env_npot
             Samples.dxt1_100x50 Samples.world0 in
  Image.how (Image.load Samples.env_pot i Samples.world0)
    = Image.Thrown NPOTCompressedNotSupported /\
  Image.how (Image.load Samples.env_npot j Samples.world0) = Image.Returned true.
Proof.
  intros i j.
  assert (HW : 0 <= cd_getWidth Samples.dxt1_100x50 0 <= 2 ^ 24)
    by (vm_compute; split; discriminate).
  assert (HH : 0 <= cd_getHeight Samples.dxt1_100x50 0 <= 2 ^ 24)
    by (vm_compute; split; discriminate).
  assert (Hnp : ~ is_pow2 (cd_getWidth Samples.dxt1_100x50 0)
                \/ ~ is_pow2 (cd_getHeight Samples.dxt1_100x50 0))
    by (left; rewrite <- not_power_of_two_spec; reflexivity).
  split.
  - exact (proj1 (load_compressed_npot_combination Samples.env_pot i Samples.world0
                    Samples.dxt1_100x50 eq_refl eq_refl eq_refl HW HH eq_refl)
             eq_refl Hnp).
  - exact (proj2 (proj2 (proj2
             (load_compressed_npot_combination Samples.env_npot j Samples.world0
                Samples.dxt1_100x50 eq_refl eq_refl eq_refl HW HH eq_refl)
             eq_refl)) eq_refl eq_refl).
Defined.

(* ===================================================================== *)
(** * The texture resource: histories of calls *)
(* ===================================================================== *)

Section History_facts.

Import Image.
Variable env : Env.

Lemma perform_load i w :
  perform env Load i w
  = mkResult (match how (load env i w) with
              | Returned _ => Returned tt
              | Thrown e => Thrown e
              end)
             (self (load env i w)) (world (load env i w)).
Proof. unfold perform, bind, ret. destruct (how (load env i w)); reflexivity. Qed.

(** The object a load leaves: untouched, or prepared, and on a padding system
    with rescaled corners. *)
Lemma load_self i w :
  ((exists e, how (load env i w) = Thrown e) /\ self (load env i w) = i)
  \/ (hasNpot env = true /\ kept (prepared env i w) (self (load env i w)))
  \/ (hasNpot env = false
      /\ kept (set_vertices (pot_scaled i) (prepared env i w)) (self (load env i w))).
Proof.
  unfold load. rewrite loadVolatile_eq.
  assert (Hp : prepared env i (query_bias env w) = prepared env i w)
    by (unfold prepared; now rewrite nextTexture_query_bias).
  destruct (format_error env i) as [e|]; [left; split; [now exists e | reflexivity]|].
  right. destruct (hasNpot env).
  - left. split; [reflexivity|]. rewrite loadVolatileNPOT_eq, Hp.
    apply load_upload_kept.
  - right. split; [reflexivity|]. rewrite loadVolatilePOT_eq, Hp. cbv zeta.
    destruct (npot_compressed i); [repeat split | apply load_upload_kept].
Qed.

Lemma immutable_refl i : immutable i i.
Proof. repeat split. Qed.

Lemma immutable_trans i j k : immutable i j -> immutable j k -> immutable i k.
Proof.
  unfold immutable. intros (? & ? & ? & ? & ?) (? & ? & ? & ? & ?).
  repeat split; congruence.
Qed.

Lemma perform_immutable c i w : immutable i (self (perform env c i w)).
Proof.
  destruct c as [| | f | x | s | f | s].
  - rewrite perform_load. cbn [self].
    destruct (load_self i w) as [[_ ->] | [[_ K] | [_ K]]]; [apply immutable_refl | |];
      destruct K as (? & ? & ? & ? & _ & ? & _); repeat split; assumption.
  - cbn [perform]. unfold unload. rewrite unloadVolatile_eq.
    destruct (texture i =? 0); repeat split.
  - cbn [perform]. rewrite setFilter_eq. cbv zeta. cbn [self].
    destruct (mipmap_creates env _); repeat split.
  - cbn [perform]. rewrite setWrap_eq. repeat split.
  - cbn [perform]. rewrite setMipmapSharpness_eq. repeat split.
  - repeat split.
  - repeat split.
Qed.

Lemma corners_ok_pot_scaled i :
  hasNpot env = false -> corners_ok env (vertices i) -> corners_ok env (pot_scaled i).
Proof.
  intros Hn (H0 & H1 & H2 & H3 & _). unfold pot_scaled.
  destruct (vertices i) as [a b c d].
  cbn [quad_upd v0 v1 v2 v3 vertex.s vertex.t_ vertex.with_s vertex.with_t] in *.
  repeat split; try assumption; congruence.
Qed.

Lemma perform_corners c i w :
  corners_ok env (vertices i) -> corners_ok env (vertices (self (perform env c i w))).
Proof.
  intros H. destruct c as [| | f | x | s | f | s].
  - rewrite perform_load. cbn [self].
    destruct (load_self i w) as [[_ ->] | [[_ K] | [Hn K]]]; [assumption | |];
      destruct K as (_ & _ & _ & _ & _ & _ & _ & _ & ->).
    + exact H.
    + now apply corners_ok_pot_scaled.
  - cbn [perform]. unfold unload. rewrite unloadVolatile_eq.
    destruct (texture i =? 0); exact H.
  - cbn [perform]. rewrite setFilter_eq. cbv zeta. cbn [self].
    destruct (mipmap_creates env _); exact H.
  - cbn [perform]. rewrite setWrap_eq. exact H.
  - cbn [perform]. rewrite setMipmapSharpness_eq. exact H.
  - exact H.
  - exact H.
Qed.

Lemma Reached_immutable i0 w0 i w : Reached env i0 w0 i w -> immutable i0 i.
Proof.
  induction 1 as [|c i w _ IH]; [apply immutable_refl|].
  eapply immutable_trans; [exact IH | apply perform_immutable].
Qed.

Lemma Reached_corners i0 w0 i w :
  corners_ok env (vertices i0) -> Reached env i0 w0 i w -> corners_ok env (vertices i).
Proof.
  intros H0. induction 1 as [|c i w _ IH]; [assumption|].
  now apply perform_corners.
Qed.

Lemma ReachedCleanly_Reached i0 w0 i w :
  ReachedCleanly env i0 w0 i w -> Reached env i0 w0 i w.
Proof. induction 1; [constructor | now constructor]. Qed.

Lemma new_from_ImageData_corners d w0 :
  corners_ok env (vertices (new_from_ImageData env d w0)).
Proof. repeat split. Qed.

Lemma new_from_CompressedData_corners c w0 :
  corners_ok env (vertices (new_from_CompressedData env c w0)).
Proof. repeat split. Qed.

End History_facts.

Section Settled_facts.

Import Image.
Variable env : Env.

Lemma immutable_same_checks i j :
  immutable i j ->
  format_error env j = format_error env i /\
  npot_compressed j = npot_compressed i /\
  (forall pot, base_uploads pot j = base_uploads pot i) /\
  creation_error env j = creation_error env i.
Proof.
  destruct i, j. unfold immutable. cbn. intros (-> & -> & -> & -> & ->).
  repeat split.
Qed.

Lemma stored_sharpness_same_max w w' s :
  maxMipmapSharpness w' = maxMipmapSharpness w ->
  stored_sharpness env w' s = stored_sharpness env w s.
Proof.
  intros H. unfold stored_sharpness, sharpness_low, sharpness_high. now rewrite H.
Qed.

(** Clamping twice is clamping once, whatever the bounds are. *)
Lemma stored_sharpness_idem w s :
  stored_sharpness env w (stored_sharpness env w s) = stored_sharpness env w s.
Proof.
  unfold stored_sharpness. destruct (hasMipmapSharpnessSupport env); [|reflexivity].
  unfold F32.min, F32.max.
  generalize (sharpness_low w) (sharpness_high w). intros lo hi.
  destruct (F32.ltb s lo) eqn:H1; destruct (F32.ltb hi lo) eqn:H2;
    destruct (F32.ltb hi s) eqn:H3; destruct (F32.ltb hi hi) eqn:H4;
    destruct (F32.ltb lo lo) eqn:H5;
    repeat first [ rewrite H1 | rewrite H2 | rewrite H3 | rewrite H4 | rewrite H5
                 | progress cbv iota ];
    reflexivity.
Qed.

Lemma query_bias_same_max w w' :
  maxMipmapSharpness w' = maxMipmapSharpness w ->
  maxMipmapSharpness (query_bias env w') = maxMipmapSharpness (query_bias env w).
Proof.
  intros H. unfold query_bias. rewrite H.
  destruct (hasMipmapSharpnessSupport env && F32.eqb (maxMipmapSharpness w) F32.zero);
    [reflexivity | assumption].
Qed.

(** Once asked for, the bias limit stays. *)
Lemma query_bias_settles w :
  maxMipmapSharpness (query_bias env (query_bias env w))
  = maxMipmapSharpness (query_bias env w).
Proof.
  unfold query_bias.
  destruct (hasMipmapSharpnessSupport env); cbn [andb]; [|reflexivity].
  destruct (F32.eqb (maxMipmapSharpness w) F32.zero) eqn:Hz.
  - cbn [maxMipmapSharpness set_maxMipmapSharpness].
    destruct (F32.eqb (GL_MAX_TEXTURE_LOD_BIAS env) F32.zero); reflexivity.
  - now rewrite Hz.
Qed.

Lemma mipmap_creates_true i :
  mipmap_creates env i = true -> mipmap_error env i = None /\ creation_error env i = None.
Proof.
  unfold mipmap_creates, mipmap_error.
  destruct (mipmap_skip i); cbn [negb andb].
  - discriminate.
  - destruct (creation_error env i); [discriminate | auto].
Qed.

Lemma with_anisotropy_same f : Filter.with_anisotropy (Filter.anisotropy f) f = f.
Proof. now destruct f. Qed.

Lemma settled_start i0 w0 : constructed env i0 w0 -> settled env i0 w0.
Proof.
  intros [[d ->] | [c ->]]; split; try discriminate; intros H; now elim H.
Qed.

Lemma load_upload_returned pot i1 w1 b :
  glError w1 = false ->
  how (load_upload env pot i1 w1) = Returned b ->
  let i2 := set_mipmapsCreated false i1 in
  let wA := issue env (mipmap_calls env i2)
              (set_glError false (issue env (base_uploads pot i1) w1)) in
  existsb (rejects env) (base_uploads pot i1) = false /\
  mipmap_error env i2 = None /\
  self (load_upload env pot i1 w1)
  = set_mipmapSharpness (stored_sharpness env wA (mipmapSharpness i1))
      (if mipmap_creates env i2 then set_mipmapsCreated true i2 else i2).
Proof.
  intros Hg. unfold load_upload, load_tail. cbv zeta.
  rewrite glError_issue, Hg. cbn [orb].
  destruct (existsb (rejects env) (base_uploads pot i1)); [discriminate|].
  destruct (mipmap_error env (set_mipmapsCreated false i1)); [discriminate|].
  intros _. repeat split.
Qed.

Lemma load_upload_returns pot i1 w1 :
  glError w1 = false ->
  existsb (rejects env) (base_uploads pot i1) = false ->
  mipmap_error env (set_mipmapsCreated false i1) = None ->
  how (load_upload env pot i1 w1) = Returned true.
Proof.
  intros Hg He Hm. rewrite load_upload_how, glError_issue, Hg, He, Hm. reflexivity.
Qed.

(** What a load that returns has established. *)
Lemma load_returned i w b :
  how (load env i w) = Returned b ->
  let j := self (load env i w) in
  format_error env i = None /\
  (hasNpot env = false -> npot_compressed i = false) /\
  existsb (rejects env) (base_uploads (negb (hasNpot env)) i) = false /\
  texture j = Zpos (nextTexture w) /\
  filter j = Filter.with_anisotropy (grantedAnisotropy env (filter i)) (filter i) /\
  wrap j = wrap i /\
  (exists wA, maxMipmapSharpness wA = maxMipmapSharpness (query_bias env w) /\
              mipmapSharpness j = stored_sharpness env wA (mipmapSharpness i)) /\
  (mipmapsCreated j = true -> creation_error env i = None) /\
  (wants_mipmaps (filter i) = true -> creation_error env i = None) /\
  maxMipmapSharpness (world (load env i w)) = maxMipmapSharpness (query_bias env w).
Proof.
  unfold load. rewrite loadVolatile_eq.
  destruct (format_error env i) as [e|]; [discriminate|].
  set (w' := query_bias env w).
  assert (Hnt : nextTexture w' = nextTexture w) by apply nextTexture_query_bias.
  assert (Hgen : forall pot i1,
            immutable i i1 -> filter i1 = Filter.with_anisotropy
                                 (grantedAnisotropy env (filter i)) (filter i) ->
            texture i1 = Zpos (nextTexture w) -> wrap i1 = wrap i ->
            mipmapSharpness i1 = mipmapSharpness i ->
            base_uploads pot i1 = base_uploads pot i ->
            how (load_upload env pot i1 (prepared_world env i w')) = Returned b ->
            let j := self (load_upload env pot i1 (prepared_world env i w')) in
            existsb (rejects env) (base_uploads pot i) = false /\
            texture j = Zpos (nextTexture w) /\
            filter j = Filter.with_anisotropy
                         (grantedAnisotropy env (filter i)) (filter i) /\
            wrap j = wrap i /\
            (exists wA, maxMipmapSharpness wA = maxMipmapSharpness w' /\
                        mipmapSharpness j = stored_sharpness env wA (mipmapSharpness i)) /\
            (mipmapsCreated j = true -> creation_error env i = None) /\
            (wants_mipmaps (filter i) = true -> creation_error env i = None) /\
            maxMipmapSharpness
              (world (load_upload env pot i1 (prepared_world env i w')))
            = maxMipmapSharpness w').
  { intros pot i1 Him Hf Ht Hwr Hms Hbu Hret j.
    destruct (load_upload_returned pot i1 (prepared_world env i w') b eq_refl Hret)
      as (He & Hme & Hself).
    destruct (immutable_same_checks i _ Him) as (_ & _ & _ & Hce).
    assert (Hce2 : creation_error env (set_mipmapsCreated false i1)
                   = creation_error env i) by (rewrite <- Hce; reflexivity).
    subst j. rewrite Hself. rewrite Hbu in He.
    split; [exact He|].
    destruct (load_upload_world env pot i1 (prepared_world env i w'))
      as (_ & Hmax & _).
    repeat split.
    - destruct (mipmap_creates env _); exact Ht.
    - destruct (mipmap_creates env _); exact Hf.
    - destruct (mipmap_creates env _); exact Hwr.
    - eexists. split; [|destruct (mipmap_creates env _); cbn; rewrite Hms; reflexivity].
      destruct (statics_issue env (mipmap_calls env (set_mipmapsCreated false i1))
                  (set_glError false
                     (issue env (base_uploads pot i1) (prepared_world env i w'))))
        as (-> & _).
      change (maxMipmapSharpness (set_glError false ?x)) with (maxMipmapSharpness x).
      destruct (statics_issue env (base_uploads pot i1) (prepared_world env i w'))
        as (-> & _).
      unfold prepared_world.
      change (maxMipmapSharpness (set_glError false ?x)) with (maxMipmapSharpness x).
      match goal with
      | |- maxMipmapSharpness (issue env ?cs ?x) = _ =>
          destruct (statics_issue env cs x) as (-> & _)
      end.
      reflexivity.
    - destruct (mipmap_creates env (set_mipmapsCreated false i1)) eqn:Hcr.
      + intros _. rewrite <- Hce2. now apply mipmap_creates_true.
      + cbn. discriminate.
    - intros Hwant. unfold mipmap_error, mipmap_skip in Hme.
      change (wants_mipmaps (filter (set_mipmapsCreated false i1)))
        with (wants_mipmaps (filter i1)) in Hme.
      rewrite Hf in Hme.
      change (wants_mipmaps (Filter.with_anisotropy _ (filter i)))
        with (wants_mipmaps (filter i)) in Hme.
      rewrite Hwant in Hme. cbn in Hme. now rewrite <- Hce2.
    - rewrite Hmax. unfold prepared_world.
      change (maxMipmapSharpness (set_glError false ?x)) with (maxMipmapSharpness x).
      match goal with
      | |- maxMipmapSharpness (issue env ?cs ?x) = _ =>
          destruct (statics_issue env cs x) as (-> & _)
      end.
      reflexivity. }
  destruct (hasNpot env).
  - rewrite loadVolatileNPOT_eq. intros Hret. cbv zeta.
    split; [reflexivity|]. split; [discriminate|].
    apply (Hgen false (prepared env i w')); try assumption; try reflexivity.
    + repeat split.
    + unfold prepared. now rewrite Hnt.
  - rewrite loadVolatilePOT_eq. cbv zeta.
    destruct (npot_compressed i); [discriminate|].
    intros Hret. split; [reflexivity|]. split; [reflexivity|].
    apply (Hgen true (set_vertices (pot_scaled i) (prepared env i w')));
      try assumption; try reflexivity.
    + repeat split.
    + unfold prepared. cbn. now rewrite Hnt.
Qed.

(** What makes a load return. *)
Lemma load_returns i w :
  format_error env i = None ->
  (hasNpot env = false -> npot_compressed i = false) ->
  existsb (rejects env) (base_uploads (negb (hasNpot env)) i) = false ->
  (wants_mipmaps (filter i) = true -> creation_error env i = None) ->
  how (load env i w) = Returned true.
Proof.
  intros Hfe Hnp Hup Hmip. unfold load. rewrite loadVolatile_eq, Hfe.
  assert (Hme : forall i1, immutable i i1 -> filter i1 = Filter.with_anisotropy
                  (grantedAnisotropy env (filter i)) (filter i) ->
                mipmap_error env (set_mipmapsCreated false i1) = None).
  { intros i1 Him Hf. unfold mipmap_error, mipmap_skip.
    change (wants_mipmaps (filter (set_mipmapsCreated false i1)))
      with (wants_mipmaps (filter i1)).
    rewrite Hf.
    change (wants_mipmaps (Filter.with_anisotropy _ (filter i)))
      with (wants_mipmaps (filter i)).
    destruct (wants_mipmaps (filter i)); [|reflexivity]. cbn.
    destruct (immutable_same_checks i _ Him) as (_ & _ & _ & Hce).
    change (creation_error env (set_mipmapsCreated false i1))
      with (creation_error env i1).
    rewrite Hce. now apply Hmip. }
  destruct (hasNpot env); cbn [negb] in Hup.
  - rewrite loadVolatileNPOT_eq. apply load_upload_returns;
      [reflexivity | exact Hup | apply Hme; repeat split].
  - rewrite loadVolatilePOT_eq. cbv zeta. rewrite (Hnp eq_refl).
    apply load_upload_returns;
      [reflexivity | exact Hup | apply Hme; repeat split].
Qed.

Lemma settled_intro i j wf :
  immutable i j ->
  (mipmapsCreated j = true -> creation_error env i = None) ->
  (texture j <> 0 ->
   format_error env i = None /\
   (hasNpot env = false -> npot_compressed i = false) /\
   existsb (rejects env) (base_uploads (negb (hasNpot env)) i) = false /\
   (wants_mipmaps (filter j) = true -> creation_error env i = None) /\
   grantedAnisotropy env (filter j) = Filter.anisotropy (filter j) /\
   stored_sharpness env wf (mipmapSharpness j) = mipmapSharpness j /\
   maxMipmapSharpness (query_bias env wf) = maxMipmapSharpness wf) ->
  settled env j wf.
Proof.
  intros Him HK HL.
  destruct (immutable_same_checks i j Him) as (Hfe & Hnp & Hbu & Hce).
  split.
  - rewrite Hce. exact HK.
  - intros Ht. rewrite Hfe, Hnp, Hbu, Hce. exact (HL Ht).
Qed.

Lemma max_query_bias_after w wf :
  maxMipmapSharpness wf = maxMipmapSharpness w ->
  maxMipmapSharpness (query_bias env w) = maxMipmapSharpness w ->
  maxMipmapSharpness (query_bias env wf) = maxMipmapSharpness wf.
Proof.
  intros H1 H2. rewrite (query_bias_same_max w wf H1). congruence.
Qed.

(** A call that returns keeps an image settled. *)
Lemma settled_step c i w :
  anisotropy_settles env ->
  settled env i w ->
  how (perform env c i w) = Returned tt ->
  settled env (self (perform env c i w)) (world (perform env c i w)).
Proof.
  intros Han [HK HL] Hret.
  apply (settled_intro i); [apply perform_immutable | |];
    destruct c as [| | f | x | s | f | s].
  - (* load *)
    rewrite perform_load in *. cbn [how self world] in *.
    destruct (how (load env i w)) as [b|e] eqn:Hl; [|discriminate].
    now destruct (load_returned i w b Hl) as (_ & _ & _ & _ & _ & _ & _ & H & _).
  - cbn [perform]. unfold unload. rewrite unloadVolatile_eq.
    destruct (texture i =? 0); exact HK.
  - cbn [perform] in *. rewrite setFilter_eq in *. cbv zeta in *. cbn [how self] in *.
    destruct (mipmap_creates env _) eqn:Hc.
    + intros _. now apply mipmap_creates_true in Hc.
    + exact HK.
  - cbn [perform]. rewrite setWrap_eq. exact HK.
  - cbn [perform]. rewrite setMipmapSharpness_eq. exact HK.
  - exact HK.
  - exact HK.
  - (* load *)
    rewrite perform_load in *. cbn [how self world] in *.
    destruct (how (load env i w)) as [b|e] eqn:Hl; [|discriminate].
    destruct (load_returned i w b Hl)
      as (Hfe & Hnp & Hup & Ht & Hf & _ & (wA & HwA & Hms) & _ & Hwant & Hmax).
    intros _. repeat split; try assumption.
    + rewrite Hf. exact Hwant.
    + rewrite Hf. apply Han.
    + rewrite Hms.
      rewrite (stored_sharpness_same_max wA (world (load env i w)))
        by congruence.
      apply stored_sharpness_idem.
    + rewrite (query_bias_same_max (query_bias env w) _ Hmax), Hmax.
      apply query_bias_settles.
  - cbn [perform]. unfold unload. rewrite unloadVolatile_eq.
    destruct (texture i =? 0) eqn:Ht; cbn [self world].
    + exact HL.
    + intros H. now elim H.
  - cbn [perform] in *. rewrite setFilter_eq in *. cbv zeta in *.
    cbn [how self world] in *.
    set (i1 := set_filter (Filter.with_anisotropy (grantedAnisotropy env f) f) i) in *.
    assert (Hmax : maxMipmapSharpness
                     (issue env (bind_calls i ++ SetTextureFilter f
                                   :: mipmap_calls env i1) w)
                   = maxMipmapSharpness w) by apply statics_issue.
    assert (Hj : forall P : Image -> Prop,
               P i1 -> P (set_mipmapsCreated true i1) ->
               P (if mipmap_creates env i1 then set_mipmapsCreated true i1 else i1))
      by (intros P ? ?; destruct (mipmap_creates env i1); assumption).
    intros Ht.
    assert (Hti : texture i <> 0)
      by (revert Ht; apply Hj; intros H; exact H).
    destruct (HL Hti) as (Hfe & Hnp & Hup & Hwant & Hgr & Hms & Hqb).
    repeat split; try assumption.
    + intros Hw.
      assert (Hwf : wants_mipmaps f = true) by (revert Hw; apply Hj; intros H; exact H).
      destruct (mipmap_error env i1) eqn:Hme; [discriminate|].
      unfold mipmap_error, mipmap_skip in Hme.
      change (mipmapsCreated i1) with (mipmapsCreated i) in Hme.
      change (wants_mipmaps (filter i1)) with (wants_mipmaps f) in Hme.
      rewrite Hwf in Hme. destruct (mipmapsCreated i) eqn:Hmc.
      * now apply HK.
      * exact Hme.
    + apply Hj; cbn; apply Han.
    + rewrite (stored_sharpness_same_max w _ _ Hmax).
      apply Hj; exact Hms.
    + apply (max_query_bias_after w); assumption.
  - cbn [perform] in *. rewrite setWrap_eq in *. cbn [how self world] in *.
    intros Ht. destruct (HL Ht) as (Hfe & Hnp & Hup & Hwant & Hgr & Hms & Hqb).
    assert (Hmax : maxMipmapSharpness
                     (issue env (bind_calls i ++ [SetTextureWrap x]) w)
                   = maxMipmapSharpness w) by apply statics_issue.
    repeat split; try assumption.
    + rewrite (stored_sharpness_same_max w _ _ Hmax). exact Hms.
    + apply (max_query_bias_after w); assumption.
  - cbn [perform] in *. rewrite setMipmapSharpness_eq in *. cbn [how self world] in *.
    intros Ht. destruct (HL Ht) as (Hfe & Hnp & Hup & Hwant & Hgr & Hms & Hqb).
    assert (Hmax : maxMipmapSharpness
                     (issue env (sharpness_calls env w s i) w)
                   = maxMipmapSharpness w) by apply statics_issue.
    repeat split; try assumption.
    + rewrite (stored_sharpness_same_max w _ _ Hmax). apply stored_sharpness_idem.
    + apply (max_query_bias_after w); assumption.
  - intros Ht. destruct (HL Ht) as (Hfe & Hnp & Hup & Hwant & Hgr & Hms & Hqb).
    repeat split; try assumption.
    apply (max_query_bias_after w); [reflexivity | assumption].
  - intros Ht. destruct (HL Ht) as (Hfe & Hnp & Hup & Hwant & Hgr & Hms & Hqb).
    repeat split; try assumption.
    apply (max_query_bias_after w); [reflexivity | assumption].
Qed.

Lemma ReachedCleanly_settled i0 w0 i w :
  anisotropy_settles env -> constructed env i0 w0 ->
  ReachedCleanly env i0 w0 i w -> settled env i w.
Proof.
  intros Han Hc. induction 1 as [|c i w _ IH Hret].
  - now apply settled_start.
  - now apply settled_step.
Qed.

End Settled_facts.

(** C3.  Take an image built from raw pixels of W×H, with W and H between 0
    and 2^24 (the integers a [float] holds exactly), in any state reached from
    its construction by calls on it.  After a load that returns, on a system
    with non-power-of-two textures the corner texture coordinates are (0,0),
    (0,1), (1,1), (1,0); on a system without, they are (0,0), (0,t), (s,t),
    (s,0) where [s] is exactly W/P and [t] exactly H/Q, for P and Q the next
    powers of two ≥ W and H. *)
Theorem load_corner_texcoords env d w0 i w :
  0 <= id_width d <= 2 ^ 24 ->
  0 <= id_height d <= 2 ^ 24 ->
  Reached env (Image.new_from_ImageData env d w0) w0 i w ->
  Image.how (Image.load env i w) = Image.Returned true ->
  let q := Image.vertices (Image.self (Image.load env i w)) in
  if Image.hasNpot env then
    texcoords q = [(F32.zero, F32.zero); (F32.zero, F32.one);
                   (F32.one, F32.one); (F32.one, F32.zero)]
  else
    exists s t qs qt P Q,
      texcoords q = [(F32.zero, F32.zero); (F32.zero, t); (s, t); (s, F32.zero)] /\
      next_pow2_of (id_width d) P /\ next_pow2_of (id_height d) Q /\
      F32.to_Q s = Some qs /\ Qeq qs (id_width d # Z.to_pos P) /\
      F32.to_Q t = Some qt /\ Qeq qt (id_height d # Z.to_pos Q).
Proof.
  intros HW HH Hr Hok q. subst q.
  pose proof (Reached_immutable env _ _ _ _ Hr) as (_ & _ & Hw & Hh & _).
  pose proof (Reached_corners env _ _ _ _
                (new_from_ImageData_corners env d w0) Hr) as Hc.
  change (Image.width (Image.new_from_ImageData env d w0))
    with (F32.of_int (id_width d)) in Hw.
  change (Image.height (Image.new_from_ImageData env d w0))
    with (F32.of_int (id_height d)) in Hh.
  destruct (load_self env i w) as [[[e He] _] | [[Hn K] | [Hn K]]].
  - rewrite Hok in He. discriminate.
  - rewrite Hn. destruct K as (_ & _ & _ & _ & _ & _ & _ & _ & ->).
    change (Image.vertices (prepared env i w)) with (Image.vertices i).
    destruct Hc as (H0 & H1 & H2 & H3 & H4). destruct (H4 Hn) as (H5 & H6 & H7 & H8).
    unfold texcoords. cbn [map]. now rewrite H0, H1, H2, H3, H5, H6, H7, H8.
  - rewrite Hn. destruct K as (_ & _ & _ & _ & _ & _ & _ & _ & ->).
    change (Image.vertices (Image.set_vertices (pot_scaled i) (prepared env i w)))
      with (pot_scaled i).
    destruct (pot_scale _ HW) as ((qs & Hqs & Hes) & _).
    destruct (pot_scale _ HH) as ((qt & Hqt & Het) & _).
    exists (pot_s i), (pot_t i), qs, qt, (next_p2 (id_width d)), (next_p2 (id_height d)).
    unfold pot_s, pot_t. rewrite Hw, Hh.
    repeat split; try assumption; try apply next_p2_spec.
    destruct Hc as (H0 & H1 & H2 & H3 & _).
    unfold pot_scaled, pot_s, pot_t, texcoords. rewrite Hw, Hh.
    destruct (Image.vertices i) as [a b c e].
    cbn [quad_upd v0 v1 v2 v3 vertex.s vertex.t_ vertex.with_s vertex.with_t map] in *.
    now rewrite H0, H1, H2, H3.
Qed.

Lemma load_corner_texcoords_witness :
  let i := Image.new_from_ImageData Samples.env_pot Samples.raw_100x50 Samples.world0 in
  exists s t qs qt P Q,
    texcoords (Image.vertices (Image.self (Image.load Samples.env_pot i Samples.world0)))
      = [(F32.zero, F32.zero); (F32.zero, t); (s, t); (s, F32.zero)] /\
    next_pow2_of 100 P /\ next_pow2_of 50 Q /\
    F32.to_Q s = Some qs /\ Qeq qs (100 # Z.to_pos P) /\
    F32.to_Q t = Some qt /\ Qeq qt (50 # Z.to_pos Q).
Proof.
  intros i.
  assert (HW : 0 <= id_width Samples.raw_100x50 <= 2 ^ 24)
    by (vm_compute; split; discriminate).
  assert (HH : 0 <= id_height Samples.raw_100x50 <= 2 ^ 24)
    by (vm_compute; split; discriminate).
  exact (load_corner_texcoords Samples.env_pot Samples.raw_100x50 Samples.world0
           i Samples.world0 HW HH
           (Reached_start Samples.env_pot i Samples.world0) eq_refl).
Defined.

(** C8, as stated, fails for a loaded image whose last [setFilter] threw: a
    100×50 raw image loads on a system with non-power-of-two textures; asking
    for linear mipmaps then throws (the size is not a power of two) but leaves
    the filter stored and the texture held; after [unload()], [load()] throws
    the same error instead of returning. *)
Lemma reload_after_failed_setFilter_throws :
  let env := Samples.env_npot in
  let i0 := Image.new_from_ImageData env Samples.raw_100x50 Samples.world0 in
  let r1 := Image.load env i0 Samples.world0 in
  let r2 := Image.setFilter env
              (Filter.mk FILTER_LINEAR FILTER_LINEAR FILTER_LINEAR F32.one)
              (Image.self r1) (Image.world r1) in
  let r3 := Image.unload env (Image.self r2) (Image.world r2) in
  let r4 := Image.load env (Image.self r3) (Image.world r3) in
  Image.how r1 = Image.Returned true /\
  Image.how r2 = Image.Thrown MipmapsNeedPowerOfTwo /\
  Image.texture (Image.self r2) = 1 /\
  Image.how r3 = Image.Returned tt /\
  Image.how r4 = Image.Thrown MipmapsNeedPowerOfTwo.
Proof. vm_compute. repeat split. Qed.

(** C8, amended.  Take an image that holds a texture, in a state reached from
    its construction by calls on it that all returned, on a driver that
    grants again the anisotropy it has granted.  Then [unload()] returns and
    releases the texture, the [load()] that follows returns true with a
    texture held again, and width, height, filter, wrap and mipmap sharpness
    are what they were before the [unload()]. *)
Theorem unload_load_round_trip env i0 w0 i w :
  anisotropy_settles env ->
  constructed env i0 w0 ->
  ReachedCleanly env i0 w0 i w ->
  Image.texture i <> 0 ->
  let r1 := Image.unload env i w in
  let r := Image.load env (Image.self r1) (Image.world r1) in
  Image.how r1 = Image.Returned tt /\
  Image.texture (Image.self r1) = 0 /\
  Image.how r = Image.Returned true /\
  Image.texture (Image.self r) <> 0 /\
  Image.getWidth (Image.self r) = Image.getWidth i /\
  Image.getHeight (Image.self r) = Image.getHeight i /\
  Image.getFilter (Image.self r) = Image.getFilter i /\
  Image.getWrap (Image.self r) = Image.getWrap i /\
  Image.getMipmapSharpness (Image.self r) = Image.getMipmapSharpness i.
Proof.
  intros Han Hc Hr Ht r1 r. subst r r1.
  destruct (ReachedCleanly_settled env i0 w0 i w Han Hc Hr) as [_ HL].
  destruct (HL Ht) as (Hfe & Hnp & Hup & Hwant & Hgr & Hms & Hqb).
  unfold Image.unload. rewrite unloadVolatile_eq.
  destruct (Z.eqb_spec (Image.texture i) 0) as [|_]; [contradiction|].
  cbn [Image.how Image.self Image.world].
  set (iu := Image.set_texture 0 i).
  set (wu := issue env [DeleteTexture (Image.texture i)] w).
  assert (Hret : Image.how (Image.load env iu wu) = Image.Returned true)
    by (apply load_returns; assumption).
  destruct (load_returned env iu wu true Hret)
    as (_ & _ & _ & Htj & Hfj & Hwj & (wA & HwA & Hmj) & _).
  pose proof (perform_immutable env Load iu wu) as (_ & _ & Hwd & Hht & _).
  rewrite perform_load in Hwd, Hht. cbn [Image.self] in Hwd, Hht.
  assert (Hmax : maxMipmapSharpness wA = maxMipmapSharpness w).
  { rewrite HwA, <- Hqb. apply query_bias_same_max. apply statics_issue. }
  unfold Image.getWidth, Image.getHeight, Image.getFilter, Image.getWrap,
    Image.getMipmapSharpness.
  repeat split; try assumption.
  - rewrite Htj. discriminate.
  - rewrite Hfj. change (Image.filter iu) with (Image.filter i).
    rewrite Hgr. apply with_anisotropy_same.
  - rewrite Hmj. change (Image.mipmapSharpness iu) with (Image.mipmapSharpness i).
    rewrite (stored_sharpness_same_max env w wA _ Hmax). exact Hms.
Qed.

Lemma unload_load_round_trip_witness :
  let env := Samples.env_npot in
  let i0 := Image.new_from_ImageData env Samples.raw_100x50 Samples.world0 in
  let p1 := perform env Load i0 Samples.world0 in
  let p2 := perform env (SetMipmapSharpness (F32.of_int 100))
              (Image.self p1) (Image.world p1) in
  let r1 := Image.unload env (Image.self p2) (Image.world p2) in
  let r := Image.load env (Image.self r1) (Image.world r1) in
  Image.how r = Image.Returned true /\
  Image.getFilter (Image.self r) = Image.getFilter (Image.self p2) /\
  Image.getMipmapSharpness (Image.self r) = F32.sub (F32.of_int 16) F32.hundredth.
Proof.
  intros env i0 p1 p2 r1 r.
  assert (Han : anisotropy_settles env) by (intros f; reflexivity).
  assert (Hc : constructed env i0 Samples.world0)
    by (left; exists Samples.raw_100x50; reflexivity).
  assert (Hr : ReachedCleanly env i0 Samples.world0 (Image.self p2) (Image.world p2)).
  { apply Cleanly_call; [|reflexivity].
    apply Cleanly_call; [|reflexivity].
    apply Cleanly_start. }
  assert (Ht : Image.texture (Image.self p2) <> 0) by (vm_compute; discriminate).
  destruct (unload_load_round_trip env i0 Samples.world0 _ _ Han Hc Hr Ht)
    as (_ & _ & H1 & _ & _ & _ & H2 & _ & H3).
  exact (conj H1 (conj H2 H3)).
Defined.

(* ===================================================================== *)
(** * The mesh vertex map *)
(* ===================================================================== *)

Lemma decode_encode_uint32 l :
  Forall (fun v => 0 <= v < 2 ^ 32) l ->
  Mesh.decode_uint32 (List.length l) (flat_map Mesh.encode_uint32 l) = l.
Proof.
  induction 1 as [|v l Hv _ IH]; [reflexivity|].
  cbn [List.length flat_map Mesh.encode_uint32 app Mesh.decode_uint32].
  rewrite IH. f_equal.
  change (2 ^ 32) with 4294967296 in Hv.
  pose proof (Z.div_mod v 256 ltac:(lia)).
  pose proof (Z.div_mod (v / 256) 256 ltac:(lia)).
  pose proof (Z.div_mod (v / 65536) 256 ltac:(lia)).
  pose proof (Z.mod_small (v / 16777216) 256).
  assert (v / 65536 = v / 256 / 256) by (rewrite Z.div_div by lia; reflexivity).
  assert (v / 16777216 = v / 65536 / 256) by (rewrite Z.div_div by lia; reflexivity).
  assert (0 <= v / 16777216 < 256)
    by (split; [apply Z.div_pos; lia | apply Z.div_lt_upper_bound; lia]).
  lia.
Qed.

(** The explicit form round-trips through the index buffer. *)
Lemma getVertexMap_setVertexMap_indices l m :
  l <> [] -> Forall (fun v => 0 <= v < 2 ^ 32) l ->
  Mesh.getVertexMap (Mesh.setVertexMap_indices l m) = l.
Proof.
  intros Hl Hv. unfold Mesh.getVertexMap, Mesh.setVertexMap_indices.
  cbn [Mesh.useIndexBuffer Mesh.indexDataType Mesh.indexCount Mesh.indexBuffer].
  destruct l as [|z l]; [contradiction|].
  change (negb (Nat.eqb (List.length (z :: l)) 0)) with true. cbv iota.
  now apply decode_encode_uint32.
Qed.

(** C9.  For a mesh of [vertexCount] vertices that fits 32-bit indices, the
    zero-argument [setVertexMap()] disables the index buffer and leaves the
    vertices alone, and [getVertexMap] then yields the identity sequence
    0, 1, ..., vertexCount - 1, each entry a 32-bit value. *)
Theorem setVertexMap_none_getVertexMap_identity m :
  Z.of_nat (Mesh.vertexCount m) <= 2 ^ 32 ->
  let m' := Mesh.setVertexMap_none m in
  Mesh.useIndexBuffer m' = false /\
  Mesh.vertexCount m' = Mesh.vertexCount m /\
  Mesh.getVertexMap m' = map Z.of_nat (seq 0 (Mesh.vertexCount m)) /\
  List.length (Mesh.getVertexMap m') = Mesh.vertexCount m /\
  (forall k, (k < Mesh.vertexCount m)%nat ->
             nth k (Mesh.getVertexMap m') (-1) = Z.of_nat k) /\
  Forall (fun v => 0 <= v < 2 ^ 32) (Mesh.getVertexMap m').
Proof.
  intros Hn m'. subst m'. unfold Mesh.getVertexMap, Mesh.setVertexMap_none.
  cbn [Mesh.useIndexBuffer Mesh.vertexCount]. repeat split.
  - now rewrite length_map, length_seq.
  - intros k Hk. change (-1) with (Z.of_nat 0 - 1).
    rewrite nth_indep with (d' := Z.of_nat 0) by (now rewrite length_map, length_seq).
    rewrite map_nth, seq_nth by assumption. reflexivity.
  - apply Forall_forall. intros v Hv. apply in_map_iff in Hv.
    destruct Hv as (k & <- & Hk). apply in_seq in Hk. lia.
Qed.

Lemma setVertexMap_none_getVertexMap_identity_witness :
  Mesh.getVertexMap
    (Mesh.setVertexMap_none
       (Mesh.setVertexMap_indices [2; 1; 0; 3]
          (Mesh.mkMesh 4 [] false 0 Mesh.INDEX_UINT16)))
  = [0; 1; 2; 3].
Proof.
  refine (proj1 (proj2 (proj2
    (setVertexMap_none_getVertexMap_identity
       (Mesh.setVertexMap_indices [2; 1; 0; 3]
          (Mesh.mkMesh 4 [] false 0 Mesh.INDEX_UINT16)) _)))).
  vm_compute. discriminate.
Defined.

(* ===================================================================== *)
(** * Further properties of the texture resource *)
(* ===================================================================== *)

(** A compression format the system supports is a known one, it implies
    compressed texture support as such, its OpenGL format is not the [GL_RGBA8]
    fallback, and no other supported type shares that format. *)
Theorem supported_type_has_its_own_format env t :
  Image.hasCompressedTextureSupport env t = true ->
  Image.hasCompressedTextureSupport_any env = true /\
  t <> TYPE_UNKNOWN /\
  Image.getCompressedFormat t <> GL_RGBA8 /\
  (forall t',
     Image.hasCompressedTextureSupport env t' = true ->
     Image.getCompressedFormat t' = Image.getCompressedFormat t -> t' = t).
Proof.
  unfold Image.hasCompressedTextureSupport.
  destruct (Image.hasCompressedTextureSupport_any env); cbn [negb];
    [|discriminate].
  intros Ht. repeat split.
  - intros ->. discriminate.
  - destruct t; try discriminate.
  - intros t' Ht' Hf. destruct t, t'; try discriminate; reflexivity.
Qed.

Lemma supported_type_has_its_own_format_witness :
  Image.getCompressedFormat TYPE_DXT1 <> GL_RGBA8 /\ TYPE_DXT1 <> TYPE_UNKNOWN.
Proof.
  pose proof (supported_type_has_its_own_format Samples.env_pot TYPE_DXT1 eq_refl)
    as (_ & H1 & H2 & _).
  exact (conj H2 H1).
Defined.

(** [unload()] never throws.  It deletes the texture held, if any, and only
    that; it zeroes the handle and leaves every other member as it was,
    [mipmapsCreated] included; a second [unload()] does nothing at all. *)
Theorem unload_releases_once env i w :
  let r := Image.unload env i w in
  Image.how r = Image.Returned tt /\
  Image.texture (Image.self r) = 0 /\
  Image.self r = Image.set_texture 0 i /\
  glCalls (Image.world r)
    = glCalls w ++ (if Image.texture i =? 0 then []
                    else [DeleteTexture (Image.texture i)]) /\
  Image.unload env (Image.self r) (Image.world r)
    = Image.mkResult (Image.Returned tt) (Image.self r) (Image.world r).
Proof.
  cbv zeta. unfold Image.unload. rewrite (unloadVolatile_eq env i w).
  destruct (Z.eqb_spec (Image.texture i) 0) as [Hz | Hnz];
    cbn [Image.how Image.self Image.world]; rewrite unloadVolatile_eq.
  - rewrite (proj2 (Z.eqb_eq _ _) Hz).
    repeat split; try assumption.
    + destruct i. cbn in *. now subst.
    + now rewrite app_nil_r.
  - cbn [Image.texture Image.set_texture Z.eqb].
    repeat split.
Qed.

(** [setFilter(f)] stores [f] with the anisotropy the driver grants in place
    of the one asked for, whether it returns or throws.  It returns, sending
    only the bind and the filter, when [f] asks for no mipmaps or mipmaps
    exist already.  It throws nothing but the three mipmap errors, and then
    [mipmapsCreated], the texture, the wrap and the sharpness are as before. *)
Theorem setFilter_stores_granted_filter env f i w :
  let r := Image.setFilter env f i w in
  Image.getFilter (Image.self r)
    = Filter.with_anisotropy (grantedAnisotropy env f) f /\
  (Image.wants_mipmaps f = false \/ Image.mipmapsCreated i = true ->
   Image.how r = Image.Returned tt /\
   Image.mipmapsCreated (Image.self r) = Image.mipmapsCreated i /\
   glCalls (Image.world r) = glCalls w ++ bind_calls i ++ [SetTextureFilter f]) /\
  (forall e,
     Image.how r = Image.Thrown e ->
     (e = MipmapFilteringNotSupported \/ e = MipmapsNeedPowerOfTwo
      \/ e = CompressedLevelsMissing) /\
     Image.self r
       = Image.set_filter (Filter.with_anisotropy (grantedAnisotropy env f) f) i).
Proof.
  cbv zeta. rewrite setFilter_eq. cbv zeta. cbn [Image.how Image.self Image.world].
  set (i1 := Image.set_filter (Filter.with_anisotropy (grantedAnisotropy env f) f) i).
  split; [|split].
  - unfold Image.getFilter. destruct (mipmap_creates env i1); reflexivity.
  - intros H.
    assert (Hskip : mipmap_skip i1 = true).
    { unfold mipmap_skip.
      change (Image.mipmapsCreated i1) with (Image.mipmapsCreated i).
      change (Image.wants_mipmaps (Image.filter i1)) with (Image.wants_mipmaps f).
      destruct H as [-> | ->]; [apply orb_true_r | reflexivity]. }
    unfold mipmap_error, mipmap_creates, mipmap_calls, mipmap_error.
    rewrite Hskip. cbn [negb andb]. repeat split.
    now rewrite glCalls_issue.
  - intros e He. destruct (mipmap_error env i1) as [e'|] eqn:Hme; [|discriminate].
    injection He as ->. split; [now apply (mipmap_error_kind env i1)|].
    unfold mipmap_creates. now rewrite Hme.
Qed.

Lemma setFilter_stores_granted_filter_witness :
  let i := Image.new_from_ImageData Samples.env_npot Samples.raw_100x50 Samples.world0 in
  let f := Filter.mk FILTER_NEAREST FILTER_NEAREST FILTER_NONE (F32.of_int 4) in
  let g := Filter.mk FILTER_NEAREST FILTER_NEAREST FILTER_LINEAR (F32.of_int 4) in
  Image.how (Image.setFilter Samples.env_npot f i Samples.world0) = Image.Returned tt /\
  Image.self (Image.setFilter Samples.env_npot g i Samples.world0)
    = Image.set_filter g i.
Proof.
  intros i f g. split.
  - exact (proj1 (proj1 (proj2
      (setFilter_stores_granted_filter Samples.env_npot f i Samples.world0))
      (or_introl eq_refl))).
  - exact (proj2 (proj2 (proj2
      (setFilter_stores_granted_filter Samples.env_npot g i Samples.world0))
      MipmapsNeedPowerOfTwo eq_refl)).
Defined.

Section Load_trace.

Import Image.
Variable env : Env.

Lemma load_tail_trace i w :
  glCalls (world (load_tail env i w)) = glCalls w ++ tail_calls env i w.
Proof.
  unfold load_tail, tail_calls. cbv zeta.
  destruct (mipmap_error env (set_mipmapsCreated false i)); cbn [world].
  - now rewrite glCalls_issue, app_nil_r.
  - now rewrite !glCalls_issue, app_assoc.
Qed.

Lemma load_upload_trace pot i1 w1 :
  glCalls (world (load_upload env pot i1 w1))
  = glCalls w1 ++ upload_calls env pot i1 w1.
Proof.
  unfold load_upload, upload_calls. cbv zeta.
  destruct (glError (issue env (base_uploads pot i1) w1)).
  - cbn [world]. change (glCalls (set_glError false ?x)) with (glCalls x).
    now rewrite glCalls_issue, app_nil_r.
  - rewrite load_tail_trace.
    change (glCalls (set_glError false ?x)) with (glCalls x).
    now rewrite glCalls_issue, app_assoc.
Qed.

Lemma glCalls_prepared_world i w :
  glCalls (prepared_world env i w) = glCalls w ++ prepare_calls i w.
Proof.
  unfold prepared_world.
  change (glCalls (set_glError false ?x)) with (glCalls x).
  now rewrite glCalls_issue.
Qed.

(** The commands of a load, one after the other. *)
Lemma load_trace i w :
  glCalls (world (load env i w)) = glCalls w ++ load_calls env i w.
Proof.
  unfold load, load_calls. rewrite loadVolatile_eq.
  assert (Hp : prepared env i (query_bias env w) = prepared env i w)
    by (unfold prepared; now rewrite nextTexture_query_bias).
  assert (Hpc : prepare_calls i (query_bias env w) = prepare_calls i w)
    by (unfold prepare_calls; now rewrite nextTexture_query_bias).
  assert (Hq : glCalls (query_bias env w)
               = glCalls w ++ (if hasMipmapSharpnessSupport env
                                  && F32.eqb (maxMipmapSharpness w) F32.zero
                               then [GetFloatv_MAX_TEXTURE_LOD_BIAS] else [])).
  { unfold query_bias.
    destruct (hasMipmapSharpnessSupport env
              && F32.eqb (maxMipmapSharpness w) F32.zero);
      [reflexivity | now rewrite app_nil_r]. }
  destruct (format_error env i); [now rewrite app_nil_r|].
  destruct (hasNpot env).
  - rewrite loadVolatileNPOT_eq, load_upload_trace, glCalls_prepared_world,
      Hq, Hpc, Hp, <- !app_assoc. reflexivity.
  - rewrite loadVolatilePOT_eq. cbv zeta. destruct (npot_compressed i).
    + cbn [world]. rewrite glCalls_prepared_world, Hq, Hpc, <- !app_assoc.
      now rewrite app_nil_r.
    + rewrite load_upload_trace, glCalls_prepared_world, Hq, Hpc, Hp,
        <- !app_assoc. reflexivity.
Qed.

Lemma bind_calls_keep i : forallb (fun c => negb (is_DeleteTexture c)) (bind_calls i) = true.
Proof. unfold bind_calls. destruct (texture i =? 0); reflexivity. Qed.

Lemma bind_calls_no_gen i : forallb (fun c => negb (is_GenTextures c)) (bind_calls i) = true.
Proof. unfold bind_calls. destruct (texture i =? 0); reflexivity. Qed.

Lemma forallb_map_const {A} (P : GLCall -> bool) (f : A -> GLCall) l :
  (forall a, P (f a) = true) -> forallb P (map f l) = true.
Proof. intros H. induction l; cbn; [reflexivity | now rewrite H]. Qed.

Lemma mipmap_calls_keep (P : GLCall -> bool) i :
  (forall c, is_DeleteTexture c || is_GenTextures c = false -> P c = true) ->
  forallb P (bind_calls i) = true ->
  forallb P (mipmap_calls env i) = true.
Proof.
  intros HP Hb. unfold mipmap_calls, mipmap_uploads.
  destruct (mipmap_skip i); [reflexivity|].
  destruct (negb (has_compressed_source i) && negb (hasMipmapSupport env));
    [reflexivity|].
  destruct (negb (isCompressed i) && _); [reflexivity|].
  rewrite forallb_app, Hb. cbn [andb].
  destruct (supported_compressed_source env i) as [c|].
  - destruct (chain_too_short env c); [reflexivity|].
    rewrite forallb_app.
    rewrite (forallb_map_const P) by (intros a; now apply HP).
    destruct (GLEE_VERSION_1_2 (caps env) || GLEE_SGIS_texture_lod (caps env));
      cbn; rewrite ?HP; reflexivity.
  - destruct (data i) as [d|]; [|reflexivity].
    destruct (hasNpot env && _); cbn; rewrite !HP; reflexivity.
Qed.

Lemma sharpness_calls_keep (P : GLCall -> bool) w s i :
  (forall c, is_DeleteTexture c || is_GenTextures c = false -> P c = true) ->
  forallb P (bind_calls i) = true ->
  forallb P (sharpness_calls env w s i) = true.
Proof.
  intros HP Hb. unfold sharpness_calls.
  destruct (hasMipmapSharpnessSupport env); [|reflexivity].
  rewrite forallb_app, Hb. cbn. now rewrite HP.
Qed.

Lemma base_uploads_keep (P : GLCall -> bool) pot i :
  (forall c, is_DeleteTexture c || is_GenTextures c = false -> P c = true) ->
  forallb P (base_uploads pot i) = true.
Proof.
  intros HP. unfold base_uploads, compressed_upload.
  destruct (compressed_source i); [cbn; now rewrite HP|].
  destruct (data i); [|reflexivity].
  destruct pot; cbn; rewrite !HP; reflexivity.
Qed.

Lemma upload_calls_keep (P : GLCall -> bool) pot i1 w1 :
  (forall c, is_DeleteTexture c || is_GenTextures c = false -> P c = true) ->
  forallb P (bind_calls i1) = true ->
  forallb P (upload_calls env pot i1 w1) = true.
Proof.
  intros HP Hb. unfold upload_calls, tail_calls. cbv zeta.
  rewrite forallb_app, base_uploads_keep by assumption. cbn [andb].
  destruct (glError _); [reflexivity|].
  rewrite forallb_app, mipmap_calls_keep by assumption. cbn [andb].
  destruct (mipmap_error env _); [reflexivity|].
  apply sharpness_calls_keep; [assumption|].
  destruct (mipmap_creates env _); exact Hb.
Qed.

End Load_trace.

(** [load()] never deletes a texture, and it generates at most one.  Once past
    the format check it generates exactly one, whatever the object held: the
    new handle replaces the old one, which is not released. *)
Theorem load_never_deletes env i w :
  let r := Image.load env i w in
  exists cs,
    glCalls (Image.world r) = glCalls w ++ cs /\
    forallb (fun c => negb (is_DeleteTexture c)) cs = true /\
    (format_error env i = None ->
     Image.texture (Image.self r) = Zpos (nextTexture w) /\
     filter is_GenTextures cs = [GenTextures (Zpos (nextTexture w))]).
Proof.
  cbv zeta. exists (load_calls env i w). split; [apply load_trace|].
  assert (Hb : forall P : GLCall -> bool,
             P (BindTexture (Zpos (nextTexture w))) = true ->
             forall v, forallb P (bind_calls
                         (Image.set_vertices v (prepared env i w))) = true).
  { intros P HP v. unfold bind_calls. cbn. now rewrite HP. }
  assert (Hb' : forall P : GLCall -> bool,
             P (BindTexture (Zpos (nextTexture w))) = true ->
             forallb P (bind_calls (prepared env i w)) = true).
  { intros P HP. unfold bind_calls. cbn. now rewrite HP. }
  split.
  - unfold load_calls. destruct (format_error env i); [reflexivity|].
    rewrite !forallb_app.
    assert (HP : forall c, is_DeleteTexture c || is_GenTextures c = false ->
                           negb (is_DeleteTexture c) = true)
      by (intros c; destruct c; cbn; congruence).
    replace (forallb (fun c => negb (is_DeleteTexture c)) (prepare_calls i w))
      with true by reflexivity.
    replace (forallb (fun c => negb (is_DeleteTexture c))
               (if Image.hasMipmapSharpnessSupport env
                   && F32.eqb (maxMipmapSharpness w) F32.zero
                then [GetFloatv_MAX_TEXTURE_LOD_BIAS] else []))
      with true by (destruct (_ && _); reflexivity).
    cbn [andb].
    destruct (Image.hasNpot env);
      [|destruct (npot_compressed i); [reflexivity|]];
      apply upload_calls_keep; auto.
  - intros Hfe. split.
    + unfold Image.load. rewrite loadVolatile_eq, Hfe.
      destruct (Image.hasNpot env).
      * rewrite loadVolatileNPOT_eq.
        destruct (load_upload_kept env false (prepared env i (query_bias env w))
                    (prepared_world env i (query_bias env w)))
          as (_ & _ & _ & _ & -> & _).
        cbn. now rewrite nextTexture_query_bias.
      * rewrite loadVolatilePOT_eq. cbv zeta. destruct (npot_compressed i).
        -- cbn. now rewrite nextTexture_query_bias.
        -- destruct (load_upload_kept env true
                       (Image.set_vertices (pot_scaled i)
                          (prepared env i (query_bias env w)))
                       (prepared_world env i (query_bias env w)))
             as (_ & _ & _ & _ & -> & _).
           cbn. now rewrite nextTexture_query_bias.
    + unfold load_calls. rewrite Hfe.
      assert (HP : forall c, is_DeleteTexture c || is_GenTextures c = false ->
                             negb (is_GenTextures c) = true)
        by (intros c; destruct c; cbn; congruence).
      assert (Hnone : forall l, forallb (fun c => negb (is_GenTextures c)) l = true ->
                                filter is_GenTextures l = []).
      { induction l as [|c l IH]; [reflexivity|]. cbn.
        destruct (is_GenTextures c); cbn; [discriminate | exact IH]. }
      rewrite !filter_app.
      replace (filter is_GenTextures
                 (if Image.hasMipmapSharpnessSupport env
                     && F32.eqb (maxMipmapSharpness w) F32.zero
                  then [GetFloatv_MAX_TEXTURE_LOD_BIAS] else []))
        with (@nil GLCall) by (destruct (_ && _); reflexivity).
      cbn [app prepare_calls filter is_GenTextures].
      f_equal.
      destruct (Image.hasNpot env);
        [|destruct (npot_compressed i); [reflexivity|]];
        apply Hnone, upload_calls_keep; auto.
Qed.

Lemma load_never_deletes_witness :
  let i := Image.new_from_ImageData Samples.env_npot Samples.raw_100x50 Samples.world0 in
  let r1 := Image.load Samples.env_npot i Samples.world0 in
  let r2 := Image.load Samples.env_npot (Image.self r1) (Image.world r1) in
  Image.texture (Image.self r1) = 1 /\ Image.texture (Image.self r2) = 2.
Proof.
  intros i r1 r2.
  destruct (load_never_deletes Samples.env_npot i Samples.world0)
    as (cs1 & _ & _ & H1).
  destruct (load_never_deletes Samples.env_npot (Image.self r1) (Image.world r1))
    as (cs2 & _ & _ & H2).
  exact (conj (proj1 (H1 eq_refl)) (proj1 (H2 eq_refl))).
Defined.

(** An OpenGL error left pending by earlier commands never makes a load fail:
    the errors are cleared before the upload, so the outcome of [load()] and
    the object it leaves do not depend on the error flag it starts from. *)
Theorem load_ignores_stale_error env i w b :
  Image.how (Image.load env i (Image.set_glError b w)) = Image.how (Image.load env i w) /\
  Image.self (Image.load env i (Image.set_glError b w)) = Image.self (Image.load env i w).
Proof.
  unfold Image.load. rewrite !loadVolatile_eq.
  assert (Hw : prepared_world env i (query_bias env (Image.set_glError b w))
               = prepared_world env i (query_bias env w)).
  { destruct w as [mx dmf dms df nt ge gc].
    unfold prepared_world, query_bias, issue. cbn.
    destruct (Image.hasMipmapSharpnessSupport env && F32.eqb mx F32.zero);
      reflexivity. }
  assert (Hp : prepared env i (query_bias env (Image.set_glError b w))
               = prepared env i (query_bias env w)).
  { unfold prepared. now rewrite !nextTexture_query_bias. }
  destruct (format_error env i); [split; reflexivity|].
  destruct (Image.hasNpot env).
  - rewrite !loadVolatileNPOT_eq, Hw, Hp. split; reflexivity.
  - rewrite !loadVolatilePOT_eq, Hw, Hp. split; reflexivity.
Qed.

(** Once past the format check and the NPOT-compressed check, [load()] throws
    the size error exactly when the driver rejects one of the commands that
    upload the base image.  It does so before mipmaps and sharpness are
    touched: the new texture handle is held, [mipmapsCreated] and the
    sharpness are as before, and the error has been consumed. *)
Theorem load_size_error env i w :
  format_error env i = None ->
  (Image.hasNpot env = false -> npot_compressed i = false) ->
  let r := Image.load env i w in
  (Image.how r = Image.Thrown SizeMayBeTooLarge
   <-> existsb (rejects env) (base_uploads (negb (Image.hasNpot env)) i) = true) /\
  (Image.how r = Image.Thrown SizeMayBeTooLarge ->
   Image.texture (Image.self r) = Zpos (nextTexture w) /\
   Image.mipmapsCreated (Image.self r) = Image.mipmapsCreated i /\
   Image.mipmapSharpness (Image.self r) = Image.mipmapSharpness i /\
   glError (Image.world r) = false).
Proof.
  intros Hfe Hnp r. subst r. unfold Image.load. rewrite loadVolatile_eq, Hfe.
  assert (Hgen : forall pot i1,
            base_uploads pot i1 = base_uploads pot i ->
            Image.texture i1 = Zpos (nextTexture w) ->
            Image.mipmapsCreated i1 = Image.mipmapsCreated i ->
            Image.mipmapSharpness i1 = Image.mipmapSharpness i ->
            let r := load_upload env pot i1 (prepared_world env i (query_bias env w)) in
            (Image.how r = Image.Thrown SizeMayBeTooLarge
             <-> existsb (rejects env) (base_uploads pot i) = true) /\
            (Image.how r = Image.Thrown SizeMayBeTooLarge ->
             Image.texture (Image.self r) = Zpos (nextTexture w) /\
             Image.mipmapsCreated (Image.self r) = Image.mipmapsCreated i /\
             Image.mipmapSharpness (Image.self r) = Image.mipmapSharpness i /\
             glError (Image.world r) = false)).
  { intros pot i1 Hbu Ht Hmc Hms. cbv zeta.
    rewrite load_upload_how. unfold load_upload. cbv zeta.
    rewrite glError_issue, Hbu.
    change (glError (prepared_world env i (query_bias env w))) with false.
    cbn [orb].
    destruct (existsb (rejects env) (base_uploads pot i)).
    - split; [split; reflexivity|]. intros _. cbn. auto.
    - split.
      + split; [|discriminate].
        destruct (mipmap_error env _) as [e|] eqn:He; [|discriminate].
        intros [= ->]. apply mipmap_error_kind in He.
        destruct He as [|[|]]; discriminate.
      + destruct (mipmap_error env _) as [e|] eqn:He; [|discriminate].
        intros [= ->]. apply mipmap_error_kind in He.
        destruct He as [|[|]]; discriminate. }
  destruct (Image.hasNpot env); cbn [negb].
  - rewrite loadVolatileNPOT_eq. apply Hgen; try reflexivity.
    unfold prepared. cbn. now rewrite nextTexture_query_bias.
  - rewrite loadVolatilePOT_eq. cbv zeta. rewrite (Hnp eq_refl).
    apply Hgen; try reflexivity.
    unfold prepared. cbn. now rewrite nextTexture_query_bias.
Qed.

Lemma load_size_error_witness :
  let env := mkEnv Samples.caps_pot (F32.of_int 16) Filter.anisotropy
               (fun c => match c with TexImage2D _ _ _ => true | _ => false end)
               Samples.type_name (Wrap.mk WRAP_CLAMP WRAP_CLAMP) in
  let i := Image.new_from_ImageData env Samples.raw_100x50 Samples.world0 in
  Image.how (Image.load env i Samples.world0) = Image.Thrown SizeMayBeTooLarge /\
  Image.texture (Image.self (Image.load env i Samples.world0)) = 1.
Proof.
  intros env i.
  pose proof (load_size_error env i Samples.world0 eq_refl (fun _ => eq_refl))
    as [Hiff Hst].
  pose proof (proj2 Hiff eq_refl) as Hthrow.
  exact (conj Hthrow (proj1 (Hst Hthrow))).
Defined.

(** The cached bias limit changes in one way only: a load that gets past the
    format check, on a system with LOD bias support, replaces a cached value
    equal to zero by the driver's limit.  In every other case [load()] leaves
    it as it was. *)
Theorem load_caches_bias_limit env i w :
  maxMipmapSharpness (Image.world (Image.load env i w))
  = match format_error env i with
    | Some _ => maxMipmapSharpness w
    | None =>
        if Image.hasMipmapSharpnessSupport env
           && F32.eqb (maxMipmapSharpness w) F32.zero
        then GL_MAX_TEXTURE_LOD_BIAS env
        else maxMipmapSharpness w
    end.
Proof.
  unfold Image.load. rewrite loadVolatile_eq.
  destruct (format_error env i); [reflexivity|].
  assert (Hq : maxMipmapSharpness (prepared_world env i (query_bias env w))
               = if Image.hasMipmapSharpnessSupport env
                    && F32.eqb (maxMipmapSharpness w) F32.zero
                 then GL_MAX_TEXTURE_LOD_BIAS env
                 else maxMipmapSharpness w).
  { unfold prepared_world.
    change (maxMipmapSharpness (Image.set_glError false ?x))
      with (maxMipmapSharpness x).
    match goal with
    | |- maxMipmapSharpness (issue env ?cs ?x) = _ =>
        destruct (statics_issue env cs x) as (-> & _)
    end.
    unfold query_bias.
    destruct (Image.hasMipmapSharpnessSupport env
              && F32.eqb (maxMipmapSharpness w) F32.zero); reflexivity. }
  destruct (Image.hasNpot env).
  - rewrite loadVolatileNPOT_eq.
    destruct (load_upload_world env false (prepared env i (query_bias env w))
                (prepared_world env i (query_bias env w))) as (_ & -> & _).
    exact Hq.
  - rewrite loadVolatilePOT_eq. cbv zeta. destruct (npot_compressed i).
    + exact Hq.
    + destruct (load_upload_world env true
                  (Image.set_vertices (pot_scaled i) (prepared env i (query_bias env w)))
                  (prepared_world env i (query_bias env w))) as (_ & -> & _).
      exact Hq.
Qed.

(** After a load that returns, mipmaps exist exactly when the filter asks for
    them: for an image in any state reached from its construction,
    [mipmapsCreated] equals "the mipmap mode is nearest or linear", whatever it
    was before; and the value returned is [true]. *)
Theorem load_mipmaps_follow_filter env i0 w0 i w b :
  constructed env i0 w0 ->
  Reached env i0 w0 i w ->
  Image.how (Image.load env i w) = Image.Returned b ->
  b = true /\
  Image.mipmapsCreated (Image.self (Image.load env i w))
    = Image.wants_mipmaps (Image.filter i).
Proof.
  intros Hc Hr. pose proof (Reached_immutable env _ _ _ _ Hr) as (Hd & Hcd & _ & _ & Hic).
  unfold Image.load. rewrite loadVolatile_eq.
  destruct (format_error env i) as [e|] eqn:Hfe; [discriminate|].
  assert (Hsrc : forall i1,
            immutable i i1 ->
            match Image.supported_compressed_source env i1, Image.data i1 with
            | None, None => false
            | _, _ => true
            end = true).
  { intros i1 (Hd1 & Hcd1 & _ & _ & Hic1).
    unfold Image.supported_compressed_source, Image.compressed_source.
    rewrite Hd1, Hcd1, Hic1.
    unfold format_error, Image.compressed_source in Hfe.
    destruct Hc as [[d ->] | [c ->]].
    - rewrite Hd. cbn. destruct (if Image.isCompressed i then _ else _) as [c|];
        [destruct (Image.hasCompressedTextureSupport env (cd_type c))|]; reflexivity.
    - rewrite Hic, Hcd in *. cbn in *.
      destruct (Image.hasCompressedTextureSupport env (cd_type c));
        [reflexivity | discriminate]. }
  assert (Hgen : forall pot i1 w1,
            immutable i i1 ->
            Image.wants_mipmaps (Image.filter i1) = Image.wants_mipmaps (Image.filter i) ->
            glError w1 = false ->
            Image.how (load_upload env pot i1 w1) = Image.Returned b ->
            b = true /\
            Image.mipmapsCreated (Image.self (load_upload env pot i1 w1))
              = Image.wants_mipmaps (Image.filter i)).
  { intros pot i1 w1 Him Hwf Hg Hret.
    destruct (load_upload_returned env pot i1 w1 b Hg Hret) as (He & Hme & Hself).
    split.
    - rewrite load_upload_how, glError_issue, Hg, He, Hme in Hret. cbn in Hret.
      congruence.
    - rewrite Hself.
      assert (Hcr : mipmap_creates env (Image.set_mipmapsCreated false i1)
                    = Image.wants_mipmaps (Image.filter i)).
      { unfold mipmap_creates. rewrite Hme. unfold mipmap_skip.
        change (Image.wants_mipmaps
                  (Image.filter (Image.set_mipmapsCreated false i1)))
          with (Image.wants_mipmaps (Image.filter i1)).
        rewrite Hwf. cbn [Image.mipmapsCreated Image.set_mipmapsCreated orb].
        rewrite negb_involutive.
        rewrite (Hsrc (Image.set_mipmapsCreated false i1)).
        - apply andb_true_r.
        - destruct Him as (? & ? & ? & ? & ?). repeat split; assumption. }
      rewrite Hcr. destruct (Image.wants_mipmaps (Image.filter i)); reflexivity. }
  destruct (Image.hasNpot env).
  - rewrite loadVolatileNPOT_eq. apply Hgen; try reflexivity. repeat split.
  - rewrite loadVolatilePOT_eq. cbv zeta.
    destruct (npot_compressed i); [discriminate|].
    apply Hgen; try reflexivity. repeat split.
Qed.

Lemma load_mipmaps_follow_filter_witness :
  let env := Samples.env_npot in
  let i0 := Image.new_from_CompressedData env Samples.dxt1_64x64_short Samples.world0 in
  let p := perform env
             (SetFilter (Filter.mk FILTER_LINEAR FILTER_LINEAR FILTER_NEAREST F32.one))
             i0 Samples.world0 in
  Image.mipmapsCreated (Image.self (Image.load env (Image.self p) (Image.world p)))
    = true.
Proof.
  intros env i0 p.
  assert (Hc : constructed env i0 Samples.world0)
    by (right; exists Samples.dxt1_64x64_short; reflexivity).
  assert (Hr : Reached env i0 Samples.world0 (Image.self p) (Image.world p))
    by (apply Reached_call; apply Reached_start).
  exact (proj2 (load_mipmaps_follow_filter env i0 Samples.world0 _ _ true Hc Hr eq_refl)).
Defined.

(** A load that returns re-applies the sharpness against the bias limit as it
    is cached after that load: the stored sharpness is the previous one clamped
    by [-limit + 0.01f] and [limit - 0.01f], and exactly zero on a system
    without LOD bias support, whatever the sharpness was. *)
Theorem load_reclamps_sharpness env i w b :
  Image.how (Image.load env i w) = Image.Returned b ->
  let limit := maxMipmapSharpness (Image.world (Image.load env i w)) in
  Image.getMipmapSharpness (Image.self (Image.load env i w))
  = if Image.hasMipmapSharpnessSupport env
    then F32.min (F32.max (Image.mipmapSharpness i)
                    (F32.add (F32.opp limit) F32.hundredth))
                 (F32.sub limit F32.hundredth)
    else F32.zero.
Proof.
  intros Hret limit. subst limit.
  destruct (load_returned env i w b Hret)
    as (_ & _ & _ & _ & _ & _ & (wA & HwA & Hms) & _ & _ & Hmax).
  unfold Image.getMipmapSharpness. rewrite Hms, Hmax, <- HwA. reflexivity.
Qed.

Lemma load_reclamps_sharpness_witness :
  let w := Image.set_defaultMipmapSharpness (F32.of_int 100) Samples.world0 in
  let i := Image.new_from_ImageData Samples.env_npot Samples.raw_100x50 w in
  Image.getMipmapSharpness i = F32.of_int 100 /\
  Image.getMipmapSharpness (Image.self (Image.load Samples.env_npot i w))
    = F32.sub (F32.of_int 16) F32.hundredth.
Proof.
  intros w i. split; [reflexivity|].
  exact (load_reclamps_sharpness Samples.env_npot i w true eq_refl).
Defined.

(** Creating mipmaps for raw pixels: with mipmap support and a width and a
    height that are powers of two, [checkMipmapsCreated] returns with
    [mipmapsCreated] set; after the bind it re-uploads the whole image and calls
    [glGenerateMipmap] where non-power-of-two textures and OpenGL 3.0 or
    framebuffer objects are available, and otherwise switches
    [GL_GENERATE_MIPMAP] on and re-sends the pixels as a sub-image. *)
Theorem checkMipmapsCreated_raw env i w d :
  Image.data i = Some d ->
  Image.isCompressed i = false ->
  Image.mipmapsCreated i = false ->
  Image.wants_mipmaps (Image.filter i) = true ->
  Image.hasMipmapSupport env = true ->
  is_pow2 (F32.to_int (Image.width i)) ->
  is_pow2 (F32.to_int (Image.height i)) ->
  let r := Image.checkMipmapsCreated env i w in
  let W := F32.to_int (Image.width i) in
  let H := F32.to_int (Image.height i) in
  Image.how r = Image.Returned tt /\
  Image.self r = Image.set_mipmapsCreated true i /\
  glCalls (Image.world r)
    = glCalls w ++ bind_calls i
      ++ (if Image.hasNpot env
             && (GLEE_VERSION_3_0 (caps env) || GLEE_ARB_framebuffer_object (caps env))
          then [TexImage2D W H (Some (id_data d)); Enable_TEXTURE_2D; GenerateMipmap]
          else [TexParameteri_GENERATE_MIPMAP; TexSubImage2D W H (id_data d)]).
Proof.
  intros Hd Hic Hmc Hw Hs HW HH. cbv zeta.
  rewrite checkMipmapsCreated_eq. cbn [Image.how Image.self Image.world].
  assert (Hpw : Image.not_power_of_two (F32.to_int (Image.width i)) = false)
    by (apply not_true_is_false; rewrite not_power_of_two_spec; tauto).
  assert (Hph : Image.not_power_of_two (F32.to_int (Image.height i)) = false)
    by (apply not_true_is_false; rewrite not_power_of_two_spec; tauto).
  assert (Hcs : Image.compressed_source i = None)
    by (unfold Image.compressed_source; now rewrite Hic).
  assert (Hme : mipmap_error env i = None).
  { unfold mipmap_error, mipmap_skip, creation_error,
      Image.has_compressed_source, Image.supported_compressed_source.
    now rewrite Hmc, Hw, Hs, Hic, Hpw, Hph, Hcs. }
  rewrite glCalls_issue.
  unfold mipmap_creates, mipmap_calls, mipmap_uploads. rewrite Hme.
  unfold mipmap_skip, Image.has_compressed_source,
    Image.supported_compressed_source.
  rewrite Hmc, Hw, Hs, Hic, Hpw, Hph, Hcs, Hd. cbn [negb andb orb].
  repeat split.
Qed.

Lemma checkMipmapsCreated_raw_witness :
  let d := mkImageData 64 32 [] in
  let i0 := Image.new_from_ImageData Samples.env_pot d Samples.world0 in
  let i := Image.set_filter (Filter.with_mipmap FILTER_LINEAR (Image.filter i0)) i0 in
  glCalls (Image.world (Image.checkMipmapsCreated Samples.env_pot i Samples.world0))
  = [TexParameteri_GENERATE_MIPMAP; TexSubImage2D 64 32 []].
Proof.
  intros d i0 i.
  assert (HW : is_pow2 (F32.to_int (Image.width i))) by (exists 6; split; [lia | reflexivity]).
  assert (HH : is_pow2 (F32.to_int (Image.height i))) by (exists 5; split; [lia | reflexivity]).
  exact (proj2 (proj2 (checkMipmapsCreated_raw Samples.env_pot i Samples.world0 d
                         eq_refl eq_refl eq_refl eq_refl eq_refl HW HH))).
Defined.

Lemma power_of_two_spec n : Image.not_power_of_two n = false <-> is_pow2 n.
Proof.
  rewrite <- not_true_iff_false, not_power_of_two_spec, <- next_p2_fixpoint.
  destruct (Z.eq_dec n (next_p2 n)); tauto.
Qed.

(** For raw pixels without mipmaps yet, [setFilter] with a mipmap mode returns
    exactly when the system supports mipmaps and the width and the height are
    both powers of two; in every other case it throws. *)
Theorem setFilter_mipmaps_on_raw env f i w d :
  Image.data i = Some d ->
  Image.isCompressed i = false ->
  Image.mipmapsCreated i = false ->
  Image.wants_mipmaps f = true ->
  (Image.how (Image.setFilter env f i w) = Image.Returned tt
   <-> Image.hasMipmapSupport env = true
       /\ is_pow2 (F32.to_int (Image.width i))
       /\ is_pow2 (F32.to_int (Image.height i))).
Proof.
  intros Hd Hic Hmc Hw. rewrite setFilter_eq. cbv zeta. cbn [Image.how].
  unfold mipmap_error, mipmap_skip.
  cbn [Image.mipmapsCreated Image.set_filter Image.filter].
  change (Image.wants_mipmaps (Filter.with_anisotropy (grantedAnisotropy env f) f))
    with (Image.wants_mipmaps f).
  rewrite Hmc, Hw. cbn [orb negb].
  unfold creation_error, Image.has_compressed_source,
    Image.supported_compressed_source, Image.compressed_source.
  cbn [Image.isCompressed Image.cdata Image.width Image.height Image.set_filter].
  rewrite Hic. cbn [negb andb].
  pose proof (power_of_two_spec (F32.to_int (Image.width i))) as HW.
  pose proof (power_of_two_spec (F32.to_int (Image.height i))) as HH.
  destruct (Image.hasMipmapSupport env); cbn [negb].
  - destruct (Image.not_power_of_two (F32.to_int (Image.width i)));
      destruct (Image.not_power_of_two (F32.to_int (Image.height i)));
      cbn [orb]; (split; [intros E | intros (_ & PW & PH)]).
    all: try discriminate E.
    all: try (apply HW in PW; discriminate PW).
    all: try (apply HH in PH; discriminate PH).
    + repeat split; [apply HW | apply HH]; reflexivity.
    + reflexivity.
  - split; [discriminate | intros (? & _); discriminate].
Qed.

Lemma setFilter_mipmaps_on_raw_witness :
  let i := Image.new_from_ImageData Samples.env_pot (mkImageData 64 32 []) Samples.world0 in
  let f := Filter.mk FILTER_LINEAR FILTER_LINEAR FILTER_LINEAR F32.one in
  Image.how (Image.setFilter Samples.env_pot f i Samples.world0) = Image.Returned tt.
Proof.
  intros i f.
  apply (proj2 (setFilter_mipmaps_on_raw Samples.env_pot f i Samples.world0
                  (mkImageData 64 32 []) eq_refl eq_refl eq_refl eq_refl)).
  repeat split.
  - exists 6. split; [lia | reflexivity].
  - exists 5. split; [lia | reflexivity].
Defined.

(* ===================================================================== *)
(** * Further properties: quads, padding and round trips *)
(* ===================================================================== *)

(** The quad of the whole image: for an image of [W]×[H] pixels, with
    [0 < W, H <= 2^24], [getRectangleVertices(0, 0, W, H)] spans the texture
    coordinates (0,0) to (1,1) exactly and the positions (0,0) to
    (width, height): the quad the constructor itself writes. *)
Theorem getRectangleVertices_whole_image i W H :
  Image.width i = F32.of_int W ->
  Image.height i = F32.of_int H ->
  0 < W <= 2 ^ 24 ->
  0 < H <= 2 ^ 24 ->
  let q := Image.getRectangleVertices i 0 0 W H in
  texcoords q
    = [(F32.zero, F32.zero); (F32.zero, F32.one);
       (F32.one, F32.one); (F32.one, F32.zero)] /\
  positions q
    = [(F32.zero, F32.zero); (F32.zero, Image.height i);
       (Image.width i, Image.height i); (Image.width i, F32.zero)].
Proof.
  intros Hw Hh HW HH. cbv zeta.
  unfold Image.getRectangleVertices. cbv zeta.
  rewrite Hw, Hh, !to_int_of_int by lia.
  unfold Int.add, Int.sub.
  rewrite !wrap_in_range
    by (unfold Int.in_range, Int.min_int, Int.max_int;
        change (2 ^ 24) with 16777216 in *; lia).
  rewrite !Z.add_0_l, !Z.gtb_ltb, !Z.ltb_irrefl.
  cbn [Z.ltb Z.compare].
  change (F32.div (F32.of_int 0) (F32.of_int W)) with (fraction 0 W).
  change (F32.div (F32.of_int 0) (F32.of_int H)) with (fraction 0 H).
  change (F32.div (F32.of_int W) (F32.of_int W)) with (fraction W W).
  change (F32.div (F32.of_int H) (F32.of_int H)) with (fraction H H).
  rewrite !fraction_none, !fraction_whole by assumption.
  split; reflexivity.
Qed.

Lemma getRectangleVertices_whole_image_witness :
  let i := Image.new_from_ImageData Samples.env_npot Samples.raw_100x50 Samples.world0 in
  texcoords (Image.getRectangleVertices i 0 0 100 50) = texcoords (Image.getVertices i) /\
  positions (Image.getRectangleVertices i 0 0 100 50) = positions (Image.getVertices i).
Proof.
  intros i.
  assert (HW : 0 < 100 <= 2 ^ 24) by (vm_compute; split; [reflexivity | discriminate]).
  assert (HH : 0 < 50 <= 2 ^ 24) by (vm_compute; split; [reflexivity | discriminate]).
  exact (getRectangleVertices_whole_image i 100 50 eq_refl eq_refl HW HH).
Defined.

Lemma to_int_next_p2f W :
  0 <= W <= 2 ^ 24 -> F32.to_int (next_p2f (F32.of_int W)) = next_p2 W.
Proof.
  intros HW. unfold next_p2f. rewrite (to_int_of_int W) by assumption.
  destruct (next_p2_upto_24 W) as (k & Hk & HP); [lia|].
  apply to_int_of_int. rewrite HP. split.
  - apply Z.pow_nonneg. lia.
  - apply Z.pow_le_mono_r; lia.
Qed.

(** Where non-power-of-two textures are missing, raw pixels of [W]×[H]
    ([0 <= W, H <= 2^24]) are loaded into an empty texture of
    [next_p2 W]×[next_p2 H], the smallest powers of two that hold them, and
    then written into its corner as a [W]×[H] sub-image.  These two commands
    follow the generation of the texture and its sampler state directly. *)
Theorem load_pads_to_power_of_two env i w d W H :
  Image.hasNpot env = false ->
  Image.data i = Some d ->
  Image.isCompressed i = false ->
  Image.width i = F32.of_int W ->
  Image.height i = F32.of_int H ->
  0 <= W <= 2 ^ 24 ->
  0 <= H <= 2 ^ 24 ->
  next_pow2_of W (next_p2 W) /\ next_pow2_of H (next_p2 H) /\
  exists pre post,
    glCalls (Image.world (Image.load env i w))
    = glCalls w ++ pre
      ++ [GenTextures (Zpos (nextTexture w)); BindTexture (Zpos (nextTexture w));
          SetTextureFilter (Image.filter i); SetTextureWrap (Image.wrap i);
          TexImage2D (next_p2 W) (next_p2 H) None;
          TexSubImage2D W H (id_data d)]
      ++ post /\
    forallb (fun c => match c with GetFloatv_MAX_TEXTURE_LOD_BIAS => true | _ => false end)
            pre = true.
Proof.
  intros Hnp Hd Hic Hw Hh HW HH.
  split; [apply next_p2_spec|]. split; [apply next_p2_spec|].
  rewrite load_trace. unfold load_calls.
  assert (Hcs : Image.compressed_source i = None)
    by (unfold Image.compressed_source; now rewrite Hic).
  unfold format_error, npot_compressed, Image.has_compressed_source.
  rewrite Hcs, Hnp. cbn [andb].
  unfold upload_calls.
  assert (Hbu : base_uploads true
                  (Image.set_vertices (pot_scaled i) (prepared env i w))
                = [TexImage2D (next_p2 W) (next_p2 H) None;
                   TexSubImage2D W H (id_data d)]).
  { unfold base_uploads, Image.compressed_source. cbn. rewrite Hic, Hd, Hw, Hh.
    now rewrite !to_int_next_p2f, !to_int_of_int by assumption. }
  rewrite Hbu.
  eexists. eexists. split.
  - unfold prepare_calls. cbn [app]. reflexivity.
  - destruct (_ && _); reflexivity.
Qed.

Lemma load_pads_to_power_of_two_witness :
  let i := Image.new_from_ImageData Samples.env_pot Samples.raw_100x50 Samples.world0 in
  exists pre post,
    glCalls (Image.world (Image.load Samples.env_pot i Samples.world0))
    = pre ++ [GenTextures 1; BindTexture 1;
              SetTextureFilter (Image.filter i); SetTextureWrap (Image.wrap i);
              TexImage2D 128 64 None; TexSubImage2D 100 50 []]
      ++ post.
Proof.
  intros i.
  assert (HW : 0 <= 100 <= 2 ^ 24) by (vm_compute; split; discriminate).
  assert (HH : 0 <= 50 <= 2 ^ 24) by (vm_compute; split; discriminate).
  destruct (load_pads_to_power_of_two Samples.env_pot i Samples.world0
              Samples.raw_100x50 100 50 eq_refl eq_refl eq_refl eq_refl eq_refl HW HH)
    as (_ & _ & pre & post & Hc & _).
  exists pre, post. exact Hc.
Defined.

(** [load()] never returns [false].  It returns [true] exactly when the format
    check passes, a compressed image is not refused for its size on a system
    without non-power-of-two textures, the driver accepts the commands that
    upload the base image, and the mipmaps the filter asks for can be
    created. *)
Theorem load_returns_iff env i w :
  Image.how (Image.load env i w) <> Image.Returned false /\
  (Image.how (Image.load env i w) = Image.Returned true
   <-> format_error env i = None
       /\ (Image.hasNpot env = false -> npot_compressed i = false)
       /\ existsb (rejects env) (base_uploads (negb (Image.hasNpot env)) i) = false
       /\ (Image.wants_mipmaps (Image.filter i) = true -> creation_error env i = None)).
Proof.
  split.
  - unfold Image.load. rewrite loadVolatile_eq.
    destruct (format_error env i); [discriminate|].
    destruct (Image.hasNpot env).
    + rewrite loadVolatileNPOT_eq, load_upload_how.
      destruct (glError _); [discriminate|].
      destruct (mipmap_error env _); discriminate.
    + rewrite loadVolatilePOT_eq. cbv zeta.
      destruct (npot_compressed i); [discriminate|].
      rewrite load_upload_how.
      destruct (glError _); [discriminate|].
      destruct (mipmap_error env _); discriminate.
  - split.
    + intros Hret.
      destruct (load_returned env i w true Hret)
        as (H1 & H2 & H3 & _ & _ & _ & _ & _ & H4 & _).
      auto.
    + intros (H1 & H2 & H3 & H4). now apply load_returns.
Qed.

Lemma load_returns_iff_witness :
  let i := Image.new_from_ImageData Samples.env_pot Samples.raw_100x50 Samples.world0 in
  Image.how (Image.load Samples.env_pot i Samples.world0) = Image.Returned true.
Proof.
  intros i.
  apply (proj2 (proj2 (load_returns_iff Samples.env_pot i Samples.world0))).
  repeat split; discriminate.
Defined.

(** Setting the sharpness that [getMipmapSharpness] reports stores that same
    value again: the clamp of [setMipmapSharpness] is idempotent, for every
    [float], NaN included, and with or without LOD bias support. *)
Theorem setMipmapSharpness_of_stored_value env s i w :
  let r := Image.setMipmapSharpness env s i w in
  let r' := Image.setMipmapSharpness env (Image.getMipmapSharpness (Image.self r))
              (Image.self r) (Image.world r) in
  Image.how r' = Image.Returned tt /\
  Image.getMipmapSharpness (Image.self r') = Image.getMipmapSharpness (Image.self r).
Proof.
  cbv zeta. rewrite (setMipmapSharpness_eq env s i w).
  cbn [Image.self Image.world Image.how].
  rewrite setMipmapSharpness_eq. cbn [Image.self Image.world Image.how].
  split; [reflexivity|].
  unfold Image.getMipmapSharpness.
  cbn [Image.mipmapSharpness Image.set_mipmapSharpness].
  rewrite (stored_sharpness_same_max env w).
  - apply stored_sharpness_idem.
  - match goal with
    | |- maxMipmapSharpness (issue env ?cs ?x) = _ =>
        destruct (statics_issue env cs x) as (-> & _)
    end.
    reflexivity.
Qed.

(** The wrap set by [setWrap] survives a reload: a later [load()] that gets
    past its format check sends that wrap for the texture it generates, and the
    image still reports it, whether the load returns or throws. *)
Theorem setWrap_survives_load env wr i w :
  let r1 := Image.setWrap env wr i w in
  let r2 := Image.load env (Image.self r1) (Image.world r1) in
  Image.how r1 = Image.Returned tt /\
  Image.getWrap (Image.self r2) = wr /\
  (format_error env i = None ->
   exists pre post,
     glCalls (Image.world r2)
     = glCalls (Image.world r1) ++ pre
       ++ [GenTextures (Zpos (nextTexture w)); BindTexture (Zpos (nextTexture w));
           SetTextureFilter (Image.filter i); SetTextureWrap wr]
       ++ post).
Proof.
  cbv zeta. rewrite setWrap_eq. cbn [Image.how Image.self Image.world].
  split; [reflexivity|]. split.
  - unfold Image.getWrap, Image.load. rewrite loadVolatile_eq.
    destruct (format_error env _); [reflexivity|].
    destruct (Image.hasNpot env).
    + rewrite loadVolatileNPOT_eq.
      destruct (load_upload_kept env false
                  (prepared env (Image.set_wrap wr i)
                     (query_bias env (issue env (bind_calls i ++ [SetTextureWrap wr]) w)))
                  (prepared_world env (Image.set_wrap wr i)
                     (query_bias env (issue env (bind_calls i ++ [SetTextureWrap wr]) w))))
        as (_ & _ & _ & _ & _ & _ & _ & -> & _).
      reflexivity.
    + rewrite loadVolatilePOT_eq. cbv zeta.
      destruct (npot_compressed _); [reflexivity|].
      match goal with
      | |- Image.wrap (Image.self (load_upload env ?p ?a ?b)) = _ =>
          destruct (load_upload_kept env p a b) as (_ & _ & _ & _ & _ & _ & _ & -> & _)
      end.
      reflexivity.
  - intros Hfe. rewrite load_trace. unfold load_calls.
    change (format_error env (Image.set_wrap wr i)) with (format_error env i).
    rewrite Hfe. unfold prepare_calls.
    destruct (statics_issue env (bind_calls i ++ [SetTextureWrap wr]) w)
      as (_ & _ & _ & _ & ->).
    eexists. eexists. cbn [app Image.filter Image.wrap Image.set_wrap]. reflexivity.
Qed.

Lemma setWrap_survives_load_witness :
  let i := Image.new_from_ImageData Samples.env_npot Samples.raw_100x50 Samples.world0 in
  let wr := Wrap.mk WRAP_REPEAT WRAP_REPEAT in
  let r1 := Image.setWrap Samples.env_npot wr i Samples.world0 in
  let r2 := Image.load Samples.env_npot (Image.self r1) (Image.world r1) in
  exists pre post,
    glCalls (Image.world r2)
    = glCalls (Image.world r1) ++ pre
      ++ [GenTextures 1; BindTexture 1; SetTextureFilter (Image.filter i);
          SetTextureWrap wr]
      ++ post.
Proof.
  intros i wr r1 r2.
  exact (proj2 (proj2 (setWrap_survives_load Samples.env_npot wr i Samples.world0))
           eq_refl).
Defined.

(** A power of two that a [float] holds is its own padded size: the scale
    computed by [loadVolatilePOT] is exactly 1.0f. *)
Lemma pot_scale_pow2 W :
  is_pow2 W -> W <= 2 ^ 24 ->
  F32.div (F32.of_int W) (next_p2f (F32.of_int W)) = F32.one.
Proof.
  intros HP HW.
  assert (H0 : 0 < W).
  { destruct HP as (k & Hk & ->). apply Z.pow_pos_nonneg; lia. }
  unfold next_p2f. rewrite to_int_of_int by lia.
  rewrite <- (proj2 (next_p2_fixpoint W) HP).
  destruct (of_int_shape W) as (m & e & -> & Hm & _); [lia|].
  now apply div_self.
Qed.

(** A compressed image whose width and height are powers of two is not refused
    where non-power-of-two textures are missing: [load()] never throws the
    NPOT-plus-compression error for it, its base level is uploaded at its own
    size, and the corner texture coordinates written by the load span exactly
    to 1.0f. *)
Theorem load_compressed_power_of_two env i w c :
  Image.compressed_source i = Some c ->
  Image.width i = F32.of_int (cd_getWidth c 0) ->
  Image.height i = F32.of_int (cd_getHeight c 0) ->
  is_pow2 (cd_getWidth c 0) -> cd_getWidth c 0 <= 2 ^ 24 ->
  is_pow2 (cd_getHeight c 0) -> cd_getHeight c 0 <= 2 ^ 24 ->
  Image.hasNpot env = false ->
  Image.hasCompressedTextureSupport env (cd_type c) = true ->
  let r := Image.load env i w in
  let q := Image.vertices (Image.self r) in
  Image.how r <> Image.Thrown NPOTCompressedNotSupported /\
  In (CompressedTexImage2D 0 (Image.getCompressedFormat (cd_type c))
        (cd_getWidth c 0) (cd_getHeight c 0) (cd_getSize c 0) (cd_getData c 0))
     (glCalls (Image.world r)) /\
  vertex.t_ (v1 q) = F32.one /\ vertex.s (v2 q) = F32.one /\
  vertex.t_ (v2 q) = F32.one /\ vertex.s (v3 q) = F32.one.
Proof.
  intros Hsrc Hw Hh HPW HW HPH HH Hnp Hsup. cbv zeta.
  assert (Hs : pot_s i = F32.one)
    by (unfold pot_s; rewrite Hw; now apply pot_scale_pow2).
  assert (Ht : pot_t i = F32.one)
    by (unfold pot_t; rewrite Hh; now apply pot_scale_pow2).
  assert (Hc : npot_compressed i = false).
  { unfold npot_compressed. rewrite Hs, Ht. apply andb_false_r. }
  unfold Image.load. rewrite loadVolatile_eq.
  unfold format_error. rewrite Hsrc, Hsup, Hnp.
  rewrite loadVolatilePOT_eq. cbv zeta. rewrite Hc.
  set (i1 := Image.set_vertices (pot_scaled i) (prepared env i (query_bias env w))).
  set (w1 := prepared_world env i (query_bias env w)).
  split; [|split].
  - rewrite load_upload_how. destruct (glError _); [discriminate|].
    destruct (mipmap_error env _) as [e|] eqn:He; [|discriminate].
    intros [= ->]. apply mipmap_error_kind in He.
    destruct He as [|[|]]; discriminate.
  - destruct (load_upload_world env true i1 w1) as ((cs & ->) & _).
    assert (Hup : base_uploads true i1 = [compressed_upload c 0]).
    { unfold base_uploads.
      change (Image.compressed_source i1) with (Image.compressed_source i).
      now rewrite Hsrc. }
    rewrite Hup. apply in_or_app. right. now left.
  - destruct (load_upload_kept env true i1 w1) as (_ & _ & _ & _ & _ & _ & _ & _ & ->).
    subst i1. cbn [Image.vertices Image.set_vertices].
    unfold pot_scaled. rewrite Hs, Ht. repeat split.
Qed.

Lemma load_compressed_power_of_two_witness :
  let i := Image.new_from_CompressedData Samples.env_pot
             Samples.dxt1_64x64_short Samples.world0 in
  let r := Image.load Samples.env_pot i Samples.world0 in
  Image.how r <> Image.Thrown NPOTCompressedNotSupported /\
  vertex.s (v2 (Image.vertices (Image.self r))) = F32.one.
Proof.
  intros i r.
  assert (HP : is_pow2 64) by (exists 6; split; [lia | reflexivity]).
  assert (HL : 64 <= 2 ^ 24) by (vm_compute; discriminate).
  pose proof (load_compressed_power_of_two Samples.env_pot i Samples.world0
                Samples.dxt1_64x64_short eq_refl eq_refl eq_refl HP HL HP HL
                eq_refl eq_refl) as (H1 & _ & _ & H2 & _).
  exact (conj H1 H2).
Defined.

(** The mipmap error of an object, by the kind of its source. *)
Lemma mipmap_error_by_source env j e :
  mipmap_error env j = Some e ->
  (Image.isCompressed j = false ->
   e = MipmapFilteringNotSupported \/ e = MipmapsNeedPowerOfTwo) /\
  (Image.has_compressed_source j = true -> e = CompressedLevelsMissing).
Proof.
  unfold mipmap_error. destruct (mipmap_skip j); [discriminate|].
  unfold creation_error, Image.supported_compressed_source,
    Image.has_compressed_source, Image.compressed_source.
  destruct (Image.isCompressed j); cbn [negb andb].
  - destruct (Image.cdata j) as [c|]; cbn [negb andb].
    + destruct (Image.hasCompressedTextureSupport env (cd_type c));
        [destruct (chain_too_short env c)|]; try discriminate.
      intros [= <-]. split; [discriminate | reflexivity].
    + destruct (negb (Image.hasMipmapSupport env)); [|discriminate].
      intros [= <-]. split; discriminate.
  - destruct (negb (Image.hasMipmapSupport env)).
    + intros [= <-]. split; [auto | discriminate].
    + destruct (_ || _); [|discriminate].
      intros [= <-]. split; [auto | discriminate].
Qed.

(** The errors of [load()] by the kind of source.  An image made from raw
    pixels fails to load with the size error or one of the two mipmap errors
    for raw pixels only, never with a format error.  An image made from
    compressed data fails with a format error, with the NPOT-plus-compression
    error (on a system without non-power-of-two textures only), with the size
    error or with the missing-levels error, and so never with one of the two
    mipmap errors for raw pixels. *)
Theorem load_errors_by_source env i0 w0 i w e :
  Reached env i0 w0 i w ->
  Image.how (Image.load env i w) = Image.Thrown e ->
  ((exists d, i0 = Image.new_from_ImageData env d w0) ->
   e = SizeMayBeTooLarge \/ e = MipmapFilteringNotSupported
   \/ e = MipmapsNeedPowerOfTwo) /\
  ((exists c, i0 = Image.new_from_CompressedData env c w0) ->
   e = FormatNotSupported \/ (exists name, e = CompressedFormatNotSupported name)
   \/ (e = NPOTCompressedNotSupported /\ Image.hasNpot env = false)
   \/ e = SizeMayBeTooLarge \/ e = CompressedLevelsMissing).
Proof.
  intros Hr. pose proof (Reached_immutable env _ _ _ _ Hr) as (Hd & Hcd & _ & _ & Hic).
  unfold Image.load. rewrite loadVolatile_eq.
  assert (Hup : forall pot i1 w1,
            Image.how (load_upload env pot i1 w1) = Image.Thrown e ->
            Image.isCompressed i1 = Image.isCompressed i ->
            Image.cdata i1 = Image.cdata i ->
            e = SizeMayBeTooLarge \/
            (Image.isCompressed i = false ->
             e = MipmapFilteringNotSupported \/ e = MipmapsNeedPowerOfTwo) /\
            (Image.has_compressed_source i = true -> e = CompressedLevelsMissing)).
  { intros pot i1 w1 Ht H1 H2. rewrite load_upload_how in Ht.
    destruct (glError _); [injection Ht as <-; auto|].
    destruct (mipmap_error env _) as [e'|] eqn:Hme; [|discriminate].
    injection Ht as ->. right.
    destruct (mipmap_error_by_source env _ _ Hme) as [Ha Hb].
    unfold Image.has_compressed_source, Image.compressed_source in *.
    cbn [Image.isCompressed Image.cdata Image.set_mipmapsCreated] in Ha, Hb.
    rewrite H1 in Ha. rewrite H1, H2 in Hb. split; assumption. }
  intros Hthrow. split.
  - intros [d ->]. cbn in Hic, Hcd.
    assert (Hcs : Image.compressed_source i = None)
      by (unfold Image.compressed_source; now rewrite Hic).
    unfold format_error in Hthrow. rewrite Hcs in Hthrow.
    destruct (Image.hasNpot env).
    + rewrite loadVolatileNPOT_eq in Hthrow.
      destruct (Hup _ _ _ Hthrow eq_refl eq_refl) as [-> | [Ha _]]; [auto|].
      destruct (Ha Hic); auto.
    + rewrite loadVolatilePOT_eq in Hthrow. cbv zeta in Hthrow.
      unfold npot_compressed, Image.has_compressed_source in Hthrow.
      rewrite Hcs in Hthrow. cbn [andb] in Hthrow.
      destruct (Hup _ _ _ Hthrow eq_refl eq_refl) as [-> | [Ha _]]; [auto|].
      destruct (Ha Hic); auto.
  - intros [c ->]. cbn in Hic, Hcd.
    assert (Hcs : Image.has_compressed_source i = true)
      by (unfold Image.has_compressed_source, Image.compressed_source;
          now rewrite Hic, Hcd).
    destruct (format_error env i) as [e'|] eqn:Hfe.
    + injection Hthrow as ->. apply format_error_kind in Hfe.
      destruct Hfe as [-> | [name ->]]; eauto.
    + destruct (Image.hasNpot env) eqn:Hnp.
      * rewrite loadVolatileNPOT_eq in Hthrow.
        destruct (Hup _ _ _ Hthrow eq_refl eq_refl) as [-> | [_ Hb]]; [auto|].
        rewrite (Hb Hcs). auto 6.
      * rewrite loadVolatilePOT_eq in Hthrow. cbv zeta in Hthrow.
        destruct (npot_compressed i); [injection Hthrow as <-; auto|].
        destruct (Hup _ _ _ Hthrow eq_refl eq_refl) as [-> | [_ Hb]]; [auto|].
        rewrite (Hb Hcs). auto 6.
Qed.

Lemma load_errors_by_source_witness :
  let env := Samples.env_npot in
  let i0 := Image.new_from_ImageData env Samples.raw_100x50 Samples.world0 in
  let p := perform env
             (SetFilter (Filter.mk FILTER_LINEAR FILTER_LINEAR FILTER_LINEAR F32.one))
             i0 Samples.world0 in
  Image.how (Image.load env (Image.self p) (Image.world p))
    = Image.Thrown MipmapsNeedPowerOfTwo /\
  (MipmapsNeedPowerOfTwo = SizeMayBeTooLarge
   \/ MipmapsNeedPowerOfTwo = MipmapFilteringNotSupported
   \/ MipmapsNeedPowerOfTwo = MipmapsNeedPowerOfTwo).
Proof.
  intros env i0 p.
  assert (Hr : Reached env i0 Samples.world0 (Image.self p) (Image.world p))
    by (apply Reached_call; apply Reached_start).
  split; [reflexivity|].
  exact (proj1 (load_errors_by_source env i0 Samples.world0 _ _ _ Hr eq_refl)
           (ex_intro _ Samples.raw_100x50 eq_refl)).
Defined.

Lemma positions_pot_scaled i : positions (pot_scaled i) = positions (Image.vertices i).
Proof. unfold pot_scaled. destruct (Image.vertices i) as [a b c d]. reflexivity. Qed.

(** No call moves the corners of the quad: a load rewrites texture coordinates
    only. *)
Lemma perform_positions env c i w :
  positions (Image.vertices (Image.self (perform env c i w)))
  = positions (Image.vertices i).
Proof.
  destruct c as [| | f | x | s | f | s].
  - rewrite perform_load. cbn [Image.self].
    destruct (load_self env i w) as [[_ ->] | [[_ K] | [_ K]]]; [reflexivity | |];
      destruct K as (_ & _ & _ & _ & _ & _ & _ & _ & ->).
    + reflexivity.
    + apply positions_pot_scaled.
  - cbn [perform]. unfold Image.unload. rewrite unloadVolatile_eq.
    destruct (Image.texture i =? 0); reflexivity.
  - cbn [perform]. rewrite setFilter_eq. cbv zeta. cbn [Image.self].
    destruct (mipmap_creates env _); reflexivity.
  - cbn [perform]. rewrite setWrap_eq. reflexivity.
  - cbn [perform]. rewrite setMipmapSharpness_eq. reflexivity.
  - reflexivity.
  - reflexivity.
Qed.

(** Whatever calls are made on an image after its construction ([load],
    [unload], [setFilter], [setWrap], [setMipmapSharpness], the default
    setters), and whether they return or throw, the image keeps its pixel
    source, its width and its height, the positions of its quad still span
    (0,0) to (width, height), and [getRectangleVertices] answers as it did on
    the new image. *)
Theorem history_keeps_size_and_positions env i0 w0 i w :
  constructed env i0 w0 ->
  Reached env i0 w0 i w ->
  Image.getData i = Image.getData i0 /\
  Image.getWidth i = Image.getWidth i0 /\
  Image.getHeight i = Image.getHeight i0 /\
  positions (Image.getVertices i)
    = [(F32.zero, F32.zero); (F32.zero, Image.getHeight i0);
       (Image.getWidth i0, Image.getHeight i0); (Image.getWidth i0, F32.zero)] /\
  (forall x y w h,
     Image.getRectangleVertices i x y w h = Image.getRectangleVertices i0 x y w h).
Proof.
  intros Hc Hr.
  destruct (Reached_immutable env _ _ _ _ Hr) as (Hd & _ & Hw & Hh & _).
  unfold Image.getData, Image.getWidth, Image.getHeight, Image.getVertices.
  repeat split; try assumption.
  - assert (H0 : positions (Image.vertices i0)
                 = [(F32.zero, F32.zero); (F32.zero, Image.height i0);
                    (Image.width i0, Image.height i0); (Image.width i0, F32.zero)])
      by (destruct Hc as [[d ->] | [c ->]]; reflexivity).
    rewrite <- H0. clear H0 Hd Hw Hh Hc.
    induction Hr as [|c i w _ IH]; [reflexivity|].
    now rewrite perform_positions.
  - intros x y w' h. now apply getRectangleVertices_reads_size_only.
Qed.

Lemma history_keeps_size_and_positions_witness :
  let env := Samples.env_pot in
  let i0 := Image.new_from_ImageData env Samples.raw_100x50 Samples.world0 in
  let p := perform env Load i0 Samples.world0 in
  texcoords (Image.getVertices (Image.self p)) <> texcoords (Image.getVertices i0) /\
  positions (Image.getVertices (Image.self p))
    = [(F32.zero, F32.zero); (F32.zero, F32.of_int 50);
       (F32.of_int 100, F32.of_int 50); (F32.of_int 100, F32.zero)].
Proof.
  intros env i0 p.
  assert (Hc : constructed env i0 Samples.world0)
    by (left; exists Samples.raw_100x50; reflexivity).
  assert (Hr : Reached env i0 Samples.world0 (Image.self p) (Image.world p))
    by (apply Reached_call; apply Reached_start).
  split; [vm_compute; discriminate|].
  exact (proj1 (proj2 (proj2 (proj2
           (history_keeps_size_and_positions env i0 Samples.world0 _ _ Hc Hr))))).
Defined.

(** Asking for mipmaps on a compressed image whose format the system does not
    support fails silently: [checkMipmapsCreated] returns without creating
    mipmaps and without touching the object, having sent at most the bind. *)
Theorem checkMipmapsCreated_unsupported_format env i w c :
  Image.compressed_source i = Some c ->
  Image.data i = None ->
  Image.hasCompressedTextureSupport env (cd_type c) = false ->
  let r := Image.checkMipmapsCreated env i w in
  Image.how r = Image.Returned tt /\
  Image.self r = i /\
  glCalls (Image.world r)
    = glCalls w ++ (if Image.mipmapsCreated i
                       || negb (Image.wants_mipmaps (Image.filter i))
                    then [] else bind_calls i).
Proof.
  intros Hsrc Hd Hsup. cbv zeta. rewrite checkMipmapsCreated_eq.
  cbn [Image.how Image.self Image.world]. rewrite glCalls_issue.
  assert (Hic : Image.isCompressed i = true).
  { unfold Image.compressed_source in Hsrc.
    destruct (Image.isCompressed i); [reflexivity | discriminate]. }
  unfold mipmap_creates, mipmap_error, mipmap_calls, mipmap_uploads, creation_error,
    mipmap_skip, Image.has_compressed_source, Image.supported_compressed_source.
  rewrite Hsrc, Hsup, Hd, Hic. cbn [negb andb].
  destruct (Image.mipmapsCreated i || negb (Image.wants_mipmaps (Image.filter i)));
    cbn [negb andb]; repeat split.
  now rewrite app_nil_r.
Qed.

Lemma checkMipmapsCreated_unsupported_format_witness :
  let i0 := Image.new_from_CompressedData Samples.env_bare
              Samples.dxt1_64x64_short Samples.world0 in
  let i := Image.set_filter (Filter.with_mipmap FILTER_LINEAR (Image.filter i0)) i0 in
  let r := Image.checkMipmapsCreated Samples.env_bare i Samples.world0 in
  Image.how r = Image.Returned tt /\ Image.mipmapsCreated (Image.self r) = false.
Proof.
  intros i0 i r.
  pose proof (checkMipmapsCreated_unsupported_format Samples.env_bare i Samples.world0
                Samples.dxt1_64x64_short eq_refl eq_refl eq_refl) as (H1 & H2 & _).
  subst r. split; [exact H1 | now rewrite H2].
Defined.
